(** * build-webrtc: the build-matrix orchestration of tools/build-webrtc.py

    A shallow embedding of [tools/build-webrtc.py] and the properties of
    its build matrix, flag composition, environment composition, command
    sequencing and packaging.

    Strings are Rocq strings, the dictionaries ([ANDROID_CPU_ABI_MAP], the
    process environment) are stdpp [gmap]s, the effectful functions
    ([sh], [mkdirp], [rmr], [setup], [sync], [build], the main block) are
    written in a small state-and-exception monad over a model of the file
    system and of the child processes. *)

From Stdlib Require Import ZArith Ascii String List Lia Permutation.
From stdpp Require Import base option list gmap strings.

Local Open Scope string_scope.
Local Open Scope list_scope.
Local Open Scope Z_scope.

(** ** Python string primitives *)

Module Py.

(** [str % args] restricted to the [%s] conversion, the only one the
    script uses: the [%s] are replaced left to right.  Every format site
    of the script has a literal template whose number of [%s] is the
    number of arguments given to it ([fmt_arity] counts them), so the
    [TypeError] that Python raises on an arity mismatch cannot occur;
    here a [%s] without an argument stays as it is and arguments left
    over are dropped. *)
Fixpoint fmt (t : string) (args : list string) : string :=
  match t with
  | EmptyString => EmptyString
  | String c t' =>
      match t' with
      | String c' t'' =>
          if (Ascii.eqb c "%" && Ascii.eqb c' "s")%bool then
            match args with
            | a :: args' => a +:+ fmt t'' args'
            | [] => String c (fmt t' args)
            end
          else String c (fmt t' args)
      | EmptyString => String c EmptyString
      end
  end.

Fixpoint fmt_arity (t : string) : nat :=
  match t with
  | EmptyString => 0%nat
  | String c t' =>
      match t' with
      | String c' t'' =>
          if (Ascii.eqb c "%" && Ascii.eqb c' "s")%bool
          then S (fmt_arity t'') else fmt_arity t'
      | EmptyString => 0%nat
      end
  end.

(** [sep.join(parts)] *)
Definition join (sep : string) (parts : list string) : string :=
  String.concat sep parts.

(** [s.split(sep)] for a one-character separator. *)
Fixpoint split (sep : ascii) (s : string) : list string :=
  match s with
  | EmptyString => [EmptyString]
  | String c s' =>
      if Ascii.eqb c sep then EmptyString :: split sep s'
      else match split sep s' with
           | w :: ws => String c w :: ws
           | [] => [String c EmptyString]
           end
  end.

(** [s.startswith(p)] *)
Definition startswith (s p : string) : bool := String.prefix p s.

(** [str(b).lower()] *)
Definition str_lower_bool (b : bool) : string :=
  if b then "true" else "false".

(** [a, b = l]: exactly two elements, or [ValueError]. *)
Definition unpack2 {A} (l : list A) : option (A * A) :=
  match l with
  | [a; b] => Some (a, b)
  | _ => None
  end.

(** [os.path.join] of posixpath: an absolute component restarts the
    path, otherwise a separator is added unless the path so far is empty
    or already ends with one. *)
Fixpoint ends_with_slash (s : string) : bool :=
  match s with
  | EmptyString => false
  | String c EmptyString => Ascii.eqb c "/"
  | String _ s' => ends_with_slash s'
  end.

Definition isabs (p : string) : bool := String.prefix "/" p.

Definition slashed (a : string) : string :=
  if (String.eqb a EmptyString || ends_with_slash a)%bool then a else a +:+ "/".

Definition path_join2 (a b : string) : string :=
  if isabs b then b else slashed a +:+ b.

Definition path_join (a : string) (ps : list string) : string :=
  fold_left path_join2 ps a.

End Py.

(** ** Constants (lines 13-71) *)

(** The double-quote character of the flag values. *)
Definition DQ : string :=
  String (Ascii false true false false false true false false) EmptyString.

Definition ANDROID_CPU_ABI_MAP : gmap string string :=
  list_to_map
    [ ("arm",   "armeabi-v7a");
      ("arm64", "arm64-v8a");
      ("x86",   "x86");
      ("x64",   "x86_64") ].

Definition ANDROID_BUILD_CPUS : list string :=
  [ "arm"; "arm64"; "x86"; "x64" ].

Definition IOS_BUILD_ARCHS : list string :=
  [ "device:arm64"; "simulator:arm64"; "simulator:x64" ].

Definition MACOS_BUILD_ARCHS : list string :=
  [ "x64" ].

Definition GN_COMMON_ARGS : list string :=
  [ "treat_warnings_as_errors=false";
    "is_component_build=false";
    "rtc_libvpx_build_vp9=true";
    "is_debug=%s";
    "target_cpu=" +:+ DQ +:+ "%s" +:+ DQ ].

Definition _GN_APPLE_COMMON : list string :=
  [ "enable_dsyms=true";
    "rtc_include_tests=false" ].

Definition _GN_IOS_ARGS : list string :=
  [ "enable_ios_bitcode=true";
    "ios_deployment_target=" +:+ DQ +:+ "11.0" +:+ DQ;
    "ios_enable_code_signing=false";
    "target_os=" +:+ DQ +:+ "ios" +:+ DQ;
    "use_xcode_clang=true";
    "target_environment=" +:+ DQ +:+ "%s" +:+ DQ ].

Definition _GN_MACOS_ARGS : list string :=
  [ "target_os=" +:+ DQ +:+ "mac" +:+ DQ;
    "use_xcode_clang=false" ].

Definition _GN_ANDROID_ARGS : list string :=
  [ "target_os=" +:+ DQ +:+ "android" +:+ DQ ].

(** [build_gn_args] (lines 34-35) *)
Definition build_gn_args (platform_args : list string) : string :=
  "--args='" +:+ Py.join " " (GN_COMMON_ARGS ++ platform_args) +:+ "'".

Definition GN_IOS_ARGS : string := build_gn_args (_GN_APPLE_COMMON ++ _GN_IOS_ARGS).
Definition GN_MACOS_ARGS : string := build_gn_args (_GN_APPLE_COMMON ++ _GN_MACOS_ARGS).
Definition GN_ANDROID_ARGS : string := build_gn_args _GN_ANDROID_ARGS.

(** The simulator entries of an architecture list and the canonical one
    among them (lines 229-230: [simulators] and [simulators[0]], with the
    list as a parameter). *)
Definition simulators_of (archs : list string) : list string :=
  List.filter (fun item => Py.startswith item "simulator") archs.

Definition canonical_simulator (archs : list string) : option string :=
  simulators_of archs !! 0%nat.

(** ** The machine: exceptions, file system, child processes *)

Inductive errno := EEXIST | ENOENT | ENOTDIR | EISDIR.

Inductive exn :=
  | OSError (e : errno)
  | KeyError (key : string)
  | ValueError
  | IndexError
  | CalledProcessError (returncode : Z)
  | KeyboardInterrupt
  | SystemExit (code : Z).

Inductive result (A : Type) :=
  | Ret (a : A)
  | Raise (e : exn).
Arguments Ret {A} a.
Arguments Raise {A} e.

(** The file system is a map from absolute path strings to the kind of
    node found there. *)
Inductive node := File | Dir.

Definition fs_t := string -> option node.

Module FS.

(** [under r p]: [p] is [r] or lies in the tree below [r]. *)
Definition under (r p : string) : bool :=
  (String.eqb p r || String.prefix (Py.slashed r) p)%bool.

Definition resolve (cwd p : string) : string := Py.path_join2 cwd p.

Definition isdir (fs : fs_t) (p : string) : bool :=
  match fs p with Some Dir => true | _ => false end.

Definition exists_ (fs : fs_t) (p : string) : bool :=
  match fs p with Some _ => true | None => false end.

(** The proper prefixes of [s] that end just before a separator. *)
Fixpoint dirnames (s : string) : list string :=
  match s with
  | EmptyString => []
  | String c s' =>
      (if Ascii.eqb c "/" then [EmptyString] else [])
        ++ map (String c) (dirnames s')
  end.

Definition ancestors (p : string) : list string :=
  List.filter (fun q => negb (String.eqb q EmptyString) && negb (Py.ends_with_slash q))%bool
         (dirnames p).

Definition parent (p : string) : option string := last (ancestors p).

(** [os.path.basename] *)
Definition basename (p : string) : string :=
  List.last (Py.split "/" p) EmptyString.

(** [drop_prefix p s]: what is left of [s] after its prefix [p]. *)
Fixpoint drop_prefix (p s : string) : option string :=
  match p, s with
  | EmptyString, _ => Some s
  | String a p', String b s' => if Ascii.eqb a b then drop_prefix p' s' else None
  | String _ _, EmptyString => None
  end.

(** [rebase from to q]: the path that has below [to] the place that [q]
    has below [from]. *)
Definition rebase (from to q : string) : option string :=
  if String.eqb q from then Some to
  else match drop_prefix (Py.slashed from) q with
       | Some rest => Some (Py.slashed to +:+ rest)
       | None => None
       end.

(** [os.makedirs]: [EEXIST] when the path exists, [ENOTDIR] when a
    component of it is a file; otherwise the leaf and every missing
    ancestor become directories. *)
Definition makedirs (p : string) (fs : fs_t) : fs_t + errno :=
  if exists_ fs p then inr EEXIST
  else if existsb (fun a => match fs a with Some File => true | _ => false end) (ancestors p)
  then inr ENOTDIR
  else inl (fun q =>
              if (String.eqb q p || existsb (String.eqb q) (ancestors p))%bool
              then Some Dir else fs q).

(** [shutil.rmtree]: [ENOENT] when the path is missing, [ENOTDIR] when it
    is a file; otherwise the whole tree goes. *)
Definition rmtree (p : string) (fs : fs_t) : fs_t + errno :=
  match fs p with
  | None => inr ENOENT
  | Some File => inr ENOTDIR
  | Some Dir => inl (fun q => if under p q then None else fs q)
  end.

(** [shutil.copytree]: the source must be a directory, the destination
    must not exist and its parent must be a directory. *)
Definition copytree (src dst : string) (fs : fs_t) : fs_t + errno :=
  match fs src with
  | None => inr ENOENT
  | Some File => inr ENOTDIR
  | Some Dir =>
      if exists_ fs dst then inr EEXIST
      else if negb (from_option (isdir fs) false (parent dst)) then inr ENOENT
      else inl (fun q => match rebase dst src q with
                         | Some q' => fs q'
                         | None => fs q
                         end)
  end.

(** [shutil.move]: into the destination when that is a directory,
    onto it otherwise; the final place must be free and its parent a
    directory. *)
Definition move (src dst : string) (fs : fs_t) : fs_t + errno :=
  if negb (exists_ fs src) then inr ENOENT
  else
    let real_dst := if isdir fs dst then Py.path_join2 dst (basename src) else dst in
    if exists_ fs real_dst then inr EEXIST
    else if negb (from_option (isdir fs) false (parent real_dst)) then inr ENOENT
    else inl (fun q => match rebase real_dst src q with
                       | Some q' => fs q'
                       | None => if under src q then None else fs q
                       end).

(** [shutil.copy]: the source must be a file; it is copied into the
    destination when that is a directory, onto it otherwise. *)
Definition copy (src dst : string) (fs : fs_t) : fs_t + errno :=
  match fs src with
  | None => inr ENOENT
  | Some Dir => inr EISDIR
  | Some File =>
      let real_dst := if isdir fs dst then Py.path_join2 dst (basename src) else dst in
      if isdir fs real_dst then inr EISDIR
      else if negb (from_option (isdir fs) false (parent real_dst)) then inr ENOENT
      else inl (fun q => if String.eqb q real_dst then Some File else fs q)
  end.

End FS.

(** How a child process ends while [subprocess.check_call] waits for it:
    it exits with a status, or the wait is interrupted from the keyboard. *)
Inductive child_end :=
  | Exited (returncode : Z)
  | Interrupted.

(** The host of a run: the process environment, the behaviour of the
    external tools (the [n]-th child, its command line, environment and
    working directory, and the file system it finds, give how it ends and
    the file system it leaves) and [os.path.normpath]. *)
Record host := Host {
  environ : gmap string string;
  child : nat -> string -> gmap string string -> string -> fs_t -> child_end * fs_t;
  normpath : string -> string
}.

Inductive fsop :=
  | Makedirs (path : string)
  | Rmtree (path : string)
  | Copytree (src dst : string)
  | Move (src dst : string)
  | Copy (src dst : string)
  | Chdir (path : string).

Inductive event :=
  | EvPrint (line : string)
  | EvSpawn (cmd : string) (env : gmap string string) (cwd : string) (r : child_end)
  | EvFs (o : fsop) (err : option errno).

Record world := World {
  fs : fs_t;
  cwd : string;
  log : list event;
  spawned : nat
}.

Definition M (A : Type) : Type := world -> world * result A.

Definition ret {A} (a : A) : M A := fun w => (w, Ret a).

Definition raise {A} (e : exn) : M A := fun w => (w, Raise e).

Definition bind {A B} (m : M A) (f : A -> M B) : M B :=
  fun w => match m w with
           | (w', Ret a) => f a w'
           | (w', Raise e) => (w', Raise e)
           end.

Declare Scope prog_scope.
Delimit Scope prog_scope with prog.
Bind Scope prog_scope with M.
Notation "x <- y ;; z" := (bind y (fun x => z))
  (at level 20, y at level 99, z at level 200, only parsing) : prog_scope.
Notation "' p <- y ;; z" := (bind y (fun x => match x with p => z end))
  (at level 20, p pattern, y at level 99, z at level 200, only parsing) : prog_scope.
Notation "x ;; z" := (bind x (fun _ => z))
  (at level 100, z at level 200, only parsing, right associativity) : prog_scope.
Local Open Scope prog_scope.

(** [try: m except e: handler e] *)
Definition try_except {A} (m : M A) (handler : exn -> M A) : M A :=
  fun w => match m w with
           | (w', Raise e) => handler e w'
           | r => r
           end.

(** [if c: m] *)
Definition when (c : bool) (m : M unit) : M unit :=
  if c then m else ret tt.

(** [for x in l: body x] *)
Fixpoint for_ {A} (l : list A) (body : A -> M unit) : M unit :=
  match l with
  | [] => ret tt
  | x :: l' => body x ;; for_ l' body
  end.

(** A loop that updates a local variable. *)
Fixpoint for_acc {A S} (l : list A) (s : S) (body : S -> A -> M S) : M S :=
  match l with
  | [] => ret s
  | x :: l' => s' <- body s x ;; for_acc l' s' body
  end.

(** An operation that raises when its result is missing. *)
Definition expect {A} (o : option A) (e : exn) : M A :=
  match o with
  | Some a => ret a
  | None => raise e
  end.

Definition print (line : string) : M unit :=
  fun w => (World (fs w) (cwd w) (log w ++ [EvPrint line]) (spawned w), Ret tt).

Definition sys_exit {A} (code : Z) : M A := raise (SystemExit code).

Definition os_path_isdir (path : string) : M bool :=
  fun w => (w, Ret (FS.isdir (fs w) (FS.resolve (cwd w) path))).

(** The effect of a call of [os] or [shutil] on the file system, with
    relative paths taken from the working directory.  [os.chdir] raises
    [ENOENT] on a missing path and [ENOTDIR] on a file.  A path is
    looked up as [os.path.join] of the working directory and the path,
    so the empty path stands for the working directory, where Python
    raises [ENOENT]; [main] passes paths made from [os.path.abspath]. *)
Definition fs_apply (o : fsop) (cwd : string) (fs : fs_t) : fs_t + errno :=
  match o with
  | Makedirs p => FS.makedirs (FS.resolve cwd p) fs
  | Rmtree p => FS.rmtree (FS.resolve cwd p) fs
  | Copytree s d => FS.copytree (FS.resolve cwd s) (FS.resolve cwd d) fs
  | Move s d => FS.move (FS.resolve cwd s) (FS.resolve cwd d) fs
  | Copy s d => FS.copy (FS.resolve cwd s) (FS.resolve cwd d) fs
  | Chdir p =>
      if FS.isdir fs (FS.resolve cwd p) then inl fs
      else inr (if FS.exists_ fs (FS.resolve cwd p) then ENOTDIR else ENOENT)
  end.

Definition fs_cwd (o : fsop) (cwd : string) : string :=
  match o with
  | Chdir p => FS.resolve cwd p
  | _ => cwd
  end.

(** A call of [os] or [shutil]: it changes the file system or raises
    [OSError]. *)
Definition fs_call (o : fsop) : M unit :=
  fun w => match fs_apply o (cwd w) (fs w) with
           | inl fs' =>
               (World fs' (fs_cwd o (cwd w)) (log w ++ [EvFs o None]) (spawned w), Ret tt)
           | inr e =>
               (World (fs w) (cwd w) (log w ++ [EvFs o (Some e)]) (spawned w),
                Raise (OSError e))
           end.

Definition os_makedirs path := fs_call (Makedirs path).
Definition shutil_rmtree path := fs_call (Rmtree path).
Definition shutil_copytree src dst := fs_call (Copytree src dst).
Definition shutil_move src dst := fs_call (Move src dst).
Definition shutil_copy src dst := fs_call (Copy src dst).
Definition os_chdir path := fs_call (Chdir path).

Section Program.

Variable h : host.

(** [subprocess.check_call(cmd, env=env, cwd=cwd, shell=True, ...)]:
    [OSError] when the working directory asked for is not a directory
    ([ENOENT] when it is missing, [ENOTDIR] when it is a file; no child
    is spawned), [CalledProcessError] when the child exits with a
    non-zero status, [KeyboardInterrupt] when the wait is interrupted. *)
Definition check_call (cmd : string) (env : option (gmap string string))
    (cwd_arg : option string) : M unit :=
  fun w =>
    let dir := from_option (FS.resolve (cwd w)) (cwd w) cwd_arg in
    if (bool_decide (is_Some cwd_arg) && negb (FS.isdir (fs w) dir))%bool
    then (w, Raise (OSError (if FS.exists_ (fs w) dir then ENOTDIR else ENOENT)))
    else
      let env' := from_option id (environ h) env in
      let '(r, fs') := child h (spawned w) cmd env' dir (fs w) in
      (World fs' (cwd w) (log w ++ [EvSpawn cmd env' dir r]) (S (spawned w)),
       match r with
       | Exited rc => if Z.eqb rc 0 then Ret tt else Raise (CalledProcessError rc)
       | Interrupted => Raise KeyboardInterrupt
       end).

(** [sh] (lines 76-83) *)
Definition sh (cmd : string) (env : option (gmap string string))
    (cwd_arg : option string) : M unit :=
  print (Py.fmt "Running cmd: %s" [cmd]) ;;
  try_except (check_call cmd env cwd_arg)
    (fun e => match e with
              | CalledProcessError returncode => sys_exit returncode
              | KeyboardInterrupt => ret tt
              | _ => raise e
              end).

(** [mkdirp] (lines 85-90) *)
Definition mkdirp (path : string) : M unit :=
  try_except (os_makedirs path)
    (fun e => match e with
              | OSError EEXIST => ret tt
              | _ => raise e
              end).

(** [rmr] (lines 92-97) *)
Definition rmr (path : string) : M unit :=
  try_except (shutil_rmtree path)
    (fun e => match e with
              | OSError ENOENT => ret tt
              | _ => raise e
              end).

(** [os.path.abspath] *)
Definition os_path_abspath (path : string) : M string :=
  fun w => (w, Ret (normpath h (Py.path_join2 (cwd w) path))).

(** ** The Real Deal *)

(** The block "Prepare environment" of [setup] (lines 112-114). *)
Definition setup_env (depot_tools_dir : string) : M (gmap string string) :=
  let env := environ h in
  path <- expect (env !! "PATH") (KeyError "PATH") ;;
  ret (<["PATH" := Py.fmt "%s:%s" [path; depot_tools_dir]]> env).

(** [setup] (lines 102-131) *)
Definition setup (target_dir platform : string) : M unit :=
  mkdirp target_dir ;;
  os_chdir target_dir ;;
  (* Maybe fetch depot_tools *)
  let depot_tools_dir := Py.path_join target_dir ["depot_tools"] in
  isd <- os_path_isdir depot_tools_dir ;;
  when (negb isd)
    (print "Fetching Chromium depot_tools..." ;;
     sh "git clone https://chromium.googlesource.com/chromium/tools/depot_tools.git"
        None None) ;;
  env <- setup_env depot_tools_dir ;;
  (* Maybe fetch WebRTC *)
  let webrtc_dir := Py.path_join target_dir ["webrtc"; platform] in
  isd <- os_path_isdir webrtc_dir ;;
  when (negb isd)
    (mkdirp webrtc_dir ;;
     os_chdir webrtc_dir ;;
     print (Py.fmt "Fetching WebRTC for %s..." [platform]) ;;
     sh (Py.fmt "fetch --nohooks webrtc_%s" [platform]) (Some env) None) ;;
  (* Run gclient *)
  sh "gclient sync" (Some env) None ;;
  (* Install dependencies *)
  when (String.eqb platform "android")
    (let webrtc_dir := Py.path_join target_dir ["webrtc"; platform; "src"] in
     os_chdir webrtc_dir ;;
     sh "./build/install-build-deps.sh" None None).

(** The block "Prepare environment" of [sync] (lines 143-152) and of
    [build] (lines 169-178), the same text in both. *)
Definition prepare_env (platform depot_tools_dir webrtc_dir : string)
    : M (gmap string string) :=
  let env := environ h in
  path <- expect (env !! "PATH") (KeyError "PATH") ;;
  let path_parts := [path; depot_tools_dir] in
  let path_parts :=
    if String.eqb platform "android" then
      (* Same as . build/android/envsetup.sh *)
      let android_sdk_root := Py.path_join webrtc_dir ["third_party/android_sdk/public"] in
      path_parts
        ++ [Py.path_join android_sdk_root ["platform-tools"]]
        ++ [Py.path_join android_sdk_root ["tools"]]
        ++ [Py.path_join webrtc_dir ["build/android"]]
    else path_parts in
  ret (<["PATH" := Py.join ":" path_parts]> env).

(** [sync] (lines 134-156) *)
Definition sync (target_dir platform : string) : M unit :=
  let build_dir := Py.path_join target_dir ["build"; platform] in
  let depot_tools_dir := Py.path_join target_dir ["depot_tools"] in
  let webrtc_dir := Py.path_join target_dir ["webrtc"; platform; "src"] in
  isd <- os_path_isdir webrtc_dir ;;
  when (negb isd)
    (print "WebRTC source not found, did you forget to run --setup?" ;;
     sys_exit 1) ;;
  env <- prepare_env platform depot_tools_dir webrtc_dir ;;
  os_chdir webrtc_dir ;;
  sh "gclient sync -D" (Some env) None.

(** "Run GN" (lines 185-203) *)
Definition build_run_gn (platform build_type : string) (debug : bool)
    (env : gmap string string) : M unit :=
  if String.eqb platform "ios" then
    for_ IOS_BUILD_ARCHS (fun item =>
      '(tenv, arch) <- expect (Py.unpack2 (Py.split ":" item)) ValueError ;;
      let gn_out_dir := Py.fmt "out/%s-ios-%s-%s" [build_type; tenv; arch] in
      let gn_args := Py.fmt GN_IOS_ARGS [Py.str_lower_bool debug; arch; tenv] in
      let gn_cmd := Py.fmt "gn gen %s %s" [gn_out_dir; gn_args] in
      sh gn_cmd (Some env) None) ;;
    for_ MACOS_BUILD_ARCHS (fun arch =>
      let gn_out_dir := Py.fmt "out/%s-macos-%s" [build_type; arch] in
      let gn_args := Py.fmt GN_MACOS_ARGS [Py.str_lower_bool debug; arch] in
      let gn_cmd := Py.fmt "gn gen %s %s" [gn_out_dir; gn_args] in
      sh gn_cmd (Some env) None)
  else
    for_ ANDROID_BUILD_CPUS (fun cpu =>
      let gn_out_dir := Py.fmt "out/%s-%s" [build_type; cpu] in
      let gn_args := Py.fmt GN_ANDROID_ARGS [Py.str_lower_bool debug; cpu] in
      let gn_cmd := Py.fmt "gn gen %s %s" [gn_out_dir; gn_args] in
      sh gn_cmd (Some env) None).

(** "Build with Ninja" (lines 205-220) *)
Definition build_ninja (platform build_type : string)
    (env : gmap string string) : M unit :=
  if String.eqb platform "ios" then
    for_ IOS_BUILD_ARCHS (fun item =>
      '(tenv, arch) <- expect (Py.unpack2 (Py.split ":" item)) ValueError ;;
      let gn_out_dir := Py.fmt "out/%s-ios-%s-%s" [build_type; tenv; arch] in
      let ninja_cmd := Py.fmt "ninja -C %s framework_objc" [gn_out_dir] in
      sh ninja_cmd (Some env) None) ;;
    for_ MACOS_BUILD_ARCHS (fun arch =>
      let gn_out_dir := Py.fmt "out/%s-macos-%s" [build_type; arch] in
      let ninja_cmd := Py.fmt "ninja -C %s mac_framework_objc" [gn_out_dir] in
      sh ninja_cmd (Some env) None)
  else
    for_ ANDROID_BUILD_CPUS (fun cpu =>
      let gn_out_dir := Py.fmt "out/%s-%s" [build_type; cpu] in
      let ninja_cmd :=
        Py.fmt "ninja -C %s libwebrtc libjingle_peerconnection_so" [gn_out_dir] in
      sh ninja_cmd (Some env) None).

(** "Copy build artifacts to build directory", the branch of iOS
    (lines 227-278) *)
Definition build_copy_ios (build_dir build_type : string) : M unit :=
  (* Fat simulators (we need a single slice for both simulators) *)
  let simulators := simulators_of IOS_BUILD_ARCHS in
  sim0 <- expect (canonical_simulator IOS_BUILD_ARCHS) IndexError ;;
  '(tenv, arch) <- expect (Py.unpack2 (Py.split ":" sim0)) ValueError ;;
  let gn_out_dir := Py.fmt "out/%s-ios-%s-%s" [build_type; tenv; arch] in
  shutil_copytree (Py.path_join gn_out_dir ["WebRTC.framework"])
                  (Py.path_join gn_out_dir ["fat-WebRTC.framework"]) ;;
  let out_lib_path := Py.path_join gn_out_dir ["fat-WebRTC.framework"; "WebRTC"] in
  slice_paths <- for_acc simulators [] (fun slice_paths item =>
    '(tenv, arch) <- expect (Py.unpack2 (Py.split ":" item)) ValueError ;;
    let lib_path :=
      Py.path_join (Py.fmt "out/%s-ios-%s-%s" [build_type; tenv; arch])
                   ["WebRTC.framework"; "WebRTC"] in
    ret (slice_paths ++ [lib_path])) ;;
  sh (Py.fmt "lipo %s -create -output %s" [Py.join " " slice_paths; out_lib_path])
     None None ;;
  let orig_framework_path := Py.path_join gn_out_dir ["WebRTC.framework"] in
  let bak_framework_path := Py.path_join gn_out_dir ["bak-WebRTC.framework"] in
  let fat_framework_path := Py.path_join gn_out_dir ["fat-WebRTC.framework"] in
  shutil_move orig_framework_path bak_framework_path ;;
  shutil_move fat_framework_path orig_framework_path ;;
  let _IOS_BUILD_ARCHS :=
    List.filter (fun item => negb (Py.startswith item "simulator")) IOS_BUILD_ARCHS in
  sim0 <- expect (canonical_simulator IOS_BUILD_ARCHS) IndexError ;;
  let _IOS_BUILD_ARCHS := _IOS_BUILD_ARCHS ++ [sim0] in
  (* XCFramework *)
  let xcframework_path := Py.path_join build_dir ["WebRTC.xcframework"] in
  let xcodebuild_cmd :=
    Py.fmt "xcodebuild -create-xcframework -output %s" [xcframework_path] in
  xcodebuild_cmd <- for_acc _IOS_BUILD_ARCHS xcodebuild_cmd (fun xcodebuild_cmd item =>
    '(tenv, arch) <- expect (Py.unpack2 (Py.split ":" item)) ValueError ;;
    let gn_out_dir := Py.fmt "out/%s-ios-%s-%s" [build_type; tenv; arch] in
    ret (xcodebuild_cmd
           +:+ Py.fmt " -framework %s" [Py.path_join gn_out_dir ["WebRTC.framework"]])) ;;
  xcodebuild_cmd <- for_acc MACOS_BUILD_ARCHS xcodebuild_cmd (fun xcodebuild_cmd arch =>
    let gn_out_dir := Py.fmt "out/%s-macos-%s" [build_type; arch] in
    ret (xcodebuild_cmd
           +:+ Py.fmt " -framework %s" [Py.path_join gn_out_dir ["WebRTC.framework"]])) ;;
  sh xcodebuild_cmd None None ;;
  sh "tar zcf WebRTC.xcframework-bitcode.tgz WebRTC.xcframework" None (Some build_dir) ;;
  rmr xcframework_path ;;
  (* XCFramework (stripped) *)
  let xcodebuild_cmd :=
    Py.fmt "xcodebuild -create-xcframework -output %s" [xcframework_path] in
  let bitcode_strip_cmd := "xcrun bitcode_strip -r %s -o %s" in
  xcodebuild_cmd <- for_acc _IOS_BUILD_ARCHS xcodebuild_cmd (fun xcodebuild_cmd item =>
    '(tenv, arch) <- expect (Py.unpack2 (Py.split ":" item)) ValueError ;;
    let gn_out_dir := Py.fmt "out/%s-ios-%s-%s" [build_type; tenv; arch] in
    let xcodebuild_cmd :=
      xcodebuild_cmd
        +:+ Py.fmt " -framework %s" [Py.path_join gn_out_dir ["WebRTC.framework"]] in
    let framework_path := Py.path_join gn_out_dir ["WebRTC.framework"; "WebRTC"] in
    sh (Py.fmt bitcode_strip_cmd [framework_path; framework_path]) None None ;;
    ret xcodebuild_cmd) ;;
  xcodebuild_cmd <- for_acc MACOS_BUILD_ARCHS xcodebuild_cmd (fun xcodebuild_cmd arch =>
    let gn_out_dir := Py.fmt "out/%s-macos-%s" [build_type; arch] in
    ret (xcodebuild_cmd
           +:+ Py.fmt " -framework %s" [Py.path_join gn_out_dir ["WebRTC.framework"]])) ;;
  sh xcodebuild_cmd None None ;;
  sh "tar zcf WebRTC.xcframework.tgz WebRTC.xcframework" None (Some build_dir) ;;
  rmr xcframework_path.

(** "Copy build artifacts to build directory", the other branch
    (lines 279-291) *)
Definition build_copy_android (build_dir build_type : string) : M unit :=
  cpu0 <- expect (ANDROID_BUILD_CPUS !! 0%nat) IndexError ;;
  let gn_out_dir := Py.fmt "out/%s-%s" [build_type; cpu0] in
  shutil_copy (Py.path_join gn_out_dir ["lib.java/sdk/android/libwebrtc.jar"]) build_dir ;;
  for_ ANDROID_BUILD_CPUS (fun cpu =>
    abi <- expect (ANDROID_CPU_ABI_MAP !! cpu) (KeyError cpu) ;;
    let lib_dir := Py.path_join build_dir ["lib"; abi] in
    mkdirp lib_dir ;;
    let gn_out_dir := Py.fmt "out/%s-%s" [build_type; cpu] in
    shutil_copy (Py.path_join gn_out_dir ["libjingle_peerconnection_so.so"]) lib_dir) ;;
  sh "jar cvfM libjingle_peerconnection.so.jar lib" None (Some build_dir) ;;
  rmr (Py.path_join build_dir ["lib"]) ;;
  sh "tar zcf android-webrtc.tgz *.jar" None (Some build_dir).

(** [build] (lines 159-291) *)
Definition build (target_dir platform : string) (debug : bool) : M unit :=
  let build_dir := Py.path_join target_dir ["build"; platform] in
  let build_type := if debug then "Debug" else "Release" in
  let depot_tools_dir := Py.path_join target_dir ["depot_tools"] in
  let webrtc_dir := Py.path_join target_dir ["webrtc"; platform; "src"] in
  isd <- os_path_isdir webrtc_dir ;;
  when (negb isd)
    (print "WebRTC source not found, did you forget to run --setup?" ;;
     sys_exit 1) ;;
  env <- prepare_env platform depot_tools_dir webrtc_dir ;;
  os_chdir webrtc_dir ;;
  (* Cleanup old build *)
  rmr "out" ;;
  build_run_gn platform build_type debug env ;;
  build_ninja platform build_type env ;;
  (* Cleanup build dir *)
  rmr build_dir ;;
  mkdirp build_dir ;;
  if String.eqb platform "ios"
  then build_copy_ios build_dir build_type
  else build_copy_android build_dir build_type.

(** The parsed command line (lines 295-304). *)
Record Args := MkArgs {
  arg_dir : string;
  arg_setup : bool;
  arg_build : bool;
  arg_sync : bool;
  arg_ios : bool;
  arg_android : bool;
  arg_debug : bool
}.

(** The main block (lines 306-342) *)
Definition main (args : Args) : M unit :=
  when (negb (arg_setup args || arg_build args || arg_sync args))
    (print "--setup or --build must be specified!" ;; sys_exit 1) ;;
  when (arg_setup args && arg_build args)
    (print "--setup and --build cannot be specified at the same time!" ;; sys_exit 1) ;;
  when (negb (arg_ios args || arg_android args))
    (print "--ios or --android must be specified!" ;; sys_exit 1) ;;
  when (arg_ios args && arg_android args)
    (print "--ios and --android cannot be specified at the same time!" ;; sys_exit 1) ;;
  isd <- os_path_isdir (arg_dir args) ;;
  when (negb isd)
    (print "The specified directory does not exist!" ;; sys_exit 1) ;;
  target_dir <- os_path_abspath (Py.path_join (arg_dir args) ["build_webrtc"]) ;;
  let platform := if arg_ios args then "ios" else "android" in
  when (arg_setup args)
    (setup target_dir platform ;;
     print (Py.fmt "WebRTC setup for %s completed in %s" [platform; target_dir]) ;;
     sys_exit 0) ;;
  when (arg_sync args)
    (sync target_dir platform ;;
     print (Py.fmt "WebRTC sync for %s completed in %s" [platform; target_dir]) ;;
     sys_exit 0) ;;
  when (arg_build args)
    (build target_dir platform (arg_debug args) ;;
     print (Py.fmt "WebRTC build for %s completed in %s" [platform; target_dir]) ;;
     sys_exit 0).

End Program.

(** The exit status of the process: that of [sys.exit], 1 after an
    exception that nothing catches, 0 when the script runs to its end. *)
Definition exit_status {A} (r : result A) : Z :=
  match r with
  | Ret _ => 0
  | Raise (SystemExit code) => code mod 256
  | Raise _ => 1
  end.

(** A run from a fresh log. *)
Definition start (fs0 : fs_t) (cwd0 : string) : world := World fs0 cwd0 [] 0.



(** * Observations and specification-side definitions *)

(** ** Flag sets *)

(** The flags that a composed [--args='...'] string carries: the words
    between the quotes. *)
Definition flag_set (gn_args : string) : list string :=
  match FS.drop_prefix "--args='" gn_args with
  | Some rest =>
      match Py.split "'" rest with
      | inner :: _ => Py.split " " inner
      | [] => []
      end
  | None => []
  end.

(** The composed flag strings of the three kinds of target, as the
    "Run GN" block forms them (lines 188-190, 195, 201). *)
Definition gn_args_ios (debug : bool) (item : string) : option string :=
  '(tenv, arch) ← Py.unpack2 (Py.split ":" item);
  Some (Py.fmt GN_IOS_ARGS [Py.str_lower_bool debug; arch; tenv]).

Definition gn_args_macos (debug : bool) (arch : string) : option string :=
  Some (Py.fmt GN_MACOS_ARGS [Py.str_lower_bool debug; arch]).

Definition gn_args_android (debug : bool) (cpu : string) : option string :=
  Some (Py.fmt GN_ANDROID_ARGS [Py.str_lower_bool debug; cpu]).

Definition flag_count (gn_args : option string) : option nat :=
  (fun s => length (flag_set s)) <$> gn_args.

(** The entries of a flag table that carry no placeholder. *)
Definition constant_flags (table : list string) : list string :=
  List.filter (fun f => Nat.eqb (Py.fmt_arity f) 0) table.

(** ** Search paths *)

(** [placed_before d inherited composed]: in the search path [composed],
    the directory [d] stands somewhere before the inherited search path. *)
Definition placed_before (d inherited composed : string) : Prop :=
  exists a b c, composed = a +:+ d +:+ b +:+ inherited +:+ c.

(** A host with one variable in its environment, tools that exit with
    status zero and leave the file system as it is. *)
Definition quiet_host (path : string) : host :=
  Host {[ "PATH" := path ]} (fun _ _ _ _ fs => (Exited 0, fs)) id.

Definition empty_fs : fs_t := fun _ => None.

(** ** Traces *)

(** The fail-fast shape of the events [evs] that a computation adds to
    the log and of its result [r]: a child that exits with a non-zero
    status is the last event, and the result is [sys.exit] with that
    status. *)
Definition fail_fast_trace {A} (evs : list event) (r : result A) : Prop :=
  forall i cmd env d c,
    evs !! i = Some (EvSpawn cmd env d (Exited c)) -> c <> 0 ->
    r = Raise (SystemExit c) /\ length evs = S i.

Definition fail_fast {A} (m : M A) : Prop :=
  forall w, exists evs,
    log (m w).1 = log w ++ evs /\ fail_fast_trace evs (m w).2.

(** ** Sample hosts and file systems *)

(** A prepared source tree for Android below [/w/build_webrtc]. *)
Definition android_tree : fs_t := fun p =>
  if existsb (String.eqb p)
       [ "/"; "/w"; "/w/build_webrtc"; "/w/build_webrtc/webrtc";
         "/w/build_webrtc/webrtc/android"; "/w/build_webrtc/webrtc/android/src" ]
  then Some Dir else None.

(** A host whose [n]-th child ends as [r] and whose other children exit
    with status zero; no child touches the file system. *)
Definition host_with (n : nat) (r : child_end) : host :=
  Host {[ "PATH" := "/usr/bin" ]}
       (fun k _ _ _ fs => (if Nat.eqb k n then r else Exited 0, fs)) id.

Definition build_android_args : Args :=
  MkArgs "/w" false true false false true false.

Definition sync_ios_args : Args :=
  MkArgs "/w" false false true true false false.

(** ** Plans: straight-line lists of operations *)

(** One planned operation of a run: a command for [sh], a directory for
    [mkdirp] or [rmr], or a call of [os] or [shutil]. *)
Inductive step :=
  | SSh (cmd : string) (env : option (gmap string string)) (cwd_arg : option string)
  | SMkdirp (path : string)
  | SRmr (path : string)
  | SFs (o : fsop).

Definition exec (h : host) (s : step) : M unit :=
  match s with
  | SSh cmd env cwd_arg => sh h cmd env cwd_arg
  | SMkdirp path => mkdirp path
  | SRmr path => rmr path
  | SFs o => fs_call o
  end.

Definition run_steps (h : host) (l : list step) : M unit := for_ l (exec h).

(** ** The build plan in the words of the specification

    Modelled from the spec: the planner, the output directory name, the
    flag builder and the three phases that follow them, to be compared
    with [build]. *)

Inductive target_kind :=
  | Mobile (variant : string)
  | Desktop
  | Native.

Record BuildTarget := Target { kind : target_kind; architecture : string }.

Definition mobile_target (item : string) : option BuildTarget :=
  '(tenv, arch) ← Py.unpack2 (Py.split ":" item);
  Some (Target (Mobile tenv) arch).

(** TargetMatrixPlanner *)
Definition targets (platform : string) : list BuildTarget :=
  if String.eqb platform "ios"
  then omap mobile_target IOS_BUILD_ARCHS ++ map (Target Desktop) MACOS_BUILD_ARCHS
  else map (Target Native) ANDROID_BUILD_CPUS.

(** The output directory of a target: a function of the build type, the
    platform, the variant and the architecture. *)
Definition outputDirName (build_type : string) (t : BuildTarget) : string :=
  match kind t with
  | Mobile variant => Py.fmt "out/%s-ios-%s-%s" [build_type; variant; architecture t]
  | Desktop => Py.fmt "out/%s-macos-%s" [build_type; architecture t]
  | Native => Py.fmt "out/%s-%s" [build_type; architecture t]
  end.

(** ConfigArgBuilder *)
Definition buildFlags (debug : bool) (t : BuildTarget) : string :=
  match kind t with
  | Mobile variant =>
      Py.fmt GN_IOS_ARGS [Py.str_lower_bool debug; architecture t; variant]
  | Desktop => Py.fmt GN_MACOS_ARGS [Py.str_lower_bool debug; architecture t]
  | Native => Py.fmt GN_ANDROID_ARGS [Py.str_lower_bool debug; architecture t]
  end.

Definition is_simulator (t : BuildTarget) : bool :=
  match kind t with Mobile variant => String.eqb variant "simulator" | _ => false end.

Definition is_device (t : BuildTarget) : bool :=
  match kind t with Mobile variant => negb (String.eqb variant "simulator") | _ => false end.

Definition is_desktop (t : BuildTarget) : bool :=
  match kind t with Desktop => true | _ => false end.

Section Plan.

(** [D] names the output directory of a target in all three phases. *)
Variable D : BuildTarget -> string.

Definition generate_step (debug : bool) (env : gmap string string) (t : BuildTarget) : step :=
  SSh (Py.fmt "gn gen %s %s" [D t; buildFlags debug t]) (Some env) None.

Definition compile_step (env : gmap string string) (t : BuildTarget) : step :=
  SSh (match kind t with
       | Mobile _ => Py.fmt "ninja -C %s framework_objc" [D t]
       | Desktop => Py.fmt "ninja -C %s mac_framework_objc" [D t]
       | Native => Py.fmt "ninja -C %s libwebrtc libjingle_peerconnection_so" [D t]
       end) (Some env) None.

Definition framework (t : BuildTarget) : string :=
  Py.path_join (D t) ["WebRTC.framework"].

Definition framework_binary (t : BuildTarget) : string :=
  Py.path_join (D t) ["WebRTC.framework"; "WebRTC"].

Definition bundle_cmd (xcframework_path : string) (ts : list BuildTarget) : string :=
  fold_left (fun cmd t => cmd +:+ Py.fmt " -framework %s" [framework t]) ts
    (Py.fmt "xcodebuild -create-xcframework -output %s" [xcframework_path]).

Definition strip_step (t : BuildTarget) : step :=
  SSh (Py.fmt "xcrun bitcode_strip -r %s -o %s" [framework_binary t; framework_binary t])
      None None.

Definition assemble_ios (build_dir : string) (ts : list BuildTarget) : list step :=
  let simulators := List.filter is_simulator ts in
  match simulators with
  | [] => []
  | canonical :: _ =>
      let effective := List.filter is_device ts ++ [canonical] in
      let bundled := effective ++ List.filter is_desktop ts in
      let xcframework_path := Py.path_join build_dir ["WebRTC.xcframework"] in
      [ SFs (Copytree (framework canonical)
                      (Py.path_join (D canonical) ["fat-WebRTC.framework"]));
        SSh (Py.fmt "lipo %s -create -output %s"
               [Py.join " " (map framework_binary simulators);
                Py.path_join (D canonical) ["fat-WebRTC.framework"; "WebRTC"]])
            None None;
        SFs (Move (framework canonical)
                  (Py.path_join (D canonical) ["bak-WebRTC.framework"]));
        SFs (Move (Py.path_join (D canonical) ["fat-WebRTC.framework"])
                  (framework canonical));
        SSh (bundle_cmd xcframework_path bundled) None None;
        SSh "tar zcf WebRTC.xcframework-bitcode.tgz WebRTC.xcframework"
            None (Some build_dir);
        SRmr xcframework_path ]
      ++ map strip_step effective
      ++ [ SSh (bundle_cmd xcframework_path bundled) None None;
           SSh "tar zcf WebRTC.xcframework.tgz WebRTC.xcframework" None (Some build_dir);
           SRmr xcframework_path ]
  end.

Definition stage_steps (build_dir : string) (t : BuildTarget) : list step :=
  match ANDROID_CPU_ABI_MAP !! architecture t with
  | Some abi =>
      [ SMkdirp (Py.path_join build_dir ["lib"; abi]);
        SFs (Copy (Py.path_join (D t) ["libjingle_peerconnection_so.so"])
                  (Py.path_join build_dir ["lib"; abi])) ]
  | None => []
  end.

Definition assemble_android (build_dir : string) (ts : list BuildTarget) : list step :=
  match ts with
  | [] => []
  | first :: _ =>
      [ SFs (Copy (Py.path_join (D first) ["lib.java/sdk/android/libwebrtc.jar"])
                  build_dir) ]
      ++ concat (map (stage_steps build_dir) ts)
      ++ [ SSh "jar cvfM libjingle_peerconnection.so.jar lib" None (Some build_dir);
           SRmr (Py.path_join build_dir ["lib"]);
           SSh "tar zcf android-webrtc.tgz *.jar" None (Some build_dir) ]
  end.

(** BuildOrchestrator: clean, generate, compile, assemble. *)
Definition build_plan (target_dir platform : string) (debug : bool)
    (env : gmap string string) : list step :=
  let build_dir := Py.path_join target_dir ["build"; platform] in
  let webrtc_dir := Py.path_join target_dir ["webrtc"; platform; "src"] in
  [ SFs (Chdir webrtc_dir); SRmr "out" ]
  ++ map (generate_step debug env) (targets platform)
  ++ map (compile_step env) (targets platform)
  ++ [ SRmr build_dir; SMkdirp build_dir ]
  ++ (if String.eqb platform "ios"
      then assemble_ios build_dir (targets platform)
      else assemble_android build_dir (targets platform)).

End Plan.

Definition platform_name (ios : bool) : string := if ios then "ios" else "android".
Definition build_type_name (debug : bool) : string := if debug then "Debug" else "Release".

(** The run of [build] in terms of the plan: the precondition, the
    environment, then the steps. *)
Definition planned_build (h : host) (D : BuildTarget -> string)
    (target_dir platform : string) (debug : bool) : M unit :=
  fun w =>
    let webrtc_dir := Py.path_join target_dir ["webrtc"; platform; "src"] in
    let depot_tools_dir := Py.path_join target_dir ["depot_tools"] in
    if FS.isdir (fs w) (FS.resolve (cwd w) webrtc_dir) then
      match prepare_env h platform depot_tools_dir webrtc_dir w with
      | (_, Ret env) => run_steps h (build_plan D target_dir platform debug env) w
      | (_, Raise e) => (w, Raise e)
      end
    else
      (World (fs w) (cwd w)
         (log w ++ [EvPrint "WebRTC source not found, did you forget to run --setup?"])
         (spawned w),
       Raise (SystemExit 1)).

(** ** The events of a plan *)

Definition sh_line (cmd : string) : event :=
  EvPrint (Py.fmt "Running cmd: %s" [cmd]).

(** What one step adds to the log and how it ends. *)
Inductive step_trace : step -> list event -> result unit -> Prop :=
  | st_sh_no_dir cmd env cwd_arg e :
      e = ENOENT \/ e = ENOTDIR ->
      step_trace (SSh cmd env cwd_arg) [sh_line cmd] (Raise (OSError e))
  | st_sh_zero cmd env cwd_arg env' dir :
      step_trace (SSh cmd env cwd_arg)
        [sh_line cmd; EvSpawn cmd env' dir (Exited 0)] (Ret tt)
  | st_sh_interrupted cmd env cwd_arg env' dir :
      step_trace (SSh cmd env cwd_arg)
        [sh_line cmd; EvSpawn cmd env' dir Interrupted] (Ret tt)
  | st_sh_failed cmd env cwd_arg env' dir rc :
      rc <> 0 ->
      step_trace (SSh cmd env cwd_arg)
        [sh_line cmd; EvSpawn cmd env' dir (Exited rc)] (Raise (SystemExit rc))
  | st_mkdirp_done path :
      step_trace (SMkdirp path) [EvFs (Makedirs path) None] (Ret tt)
  | st_mkdirp_exists path :
      step_trace (SMkdirp path) [EvFs (Makedirs path) (Some EEXIST)] (Ret tt)
  | st_mkdirp_error path e :
      e <> EEXIST ->
      step_trace (SMkdirp path) [EvFs (Makedirs path) (Some e)] (Raise (OSError e))
  | st_rmr_done path :
      step_trace (SRmr path) [EvFs (Rmtree path) None] (Ret tt)
  | st_rmr_missing path :
      step_trace (SRmr path) [EvFs (Rmtree path) (Some ENOENT)] (Ret tt)
  | st_rmr_error path e :
      e <> ENOENT ->
      step_trace (SRmr path) [EvFs (Rmtree path) (Some e)] (Raise (OSError e))
  | st_fs_done o :
      step_trace (SFs o) [EvFs o None] (Ret tt)
  | st_fs_error o e :
      step_trace (SFs o) [EvFs o (Some e)] (Raise (OSError e)).

(** The events of a plan: the steps in order, up to the first one that
    raises. *)
Inductive plan_trace : list step -> list event -> result unit -> Prop :=
  | pt_nil : plan_trace [] [] (Ret tt)
  | pt_go s l e1 e2 r :
      step_trace s e1 (Ret tt) -> plan_trace l e2 r ->
      plan_trace (s :: l) (e1 ++ e2) r
  | pt_stop s l e1 x :
      step_trace s e1 (Raise x) -> plan_trace (s :: l) e1 (Raise x).

(** ** Commands of the packaging *)

Definition is_strip_cmd (cmd : string) : bool :=
  Py.startswith cmd "xcrun bitcode_strip".

Definition bitcode_archive_cmd : string :=
  "tar zcf WebRTC.xcframework-bitcode.tgz WebRTC.xcframework".

Definition stripped_archive_cmd : string :=
  "tar zcf WebRTC.xcframework.tgz WebRTC.xcframework".

Definition jar_cmd : string := "jar cvfM libjingle_peerconnection.so.jar lib".

Definition android_archive_cmd : string := "tar zcf android-webrtc.tgz *.jar".

(** A prepared source tree for iOS below [/w/build_webrtc], and tools
    that leave the frameworks of the four targets in place, whatever the
    command. *)
Definition ios_tree : fs_t := fun p =>
  if existsb (String.eqb p)
       [ "/"; "/w"; "/w/build_webrtc"; "/w/build_webrtc/webrtc";
         "/w/build_webrtc/webrtc/ios"; "/w/build_webrtc/webrtc/ios/src" ]
  then Some Dir else None.

Definition ios_outputs : list (string * node) :=
  ("/w/build_webrtc/webrtc/ios/src/out", Dir)
  :: flat_map (fun d =>
       [ ("/w/build_webrtc/webrtc/ios/src/out/" +:+ d, Dir);
         ("/w/build_webrtc/webrtc/ios/src/out/" +:+ d +:+ "/WebRTC.framework", Dir);
         ("/w/build_webrtc/webrtc/ios/src/out/" +:+ d +:+ "/WebRTC.framework/WebRTC", File) ])
       [ "Release-ios-device-arm64"; "Release-ios-simulator-arm64";
         "Release-ios-simulator-x64"; "Release-macos-x64" ].

Definition overlay (nodes : list (string * node)) (fs : fs_t) : fs_t := fun p =>
  match List.find (fun e => String.eqb p e.1) nodes with
  | Some e => Some e.2
  | None => fs p
  end.

Definition ios_tools_host : host :=
  Host {[ "PATH" := "/usr/bin" ]}
       (fun _ _ _ _ fs => (Exited 0, overlay ios_outputs fs)) id.

(** The number of events of a step that returns, and the place of the
    first event of the [k]-th step in the log of a run that completes. *)
Definition step_width (s : step) : nat :=
  match s with SSh _ _ _ => 2 | _ => 1 end.

Definition offset (l : list step) (k : nat) : nat :=
  list_sum (map step_width (take k l)).

(** ** Exceptions of a run *)

(** The exceptions that the three modes let out: an [OSError] of a file
    or process operation, the [KeyError] of a missing search path, and
    [sys.exit] with a non-zero status. *)
Definition mode_exception (e : exn) : Prop :=
  match e with
  | OSError _ => True
  | KeyError key => key = "PATH"
  | SystemExit code => code <> 0
  | _ => False
  end.

Definition raises_only {A} (ok : exn -> Prop) (m : M A) : Prop :=
  forall w e, (m w).2 = Raise e -> ok e.

(** A file system with one file beside the Android source tree. *)
Definition tree_with_file : fs_t := overlay [("/w/notes.txt", File)] android_tree.

Definition completion_line (mode platform target_dir : string) : string :=
  Py.fmt ("WebRTC " +:+ mode +:+ " for %s completed in %s") [platform; target_dir].

(** ** Commands of a run and of a plan *)

Definition spawned_cmds (evs : list event) : list string :=
  omap (fun e => match e with EvSpawn cmd _ _ _ => Some cmd | _ => None end) evs.

Definition plan_cmds (l : list step) : list string :=
  omap (fun s => match s with SSh cmd _ _ => Some cmd | _ => None end) l.

Definition is_chdir (s : step) : bool :=
  match s with SFs (Chdir _) => true | _ => false end.

(** The commands of the generate and of the compile phase. *)
Definition is_generate_cmd (cmd : string) : bool := Py.startswith cmd "gn gen ".
Definition is_compile_cmd (cmd : string) : bool := Py.startswith cmd "ninja -C ".

Definition generate_cmd (build_type : string) (debug : bool) (t : BuildTarget) : string :=
  Py.fmt "gn gen %s %s" [outputDirName build_type t; buildFlags debug t].

Definition compile_cmd (build_type : string) (t : BuildTarget) : string :=
  match kind t with
  | Mobile _ => Py.fmt "ninja -C %s framework_objc" [outputDirName build_type t]
  | Desktop => Py.fmt "ninja -C %s mac_framework_objc" [outputDirName build_type t]
  | Native =>
      Py.fmt "ninja -C %s libwebrtc libjingle_peerconnection_so"
        [outputDirName build_type t]
  end.

(** ** Characters of a flag *)

Fixpoint has_char (c : ascii) (s : string) : bool :=
  match s with
  | EmptyString => false
  | String a s' => (Ascii.eqb a c || has_char c s')%bool
  end.

(** A flag that the composed string can carry as one word: no space and
    no quote in it. *)
Definition clean_flag (f : string) : Prop :=
  has_char " " f = false /\ has_char "'" f = false.

(** ** The commands of [setup] *)

Definition clone_cmd : string :=
  "git clone https://chromium.googlesource.com/chromium/tools/depot_tools.git".

Definition fetch_cmd (platform : string) : string :=
  Py.fmt "fetch --nohooks webrtc_%s" [platform].

Definition install_deps_cmd : string := "./build/install-build-deps.sh".

(** The commands that a computation spawns are, in order, among those of
    the list [cmds], each used at most once. *)
Definition spawns_within {A} (cmds : list string) (m : M A) : Prop :=
  forall w, exists evs,
    log (m w).1 = log w ++ evs /\ spawned_cmds evs `sublist_of` cmds.

(** The part of [setup] after the two fetches (lines 124-131). *)
Definition setup_tail (h : host) (target_dir : string) (ios : bool)
    (env : gmap string string) : M unit :=
  (sh h "gclient sync" (Some env) None ;;
   when (String.eqb (platform_name ios) "android")
     (let webrtc_dir := Py.path_join target_dir ["webrtc"; platform_name ios; "src"] in
      os_chdir webrtc_dir ;;
      sh h install_deps_cmd None None))%prog.

(** A directory [/w] prepared for iOS by an earlier setup. *)
Definition prepared_tree : fs_t := fun p =>
  if existsb (String.eqb p)
       [ "/"; "/w"; "/w/depot_tools"; "/w/webrtc"; "/w/webrtc/ios"; "/w/webrtc/ios/src" ]
  then Some Dir else None.

(** The Android source tree of [android_tree] with depot_tools beside it,
    as an earlier setup leaves it. *)
Definition prepared_android_tree : fs_t :=
  overlay [("/w/build_webrtc/depot_tools", Dir)] android_tree.

(** ** The contents of the build directory *)

(** A file system is a tree when every ancestor of a path that exists is
    a directory. *)
Definition is_tree (fs : fs_t) : Prop :=
  forall p, fs p <> None -> forall a, In a (FS.ancestors p) -> fs a = Some Dir.

(** The packaging commands: the bundler, and the archivers with the name
    of the archive they are asked for. *)
Definition is_bundle_cmd (cmd : string) : bool :=
  Py.startswith cmd "xcodebuild -create-xcframework -output ".

Definition archive_name (cmd : string) : option string :=
  if (Py.startswith cmd "tar zcf " || Py.startswith cmd "jar cvfM ")%bool
  then Py.split " " cmd !! 2%nat
  else None.

(** What the tools change below the build directory: the bundler only
    the bundle, which it leaves a directory; an archiver only the archive
    it is asked for, in its working directory; the other tools nothing. *)
Definition tools_write_outputs (h : host) (build_dir : string) : Prop :=
  let bundle := Py.path_join build_dir ["WebRTC.xcframework"] in
  forall n cmd env dir fs p,
    FS.under build_dir p = true ->
    (child h n cmd env dir fs).2 p <> fs p ->
    (is_bundle_cmd cmd = true /\ FS.under bundle p = true /\
     (child h n cmd env dir fs).2 bundle = Some Dir) \/
    (exists name, archive_name cmd = Some name /\ p = Py.path_join2 dir name).

(** The final packages of the two platforms. *)
Definition packages (build_dir : string) (ios : bool) : list string :=
  if ios then
    [ Py.path_join build_dir ["WebRTC.xcframework-bitcode.tgz"];
      Py.path_join build_dir ["WebRTC.xcframework.tgz"] ]
  else
    [ Py.path_join build_dir ["libwebrtc.jar"];
      Py.path_join build_dir ["libjingle_peerconnection.so.jar"];
      Py.path_join build_dir ["android-webrtc.tgz"] ].

(** The transient directory of the assembly: the bundle for iOS, the
    staging tree for Android. *)
Definition transient_dir (build_dir : string) (ios : bool) : string :=
  if ios then Py.path_join build_dir ["WebRTC.xcframework"]
  else Py.path_join build_dir ["lib"].

(** The build directory while the packages are assembled: it is a
    directory, and what exists below it is a package or lies in the
    transient directory. *)
Definition assembling (build_dir : string) (ios : bool) (fs : fs_t) : Prop :=
  fs build_dir = Some Dir /\
  forall p, FS.under build_dir p = true -> fs p <> None ->
    p = build_dir \/ In p (packages build_dir ios) \/
    (FS.under (transient_dir build_dir ios) p = true /\
     fs (transient_dir build_dir ios) = Some Dir).

(** The build directory at the end: the packages, nothing else. *)
Definition assembled (build_dir : string) (ios : bool) (fs : fs_t) : Prop :=
  fs build_dir = Some Dir /\
  forall p, FS.under build_dir p = true -> fs p <> None ->
    p = build_dir \/ In p (packages build_dir ios).

(** The build directory before it is cleaned: when something exists
    below it, it exists itself. *)
Definition rooted (build_dir : string) (fs : fs_t) : Prop :=
  forall p, FS.under build_dir p = true -> fs p <> None -> fs build_dir <> None.

(** A step that keeps a property of the file system, and a step that
    changes nothing below a directory, when run in the directory [C]. *)
Definition keeps (h : host) (C : string) (P : fs_t -> Prop) (s : step) : Prop :=
  forall w w', cwd w = C -> P (fs w) -> exec h s w = (w', Ret tt) ->
    cwd w' = C /\ P (fs w').

Definition quiet_below (h : host) (B C : string) (s : step) : Prop :=
  forall w w', cwd w = C -> exec h s w = (w', Ret tt) ->
    cwd w' = C /\ forall p, FS.under B p = true -> fs w' p = fs w p.

(** Tools for iOS that write what they are asked for: an archiver its
    archive, the bundler the bundle directory, and every other tool the
    frameworks of the four targets. *)
Definition packaging_host : host :=
  Host {[ "PATH" := "/usr/bin" ]}
       (fun _ cmd _ dir fs =>
          (Exited 0,
           match archive_name cmd with
           | Some name => overlay [(Py.path_join2 dir name, File)] fs
           | None =>
               if is_bundle_cmd cmd
               then overlay [("/w/build_webrtc/build/ios/WebRTC.xcframework", Dir)] fs
               else overlay ios_outputs fs
           end))
       id.

(** A step that leaves the path [p] as it is when run in the directory
    [C], however it ends. *)
Definition leaves (h : host) (C p : string) (s : step) : Prop :=
  forall w, cwd w = C -> cwd (exec h s w).1 = C /\ fs (exec h s w).1 p = fs w p.

(** Archivers that deliver: an archive command leaves its archive, a
    file, in its working directory. *)
Definition archivers_deliver (h : host) : Prop :=
  forall n cmd env dir fs name,
    archive_name cmd = Some name ->
    (child h n cmd env dir fs).2 (Py.path_join2 dir name) = Some File.

(** The paths of [l] are files. *)
Definition delivered (l : list string) (fs : fs_t) : Prop :=
  forall p, In p l -> fs p = Some File.

(** A step that carries a property [Q] of the file system along a
    property [P], when run in the directory [C]. *)
Definition carries (h : host) (C : string) (P Q : fs_t -> Prop) (s : step) : Prop :=
  forall w w', cwd w = C -> P (fs w) -> Q (fs w) -> exec h s w = (w', Ret tt) ->
    Q (fs w').

(** ** Sample hosts of the packaging *)

(** What the Android tools leave in the source tree: the library of each
    of the four architectures, and the Java archive of the first. *)
Definition android_outputs : list (string * node) :=
  [ ("/w/build_webrtc/webrtc/android/src/out", Dir);
    ("/w/build_webrtc/webrtc/android/src/out/Release-arm/lib.java", Dir);
    ("/w/build_webrtc/webrtc/android/src/out/Release-arm/lib.java/sdk", Dir);
    ("/w/build_webrtc/webrtc/android/src/out/Release-arm/lib.java/sdk/android", Dir);
    ("/w/build_webrtc/webrtc/android/src/out/Release-arm/lib.java/sdk/android/libwebrtc.jar",
     File) ]
  ++ flat_map (fun d =>
       [ ("/w/build_webrtc/webrtc/android/src/out/" +:+ d, Dir);
         ("/w/build_webrtc/webrtc/android/src/out/" +:+ d
            +:+ "/libjingle_peerconnection_so.so", File) ])
       [ "Release-arm"; "Release-arm64"; "Release-x86"; "Release-x64" ].

(** Tools for Android that write what they are asked for: an archiver
    its archive, every other tool the outputs of the four architectures. *)
Definition android_packaging_host : host :=
  Host {[ "PATH" := "/usr/bin" ]}
       (fun _ cmd _ dir fs =>
          (Exited 0,
           match archive_name cmd with
           | Some name => overlay [(Py.path_join2 dir name, File)] fs
           | None => overlay android_outputs fs
           end))
       id.

(** The tools of [packaging_host], with the wait for the archiver of the
    bitcode-preserving bundle interrupted before it has written
    anything. *)
Definition interrupted_archive_host : host :=
  Host {[ "PATH" := "/usr/bin" ]}
       (fun n cmd env dir fs =>
          if String.eqb cmd bitcode_archive_cmd then (Interrupted, fs)
          else child packaging_host n cmd env dir fs)
       id.

(** * Properties *)

(** ** Strings *)

Lemma fmt_sites_arity :
  Py.fmt_arity GN_IOS_ARGS = 3%nat /\
  Py.fmt_arity GN_MACOS_ARGS = 2%nat /\
  Py.fmt_arity GN_ANDROID_ARGS = 2%nat.
Proof. repeat split; vm_compute; reflexivity. Qed.

Lemma append_cons (c : ascii) (a b : string) :
  String c a +:+ b = String c (a +:+ b).
Proof. reflexivity. Qed.

Lemma append_length (a b : string) :
  String.length (a +:+ b) = (String.length a + String.length b)%nat.
Proof.
  induction a as [|c a IH]; [reflexivity|].
  rewrite append_cons. simpl. now rewrite IH.
Qed.

Lemma append_nil_r (a : string) : a +:+ EmptyString = a.
Proof.
  induction a as [|c a IH]; [reflexivity|].
  rewrite append_cons. now rewrite IH.
Qed.

Lemma append_assoc (a b c : string) : (a +:+ b) +:+ c = a +:+ (b +:+ c).
Proof.
  induction a as [|x a IH]; [reflexivity|].
  rewrite !append_cons. now rewrite IH.
Qed.

Lemma length_zero_empty (a : string) : String.length a = 0%nat -> a = EmptyString.
Proof. destruct a; simpl; [reflexivity | discriminate]. Qed.

(** ** The architecture to ABI table *)

(** C10: every architecture of the fixed Android list has an entry in the
    architecture to ABI table (arm to armeabi-v7a, arm64 to arm64-v8a,
    x86 to x86, x64 to x86_64), so the lookup of the staging directory
    name succeeds for every planned target. *)
Theorem abi_map_total :
  ANDROID_CPU_ABI_MAP !! "arm" = Some "armeabi-v7a" /\
  ANDROID_CPU_ABI_MAP !! "arm64" = Some "arm64-v8a" /\
  ANDROID_CPU_ABI_MAP !! "x86" = Some "x86" /\
  ANDROID_CPU_ABI_MAP !! "x64" = Some "x86_64" /\
  Forall (fun cpu => is_Some (ANDROID_CPU_ABI_MAP !! cpu)) ANDROID_BUILD_CPUS.
Proof.
  repeat split; try (vm_compute; reflexivity).
  unfold ANDROID_BUILD_CPUS.
  repeat constructor; eexists; vm_compute; reflexivity.
Qed.

(** ** Flag composition *)

(** The composed flag set of an Android target has six flags, two fewer
    than the sum of the table lengths and the two substituted values. *)
Lemma flag_count_plus_substituted_fails :
  ~ (forall debug cpu, In cpu ANDROID_BUILD_CPUS ->
       flag_count (gn_args_android debug cpu)
       = Some (length GN_COMMON_ARGS + length _GN_ANDROID_ARGS + 2)%nat).
Proof.
  intros H. specialize (H false "arm" (or_introl eq_refl)).
  vm_compute in H. discriminate H.
Qed.

(** C7, amended: for every debug flag and every target of the matrix, the
    composed flag set has exactly as many flags as the contributing
    tables have entries (the substituted values fill placeholders of
    table entries), and every table entry without a placeholder is in
    it. *)
Theorem composed_flag_count (debug : bool) :
  Forall (fun item =>
            exists s, gn_args_ios debug item = Some s /\
              length (flag_set s)
              = (length GN_COMMON_ARGS + length _GN_APPLE_COMMON + length _GN_IOS_ARGS)%nat /\
              incl (constant_flags (GN_COMMON_ARGS ++ _GN_APPLE_COMMON ++ _GN_IOS_ARGS))
                   (flag_set s))
         IOS_BUILD_ARCHS /\
  Forall (fun arch =>
            exists s, gn_args_macos debug arch = Some s /\
              length (flag_set s)
              = (length GN_COMMON_ARGS + length _GN_APPLE_COMMON + length _GN_MACOS_ARGS)%nat /\
              incl (constant_flags (GN_COMMON_ARGS ++ _GN_APPLE_COMMON ++ _GN_MACOS_ARGS))
                   (flag_set s))
         MACOS_BUILD_ARCHS /\
  Forall (fun cpu =>
            exists s, gn_args_android debug cpu = Some s /\
              length (flag_set s)
              = (length GN_COMMON_ARGS + length _GN_ANDROID_ARGS)%nat /\
              incl (constant_flags (GN_COMMON_ARGS ++ _GN_ANDROID_ARGS)) (flag_set s))
         ANDROID_BUILD_CPUS.
Proof.
  destruct debug;
    (split; [|split]); repeat constructor;
    (eexists; split; [vm_compute; reflexivity|]);
    (split; [vm_compute; reflexivity|]);
    (intros f Hf; vm_compute in Hf; vm_compute;
     repeat (destruct Hf as [<-|Hf]; [tauto|]); destruct Hf).
Qed.

(** ** The canonical simulator target *)

(** The choice depends on the order of the list: swapping the two
    simulator entries of the fixed list changes it. *)
Lemma canonical_simulator_order_dependent :
  ~ (forall l l' : list string,
       Permutation l l' -> canonical_simulator l = canonical_simulator l').
Proof.
  intros H.
  specialize (H IOS_BUILD_ARCHS ["device:arm64"; "simulator:x64"; "simulator:arm64"]).
  assert (Hp : Permutation IOS_BUILD_ARCHS
                 ["device:arm64"; "simulator:x64"; "simulator:arm64"]).
  { unfold IOS_BUILD_ARCHS. apply perm_skip. apply perm_swap. }
  specialize (H Hp). vm_compute in H. discriminate H.
Qed.

Lemma simulators_of_app (l1 l2 : list string) :
  simulators_of (l1 ++ l2) = simulators_of l1 ++ simulators_of l2.
Proof. unfold simulators_of. apply List.filter_app. Qed.

Lemma simulators_of_none (l : list string) :
  Forall (fun item => Py.startswith item "simulator" = false) l ->
  simulators_of l = [].
Proof.
  induction 1 as [|x l Hx _ IH]; [reflexivity|].
  unfold simulators_of in *. simpl. now rewrite Hx.
Qed.

(** C6, amended: the canonical simulator target is the first simulator
    entry of the list in list order.  Two lists with the same first
    simulator entry give the same choice, whatever the entries that are
    not simulators before it and whatever follows it; for the fixed list
    the choice is simulator:arm64. *)
Theorem canonical_simulator_first (pre post pre' post' : list string) (c : string) :
  Forall (fun item => Py.startswith item "simulator" = false) pre ->
  Forall (fun item => Py.startswith item "simulator" = false) pre' ->
  Py.startswith c "simulator" = true ->
  canonical_simulator (pre ++ c :: post) = Some c /\
  canonical_simulator (pre ++ c :: post) = canonical_simulator (pre' ++ c :: post') /\
  canonical_simulator IOS_BUILD_ARCHS = Some "simulator:arm64".
Proof.
  intros Hpre Hpre' Hc.
  assert (Hfirst : forall p q, Forall (fun item => Py.startswith item "simulator" = false) p ->
                     canonical_simulator (p ++ c :: q) = Some c).
  { intros p q Hp. unfold canonical_simulator.
    rewrite simulators_of_app, (simulators_of_none p Hp).
    unfold simulators_of. simpl. now rewrite Hc. }
  split; [now apply Hfirst|]. split; [|reflexivity].
  now rewrite !Hfirst.
Qed.

Lemma canonical_simulator_first_witness :
  canonical_simulator (["device:arm64"] ++ "simulator:arm64" :: ["simulator:x64"])
    = Some "simulator:arm64" /\
  canonical_simulator (["device:arm64"] ++ "simulator:arm64" :: ["simulator:x64"])
    = canonical_simulator ([] ++ "simulator:arm64" :: ["simulator:x64"; "device:arm64"]) /\
  canonical_simulator IOS_BUILD_ARCHS = Some "simulator:arm64".
Proof.
  apply (canonical_simulator_first ["device:arm64"] ["simulator:x64"]
           [] ["simulator:x64"; "device:arm64"] "simulator:arm64").
  - repeat constructor.
  - constructor.
  - reflexivity.
Defined.

(** ** The monad *)

Lemma bind_ret_l {A B} (a : A) (f : A -> M B) (w : world) :
  bind (ret a) f w = f a w.
Proof. reflexivity. Qed.

Lemma bind_assoc {A B C} (m : M A) (f : A -> M B) (g : B -> M C) (w : world) :
  bind (bind m f) g w = bind m (fun x => bind (f x) g) w.
Proof. unfold bind. destruct (m w) as [w' [a|e]]; reflexivity. Qed.

Lemma bind_ext {A B} (m : M A) (f g : A -> M B) (w : world) :
  (forall a w', f a w' = g a w') -> bind m f w = bind m g w.
Proof. intros H. unfold bind. destruct (m w) as [w' [a|e]]; [apply H | reflexivity]. Qed.

Lemma bind_Ret_inv {A B} (m : M A) (f : A -> M B) (w w' : world) (b : B) :
  bind m f w = (w', Ret b) ->
  exists w1 a, m w = (w1, Ret a) /\ f a w1 = (w', Ret b).
Proof.
  unfold bind. destruct (m w) as [w1 [a|e]]; [eauto | discriminate].
Qed.

(** ** Environment composition *)

(** With the inherited search path [/usr/bin] and the target directory
    [/t], the composed search path for iOS is [/usr/bin:/t/depot_tools]:
    the toolchain directory stands after the inherited path, not before. *)
Lemma toolchain_not_prepended :
  prepare_env (quiet_host "/usr/bin") "ios" "/t/depot_tools" "/t/webrtc/ios/src"
    (start empty_fs "/")
  = (start empty_fs "/",
     Ret (<["PATH" := "/usr/bin:/t/depot_tools"]> (environ (quiet_host "/usr/bin")))) /\
  ~ placed_before "/t/depot_tools" "/usr/bin" "/usr/bin:/t/depot_tools".
Proof.
  split; [vm_compute; reflexivity|].
  intros (a & b & c & H).
  assert (Hl := f_equal String.length H).
  rewrite !append_length in Hl. simpl in Hl.
  destruct a as [|x [|y a]], b as [|x' [|y' b]], c as [|x'' [|y'' c]];
    simpl in Hl; try lia; discriminate H.
Qed.

(** C8, amended: when the base environment has a search path, the
    composed environment's search path is the inherited search path with
    the toolchain directory appended (placed after it); for android the
    SDK platform-tools, tools and build-helper directories derived from
    the source tree root are appended after that, in this order, and for
    every other platform only the toolchain directory is appended.  No
    other variable changes. *)
Theorem search_path_appended (h : host)
    (platform depot_tools_dir webrtc_dir inherited : string) (w : world) :
  environ h !! "PATH" = Some inherited ->
  exists env env0,
    prepare_env h platform depot_tools_dir webrtc_dir w = (w, Ret env) /\
    setup_env h depot_tools_dir w = (w, Ret env0) /\
    env0 !! "PATH" = Some (inherited +:+ ":" +:+ depot_tools_dir) /\
    env !! "PATH"
    = Some (inherited +:+ ":" +:+ depot_tools_dir +:+
            (if String.eqb platform "android" then
               let android_sdk_root :=
                 Py.path_join webrtc_dir ["third_party/android_sdk/public"] in
               ":" +:+ Py.path_join android_sdk_root ["platform-tools"]
               +:+ ":" +:+ Py.path_join android_sdk_root ["tools"]
               +:+ ":" +:+ Py.path_join webrtc_dir ["build/android"]
             else EmptyString)) /\
    (forall k, k <> "PATH" ->
       env !! k = environ h !! k /\ env0 !! k = environ h !! k).
Proof.
  intros HP. unfold prepare_env, setup_env, bind, expect. rewrite HP. cbn [ret].
  do 2 eexists. split; [reflexivity|]. split; [reflexivity|].
  split; [|split].
  - rewrite lookup_insert_eq. f_equal.
    change (Py.fmt "%s:%s" [inherited; depot_tools_dir])
      with (inherited +:+ ":" +:+ (depot_tools_dir +:+ EmptyString)).
    now rewrite append_nil_r.
  - rewrite lookup_insert_eq. f_equal.
    destruct (String.eqb platform "android").
    + cbn [Py.join String.concat app]. reflexivity.
    + cbn [Py.join String.concat app]. now rewrite append_nil_r.
  - intros k Hk. split; now rewrite lookup_insert_ne.
Qed.

Lemma search_path_appended_witness :
  exists env env0,
    prepare_env (quiet_host "/usr/bin") "android" "/t/depot_tools" "/t/webrtc/android/src"
      (start empty_fs "/") = (start empty_fs "/", Ret env) /\
    setup_env (quiet_host "/usr/bin") "/t/depot_tools" (start empty_fs "/")
      = (start empty_fs "/", Ret env0) /\
    env0 !! "PATH" = Some ("/usr/bin" +:+ ":" +:+ "/t/depot_tools") /\
    env !! "PATH"
    = Some ("/usr/bin" +:+ ":" +:+ "/t/depot_tools" +:+
            (if String.eqb "android" "android" then
               let android_sdk_root :=
                 Py.path_join "/t/webrtc/android/src" ["third_party/android_sdk/public"] in
               ":" +:+ Py.path_join android_sdk_root ["platform-tools"]
               +:+ ":" +:+ Py.path_join android_sdk_root ["tools"]
               +:+ ":" +:+ Py.path_join "/t/webrtc/android/src" ["build/android"]
             else EmptyString)) /\
    (forall k, k <> "PATH" ->
       env !! k = environ (quiet_host "/usr/bin") !! k /\
       env0 !! k = environ (quiet_host "/usr/bin") !! k).
Proof.
  apply (search_path_appended (quiet_host "/usr/bin") "android" "/t/depot_tools"
           "/t/webrtc/android/src" "/usr/bin" (start empty_fs "/")).
  vm_compute. reflexivity.
Defined.

(** ** Fail-fast: a rule for every construct of the programs *)

Section FailFast.

Variable h : host.

Lemma ff_silent {A} (m : M A) :
  (forall w, log (m w).1 = log w) -> fail_fast m.
Proof.
  intros Hm w. exists []. rewrite app_nil_r. split; [apply Hm|].
  intros i cmd env d c Hi. rewrite lookup_nil in Hi. discriminate.
Qed.

Lemma ff_ret {A} (a : A) : fail_fast (ret a).
Proof. now apply ff_silent. Qed.

Lemma ff_raise {A} (e : exn) : fail_fast (@raise A e).
Proof. now apply ff_silent. Qed.

Lemma ff_sys_exit {A} (c : Z) : fail_fast (@sys_exit A c).
Proof. apply ff_raise. Qed.

Lemma ff_expect {A} (o : option A) (e : exn) : fail_fast (expect o e).
Proof. destruct o; [apply ff_ret | apply ff_raise]. Qed.

Lemma ff_isdir (p : string) : fail_fast (os_path_isdir p).
Proof. now apply ff_silent. Qed.

Lemma ff_abspath (p : string) : fail_fast (os_path_abspath h p).
Proof. now apply ff_silent. Qed.

Lemma ff_single {A} (m : M A) :
  (forall w, exists e, log (m w).1 = log w ++ [e] /\
               forall cmd env d c, e <> EvSpawn cmd env d (Exited c)) ->
  fail_fast m.
Proof.
  intros Hm w. destruct (Hm w) as (e & Hlog & Hne). exists [e]. split; [exact Hlog|].
  intros [|i] cmd env d c Hi Hc; simpl in Hi; [|now rewrite lookup_nil in Hi].
  injection Hi as ->. now destruct (Hne cmd env d c).
Qed.

Lemma ff_print (line : string) : fail_fast (print line).
Proof. apply ff_single. intros w. eexists. split; [reflexivity | discriminate]. Qed.

Lemma ff_fs_call (o : fsop) : fail_fast (fs_call o).
Proof.
  apply ff_single. intros w. unfold fs_call.
  destruct (fs_apply o (cwd w) (fs w)); eexists; (split; [reflexivity | discriminate]).
Qed.

Lemma ff_mkdirp (p : string) : fail_fast (mkdirp p).
Proof.
  apply ff_single. intros w. unfold mkdirp, try_except, os_makedirs, fs_call.
  destruct (fs_apply (Makedirs p) (cwd w) (fs w)) as [fs'|[]];
    eexists; (split; [reflexivity | discriminate]).
Qed.

Lemma ff_rmr (p : string) : fail_fast (rmr p).
Proof.
  apply ff_single. intros w. unfold rmr, try_except, shutil_rmtree, fs_call.
  destruct (fs_apply (Rmtree p) (cwd w) (fs w)) as [fs'|[]];
    eexists; (split; [reflexivity | discriminate]).
Qed.

Lemma ff_bind {A B} (m : M A) (f : A -> M B) :
  fail_fast m -> (forall a, fail_fast (f a)) -> fail_fast (bind m f).
Proof.
  intros Hm Hf w. unfold bind.
  destruct (Hm w) as (e1 & Hl1 & H1).
  destruct (m w) as [w1 [a|e]]; simpl in *.
  - destruct (Hf a w1) as (e2 & Hl2 & H2).
    exists (e1 ++ e2). split; [now rewrite Hl2, Hl1, app_assoc|].
    intros i cmd env d c Hi Hc.
    destruct (decide (i < length e1)%nat) as [Hlt|Hge].
    + rewrite lookup_app_l in Hi by exact Hlt.
      destruct (H1 _ _ _ _ _ Hi Hc) as [Habs _]. discriminate Habs.
    + rewrite lookup_app_r in Hi by lia.
      destruct (H2 _ _ _ _ _ Hi Hc) as [-> Hlen].
      split; [reflexivity|]. rewrite length_app. lia.
  - exists e1. split; [exact Hl1|].
    intros i cmd env d c Hi Hc.
    destruct (H1 _ _ _ _ _ Hi Hc) as [Habs Hlen]. injection Habs as ->. now split.
Qed.

(** [sh]: the one place where a child's status is looked at. *)
Lemma sh_run (cmd : string) (env : option (gmap string string))
    (cwd_arg : option string) (w : world) :
  sh h cmd env cwd_arg w =
    let line := EvPrint (Py.fmt "Running cmd: %s" [cmd]) in
    let dir := from_option (FS.resolve (cwd w)) (cwd w) cwd_arg in
    let env' := from_option id (environ h) env in
    if (bool_decide (is_Some cwd_arg) && negb (FS.isdir (fs w) dir))%bool
    then (World (fs w) (cwd w) (log w ++ [line]) (spawned w),
          Raise (OSError (if FS.exists_ (fs w) dir then ENOTDIR else ENOENT)))
    else
      (World (child h (spawned w) cmd env' dir (fs w)).2 (cwd w)
         (log w ++ [line; EvSpawn cmd env' dir (child h (spawned w) cmd env' dir (fs w)).1])
         (S (spawned w)),
       match (child h (spawned w) cmd env' dir (fs w)).1 with
       | Exited rc => if Z.eqb rc 0 then Ret tt else Raise (SystemExit rc)
       | Interrupted => Ret tt
       end).
Proof.
  unfold sh, bind, print, try_except, check_call. cbv zeta. cbn [fs cwd log spawned].
  destruct (bool_decide (is_Some cwd_arg) && _)%bool; [reflexivity|].
  destruct (child h _ _ _ _ _) as [[rc|] fs']; cbn [fst snd];
    [destruct (Z.eqb rc 0)|]; unfold sys_exit, raise, ret;
    rewrite <- app_assoc; reflexivity.
Qed.

Lemma ff_sh (cmd : string) (env : option (gmap string string)) (cwd_arg : option string) :
  fail_fast (sh h cmd env cwd_arg).
Proof.
  intros w. rewrite sh_run. cbv zeta.
  destruct (bool_decide (is_Some cwd_arg) && _)%bool.
  - eexists [_]. split; [reflexivity|].
    intros [|i] ? ? ? ? Hi Hc; simpl in Hi; [discriminate | now rewrite lookup_nil in Hi].
  - eexists [_; _]. split; [reflexivity|].
    intros [|[|i]] c0 e0 d0 c Hi Hc; simpl in Hi;
      [discriminate | | now rewrite lookup_nil in Hi].
    injection Hi as -> -> -> Hr. cbn [snd]. rewrite Hr.
    destruct (Z.eqb_spec c 0) as [->|_]; [contradiction|]. now split.
Qed.

Lemma ff_when (c : bool) (m : M unit) : fail_fast m -> fail_fast (when c m).
Proof. destruct c; [trivial | intros _; apply ff_ret]. Qed.

Lemma ff_for {A} (l : list A) (body : A -> M unit) :
  (forall x, fail_fast (body x)) -> fail_fast (for_ l body).
Proof.
  intros Hb. induction l as [|x l IH]; simpl; [apply ff_ret|].
  apply ff_bind; [apply Hb | intros _; exact IH].
Qed.

Lemma ff_for_acc {A S} (l : list A) (s : S) (body : S -> A -> M S) :
  (forall s x, fail_fast (body s x)) -> fail_fast (for_acc l s body).
Proof.
  intros Hb. revert s. induction l as [|x l IH]; intros s; simpl; [apply ff_ret|].
  apply ff_bind; [apply Hb | intros s'; apply IH].
Qed.

Ltac ff_step :=
  cbv beta zeta;
  lazymatch goal with
  | |- fail_fast (sh _ _ _ _) => apply ff_sh
  | |- fail_fast (mkdirp _) => apply ff_mkdirp
  | |- fail_fast (rmr _) => apply ff_rmr
  | |- fail_fast (fs_call _) => apply ff_fs_call
  | |- fail_fast (shutil_copytree _ _) => apply ff_fs_call
  | |- fail_fast (shutil_move _ _) => apply ff_fs_call
  | |- fail_fast (shutil_copy _ _) => apply ff_fs_call
  | |- fail_fast (os_chdir _) => apply ff_fs_call
  | |- fail_fast (bind _ _) => apply ff_bind; [|intros]
  | |- fail_fast (ret _) => apply ff_ret
  | |- fail_fast (sys_exit _) => apply ff_sys_exit
  | |- fail_fast (raise _) => apply ff_raise
  | |- fail_fast (print _) => apply ff_print
  | |- fail_fast (expect _ _) => apply ff_expect
  | |- fail_fast (os_path_isdir _) => apply ff_isdir
  | |- fail_fast (os_path_abspath _ _) => apply ff_abspath
  | |- fail_fast (when _ _) => apply ff_when
  | |- fail_fast (for_ _ _) => apply ff_for; intros
  | |- fail_fast (for_acc _ _ _) => apply ff_for_acc; intros
  | |- fail_fast (if ?c then _ else _) => destruct c
  | |- fail_fast (match ?x with (_, _) => _ end) => destruct x
  end.

Lemma ff_setup_env d : fail_fast (setup_env h d).
Proof. unfold setup_env. repeat ff_step. Qed.

Lemma ff_prepare_env p d s : fail_fast (prepare_env h p d s).
Proof. unfold prepare_env. repeat ff_step. Qed.

Ltac ff_prog :=
  repeat lazymatch goal with
    | |- fail_fast (setup_env _ _) => apply ff_setup_env
    | |- fail_fast (prepare_env _ _ _ _) => apply ff_prepare_env
    | |- _ => ff_step
    end.

Lemma ff_setup t p : fail_fast (setup h t p).
Proof. unfold setup. ff_prog. Qed.

Lemma ff_sync t p : fail_fast (sync h t p).
Proof. unfold sync. ff_prog. Qed.

Lemma ff_build_run_gn p bt d env : fail_fast (build_run_gn h p bt d env).
Proof. unfold build_run_gn. repeat ff_step. Qed.

Lemma ff_build_ninja p bt env : fail_fast (build_ninja h p bt env).
Proof. unfold build_ninja. repeat ff_step. Qed.

Lemma ff_build_copy_ios bd bt : fail_fast (build_copy_ios h bd bt).
Proof. unfold build_copy_ios. repeat ff_step. Qed.

Lemma ff_build_copy_android bd bt : fail_fast (build_copy_android h bd bt).
Proof. unfold build_copy_android. repeat ff_step. Qed.

Lemma ff_build t p d : fail_fast (build h t p d).
Proof.
  unfold build.
  repeat lazymatch goal with
    | |- fail_fast (prepare_env _ _ _ _) => apply ff_prepare_env
    | |- fail_fast (build_run_gn _ _ _ _ _) => apply ff_build_run_gn
    | |- fail_fast (build_ninja _ _ _ _) => apply ff_build_ninja
    | |- fail_fast (build_copy_ios _ _ _) => apply ff_build_copy_ios
    | |- fail_fast (build_copy_android _ _ _) => apply ff_build_copy_android
    | |- _ => ff_step
    end.
Qed.

Lemma ff_main args : fail_fast (main h args).
Proof.
  unfold main.
  repeat lazymatch goal with
    | |- fail_fast (setup _ _ _) => apply ff_setup
    | |- fail_fast (sync _ _ _) => apply ff_sync
    | |- fail_fast (build _ _ _ _) => apply ff_build
    | |- _ => ff_step
    end.
Qed.

End FailFast.

(** ** Failing commands *)

(** C1: when a child of any command of a run (fetch, generate, compile,
    merge, strip, package) exits with a non-zero status, that spawn is
    the last event of the run: nothing is printed, run or changed after
    it, and the script leaves through [sys.exit] with that status, which
    is the exit status of the process. *)
Theorem nonzero_exit_stops_run (h : host) (args : Args) (fs0 : fs_t) (cwd0 : string)
    (i : nat) (cmd : string) (env : gmap string string) (d : string) (c : Z) :
  log (main h args (start fs0 cwd0)).1 !! i = Some (EvSpawn cmd env d (Exited c)) ->
  c <> 0 ->
  (main h args (start fs0 cwd0)).2 = Raise (SystemExit c) /\
  length (log (main h args (start fs0 cwd0)).1) = S i /\
  (0 < c < 256 -> exit_status (main h args (start fs0 cwd0)).2 = c).
Proof.
  intros Hi Hc.
  destruct (ff_main h args (start fs0 cwd0)) as (evs & Hlog & Hff).
  simpl in Hlog. rewrite Hlog in Hi |- *.
  destruct (Hff _ _ _ _ _ Hi Hc) as [Hr Hlen].
  split; [exact Hr|]. split; [exact Hlen|].
  intros Hrange. rewrite Hr. simpl. apply Z.mod_small. lia.
Qed.

Lemma nonzero_exit_stops_run_witness :
  (main (host_with 0 (Exited 3)) build_android_args (start android_tree "/")).2
    = Raise (SystemExit 3) /\
  length (log (main (host_with 0 (Exited 3)) build_android_args (start android_tree "/")).1)
    = 4%nat /\
  (0 < 3 < 256 ->
   exit_status (main (host_with 0 (Exited 3)) build_android_args (start android_tree "/")).2
   = 3).
Proof.
  eapply (nonzero_exit_stops_run (host_with 0 (Exited 3)) build_android_args
            android_tree "/" 3%nat).
  - vm_compute. reflexivity.
  - discriminate.
Defined.

(** ** The source tree precondition *)

(** Without the source tree, [build] and [sync] stop at their first
    check. *)
Lemma source_tree_missing (h : host) (target_dir platform : string) (debug : bool)
    (w : world) :
  FS.isdir (fs w)
    (FS.resolve (cwd w) (Py.path_join target_dir ["webrtc"; platform; "src"])) = false ->
  let w' :=
    World (fs w) (cwd w)
      (log w ++ [EvPrint "WebRTC source not found, did you forget to run --setup?"])
      (spawned w) in
  build h target_dir platform debug w = (w', Raise (SystemExit 1)) /\
  sync h target_dir platform w = (w', Raise (SystemExit 1)) /\
  exit_status (build h target_dir platform debug w).2 = 1 /\
  exit_status (sync h target_dir platform w).2 = 1.
Proof.
  intros Hdir w'.
  assert (Hb : build h target_dir platform debug w = (w', Raise (SystemExit 1))).
  { unfold build. cbv zeta. unfold bind at 1. unfold os_path_isdir at 1.
    rewrite Hdir. reflexivity. }
  assert (Hs : sync h target_dir platform w = (w', Raise (SystemExit 1))).
  { unfold sync. cbv zeta. unfold bind at 1. unfold os_path_isdir at 1.
    rewrite Hdir. reflexivity. }
  rewrite Hb, Hs. repeat split.
Qed.

(** C5: for every platform, when the source tree directory of the
    platform is missing, [build] and [sync] print the message
    "WebRTC source not found, did you forget to run --setup?" and leave
    through [sys.exit(1)]; the message is the only event: no child is
    spawned, and neither the file system nor the working directory
    changes. *)
Theorem missing_source_tree (h : host) (target_dir platform : string) (debug : bool)
    (w : world) :
  FS.isdir (fs w)
    (FS.resolve (cwd w) (Py.path_join target_dir ["webrtc"; platform; "src"])) = false ->
  let w' :=
    World (fs w) (cwd w)
      (log w ++ [EvPrint "WebRTC source not found, did you forget to run --setup?"])
      (spawned w) in
  build h target_dir platform debug w = (w', Raise (SystemExit 1)) /\
  sync h target_dir platform w = (w', Raise (SystemExit 1)) /\
  exit_status (build h target_dir platform debug w).2 = 1 /\
  exit_status (sync h target_dir platform w).2 = 1.
Proof.
  intros Hdir w'.
  assert (Hb : build h target_dir platform debug w = (w', Raise (SystemExit 1))).
  { unfold build. cbv zeta. unfold bind at 1. unfold os_path_isdir at 1.
    rewrite Hdir. reflexivity. }
  assert (Hs : sync h target_dir platform w = (w', Raise (SystemExit 1))).
  { unfold sync. cbv zeta. unfold bind at 1. unfold os_path_isdir at 1.
    rewrite Hdir. reflexivity. }
  rewrite Hb, Hs. repeat split.
Qed.

Lemma missing_source_tree_witness :
  let w := start empty_fs "/" in
  let w' :=
    World (fs w) (cwd w)
      (log w ++ [EvPrint "WebRTC source not found, did you forget to run --setup?"])
      (spawned w) in
  build (quiet_host "/usr/bin") "/t" "ios" false w = (w', Raise (SystemExit 1)) /\
  sync (quiet_host "/usr/bin") "/t" "ios" w = (w', Raise (SystemExit 1)) /\
  exit_status (build (quiet_host "/usr/bin") "/t" "ios" false w).2 = 1 /\
  exit_status (sync (quiet_host "/usr/bin") "/t" "ios" w).2 = 1.
Proof.
  apply (missing_source_tree (quiet_host "/usr/bin") "/t" "ios" false (start empty_fs "/")).
  reflexivity.
Defined.

(** The same from the main block: with a valid command line that asks
    for a build or a synchronisation and no setup, an existing directory
    and no source tree, the run prints the message and exits with
    status 1 without spawning a child. *)
Lemma main_source_tree_missing (h : host) (args : Args) (w : world) :
  arg_setup args = false ->
  (arg_build args || arg_sync args)%bool = true ->
  xorb (arg_ios args) (arg_android args) = true ->
  FS.isdir (fs w) (FS.resolve (cwd w) (arg_dir args)) = true ->
  FS.isdir (fs w)
    (FS.resolve (cwd w)
       (Py.path_join
          (normpath h (Py.path_join2 (cwd w) (Py.path_join (arg_dir args) ["build_webrtc"])))
          ["webrtc"; if arg_ios args then "ios" else "android"; "src"])) = false ->
  main h args w
  = (World (fs w) (cwd w)
       (log w ++ [EvPrint "WebRTC source not found, did you forget to run --setup?"])
       (spawned w),
     Raise (SystemExit 1)).
Proof.
  intros Hsetup Hmode Hplat Hdir Hsrc.
  destruct args as [dir su bu sy io an de]. simpl in *. subst su.
  pose proof (source_tree_missing h
                (normpath h (Py.path_join2 (cwd w) (Py.path_join dir ["build_webrtc"])))
                (if io then "ios" else "android") de w Hsrc) as (Hb & Hs & _).
  unfold main. cbn [arg_setup arg_build arg_sync arg_ios arg_android arg_dir arg_debug].
  assert (Hm : (false || bu || sy)%bool = true) by (destruct bu, sy; auto; discriminate).
  rewrite Hm.
  assert (Hn : negb (io || an) = false) by (destruct io, an; auto; discriminate).
  assert (Ha : (io && an)%bool = false) by (destruct io, an; auto; discriminate).
  rewrite Hn, Ha. cbn [negb andb when].
  rewrite !bind_ret_l.
  unfold bind at 1. unfold os_path_isdir at 1. cbn [fs cwd]. rewrite Hdir.
  cbn [negb when]. rewrite bind_ret_l.
  unfold bind at 1. unfold os_path_abspath at 1. rewrite bind_ret_l.
  destruct sy.
  - cbn [when]. unfold bind at 1. unfold bind at 1. rewrite Hs. reflexivity.
  - cbn [when]. rewrite bind_ret_l. destruct bu; [|discriminate].
    cbn [when]. unfold bind at 1. rewrite Hb. reflexivity.
Qed.

(** ** The build is the execution of its plan *)

Lemma bind_ret_r (m : M unit) (w : world) : bind m (fun _ => ret tt) w = m w.
Proof. unfold bind. destruct (m w) as [w' [[]|e]]; reflexivity. Qed.

Lemma for_nil {A} (body : A -> M unit) : for_ [] body = ret tt.
Proof. reflexivity. Qed.

Lemma for_cons {A} (x : A) (l : list A) (body : A -> M unit) :
  for_ (x :: l) body = bind (body x) (fun _ => for_ l body).
Proof. reflexivity. Qed.

Lemma for_acc_nil {A S} (s : S) (body : S -> A -> M S) : for_acc [] s body = ret s.
Proof. reflexivity. Qed.

Lemma for_acc_cons {A S} (x : A) (l : list A) (s : S) (body : S -> A -> M S) :
  for_acc (x :: l) s body = bind (body s x) (fun s' => for_acc l s' body).
Proof. reflexivity. Qed.

Section Steps.

Variable h : host.

Lemma run_steps_cons (s : step) (l : list step) (w : world) :
  run_steps h (s :: l) w = bind (exec h s) (fun _ => run_steps h l) w.
Proof. reflexivity. Qed.

Lemma step_sh cmd env cwd_arg (K : unit -> M unit) (l : list step) (w : world) :
  (forall a w', K a w' = run_steps h l w') ->
  bind (sh h cmd env cwd_arg) K w = run_steps h (SSh cmd env cwd_arg :: l) w.
Proof. intros HK. rewrite run_steps_cons. apply bind_ext. intros a w'. apply HK. Qed.

Lemma step_mkdirp path (K : unit -> M unit) (l : list step) (w : world) :
  (forall a w', K a w' = run_steps h l w') ->
  bind (mkdirp path) K w = run_steps h (SMkdirp path :: l) w.
Proof. intros HK. rewrite run_steps_cons. apply bind_ext. intros a w'. apply HK. Qed.

Lemma step_rmr path (K : unit -> M unit) (l : list step) (w : world) :
  (forall a w', K a w' = run_steps h l w') ->
  bind (rmr path) K w = run_steps h (SRmr path :: l) w.
Proof. intros HK. rewrite run_steps_cons. apply bind_ext. intros a w'. apply HK. Qed.

Lemma step_fs o (K : unit -> M unit) (l : list step) (w : world) :
  (forall a w', K a w' = run_steps h l w') ->
  bind (fs_call o) K w = run_steps h (SFs o :: l) w.
Proof. intros HK. rewrite run_steps_cons. apply bind_ext. intros a w'. apply HK. Qed.

Lemma step_done (w : world) : ret tt w = run_steps h [] w.
Proof. reflexivity. Qed.

End Steps.

(** Symbolic execution of a program down to its list of steps. *)
Ltac reify_head :=
  cbv beta iota zeta;
  lazymatch goal with
  | |- bind (bind _ _) _ _ = _ => rewrite bind_assoc
  | |- bind (ret _) _ _ = _ => rewrite bind_ret_l
  | |- bind (expect ?o ?e) _ _ = _ =>
      let o' := eval vm_compute in o in
      lazymatch o' with
      | Some ?a => change (expect o e) with (@ret _ a)
      end
  | |- bind (for_ ?l ?b) _ _ = _ =>
      let l' := eval vm_compute in l in
      change (for_ l b) with (for_ l' b); rewrite ?for_cons, ?for_nil
  | |- bind (for_acc ?l ?s ?b) _ _ = _ =>
      let l' := eval vm_compute in l in
      change (for_acc l s b) with (for_acc l' s b); rewrite ?for_acc_cons, ?for_acc_nil
  | |- bind (when ?c ?m) _ _ = _ =>
      let c' := eval vm_compute in c in
      lazymatch c' with
      | true => change (when c m) with m
      | false => change (when c m) with (ret tt)
      end
  | |- bind (if ?c then ?a else ?b) _ _ = _ =>
      let c' := eval vm_compute in c in
      lazymatch c' with
      | true => change (if c then a else b) with a
      | false => change (if c then a else b) with b
      end
  | |- bind (sh _ _ _ _) _ _ = _ => apply step_sh; intros ? ?
  | |- bind (mkdirp _) _ _ = _ => apply step_mkdirp; intros ? ?
  | |- bind (rmr _) _ _ = _ => apply step_rmr; intros ? ?
  | |- bind (fs_call _) _ _ = _ => apply step_fs; intros ? ?
  | |- bind (shutil_copytree _ _) _ _ = _ => apply step_fs; intros ? ?
  | |- bind (shutil_move _ _) _ _ = _ => apply step_fs; intros ? ?
  | |- bind (shutil_copy _ _) _ _ = _ => apply step_fs; intros ? ?
  | |- bind (os_chdir _) _ _ = _ => apply step_fs; intros ? ?
  | |- ret tt _ = _ => apply step_done
  end.

Lemma build_copy_android_steps (h : host) (build_dir : string) (debug : bool) :
  exists l, l = assemble_android (outputDirName (build_type_name debug)) build_dir
                  (targets "android") /\
    forall w, build_copy_android h build_dir (build_type_name debug) w = run_steps h l w.
Proof.
  eexists. split; cycle 1.
  - intros w. rewrite <- bind_ret_r. unfold build_copy_android. repeat reify_head.
  - destruct debug; vm_compute; reflexivity.
Qed.

Lemma build_copy_ios_steps (h : host) (build_dir : string) (debug : bool) :
  exists l, l = assemble_ios (outputDirName (build_type_name debug)) build_dir
                  (targets "ios") /\
    forall w, build_copy_ios h build_dir (build_type_name debug) w = run_steps h l w.
Proof.
  eexists. split; cycle 1.
  - intros w. rewrite <- bind_ret_r. unfold build_copy_ios. repeat reify_head.
  - destruct debug; vm_compute; reflexivity.
Qed.

Lemma build_run_gn_steps (h : host) (ios debug : bool) (env : gmap string string) :
  exists l, l = map (generate_step (outputDirName (build_type_name debug)) debug env)
                  (targets (platform_name ios)) /\
    forall w, build_run_gn h (platform_name ios) (build_type_name debug) debug env w
              = run_steps h l w.
Proof.
  destruct ios; (eexists; split; cycle 1);
    try (intros w; rewrite <- bind_ret_r; unfold build_run_gn, platform_name;
         repeat reify_head);
    destruct debug; vm_compute; reflexivity.
Qed.

Lemma build_ninja_steps (h : host) (ios debug : bool) (env : gmap string string) :
  exists l, l = map (compile_step (outputDirName (build_type_name debug)) env)
                  (targets (platform_name ios)) /\
    forall w, build_ninja h (platform_name ios) (build_type_name debug) env w
              = run_steps h l w.
Proof.
  destruct ios; (eexists; split; cycle 1);
    try (intros w; rewrite <- bind_ret_r; unfold build_ninja, platform_name;
         repeat reify_head);
    destruct debug; vm_compute; reflexivity.
Qed.

Lemma run_steps_app (h : host) (l1 l2 : list step) (w : world) :
  run_steps h (l1 ++ l2) w = bind (run_steps h l1) (fun _ => run_steps h l2) w.
Proof.
  revert w. induction l1 as [|s l1 IH]; intros w; [reflexivity|].
  change (bind (exec h s) (fun _ => run_steps h (l1 ++ l2)) w
          = bind (bind (exec h s) (fun _ => run_steps h l1)) (fun _ => run_steps h l2) w).
  rewrite bind_assoc. apply bind_ext. intros _ w'. apply IH.
Qed.

Lemma step_phase (h : host) (m : M unit) (K : unit -> M unit) (l1 l2 : list step)
    (w : world) :
  (forall w', m w' = run_steps h l1 w') ->
  (forall a w', K a w' = run_steps h l2 w') ->
  bind m K w = run_steps h (l1 ++ l2) w.
Proof.
  intros Hm HK. rewrite run_steps_app. unfold bind. rewrite Hm.
  destruct (run_steps h l1 w) as [w' [a|e]]; [apply HK | reflexivity].
Qed.

Lemma prepare_env_pure (h : host) (platform depot_tools_dir webrtc_dir : string)
    (w : world) :
  (prepare_env h platform depot_tools_dir webrtc_dir w).1 = w.
Proof.
  unfold prepare_env, bind, expect.
  destruct (environ h !! "PATH"); reflexivity.
Qed.

(** [build] runs its plan: the form that the lemmas on the events and
    on the final state of a build start from. *)
Lemma build_runs_plan (h : host) (target_dir : string) (ios debug : bool)
    (w : world) :
  build h target_dir (platform_name ios) debug w
  = planned_build h (outputDirName (build_type_name debug)) target_dir
      (platform_name ios) debug w.
Proof.
  unfold build, planned_build. cbv zeta.
  unfold bind at 1. unfold os_path_isdir at 1.
  destruct (FS.isdir (fs w) _); [|reflexivity].
  cbn [negb when]. rewrite bind_ret_l.
  unfold bind at 1.
  pose proof (prepare_env_pure h (platform_name ios)
                (Py.path_join target_dir ["depot_tools"])
                (Py.path_join target_dir ["webrtc"; platform_name ios; "src"]) w) as Hw.
  destruct (prepare_env h _ _ _ w) as [w0 [env|e]]; simpl in Hw; subst w0;
    [|reflexivity].
  destruct (build_run_gn_steps h ios debug env) as (lg & -> & Hg).
  destruct (build_ninja_steps h ios debug env) as (ln & -> & Hn).
  fold (build_type_name debug).
  unfold build_plan. cbv zeta.
  apply step_fs; intros _ w1.
  apply step_rmr; intros _ w2.
  apply step_phase; [exact Hg|]. intros _ w3.
  apply step_phase; [exact Hn|]. intros _ w4.
  apply step_rmr; intros _ w5.
  apply step_mkdirp; intros _ w6.
  destruct ios; cbn [platform_name].
  - destruct (build_copy_ios_steps h (Py.path_join target_dir ["build"; "ios"]) debug)
      as (la & -> & Ha).
    apply Ha.
  - destruct (build_copy_android_steps h (Py.path_join target_dir ["build"; "android"]) debug)
      as (la & -> & Ha).
    apply Ha.
Qed.

(** C2: [build] is the execution of the plan in which the generate, the
    compile and the assemble phase all name the output directory of a
    target by the one function [outputDirName] of the build type, the
    platform, the variant and the architecture: for every target of both
    platforms the three phases of [build] compute the same directory
    string. *)
Theorem output_dir_consistent (h : host) (target_dir : string) (ios debug : bool)
    (w : world) :
  build h target_dir (platform_name ios) debug w
  = planned_build h (outputDirName (build_type_name debug)) target_dir
      (platform_name ios) debug w.
Proof.
  unfold build, planned_build. cbv zeta.
  unfold bind at 1. unfold os_path_isdir at 1.
  destruct (FS.isdir (fs w) _); [|reflexivity].
  cbn [negb when]. rewrite bind_ret_l.
  unfold bind at 1.
  pose proof (prepare_env_pure h (platform_name ios)
                (Py.path_join target_dir ["depot_tools"])
                (Py.path_join target_dir ["webrtc"; platform_name ios; "src"]) w) as Hw.
  destruct (prepare_env h _ _ _ w) as [w0 [env|e]]; simpl in Hw; subst w0;
    [|reflexivity].
  destruct (build_run_gn_steps h ios debug env) as (lg & -> & Hg).
  destruct (build_ninja_steps h ios debug env) as (ln & -> & Hn).
  fold (build_type_name debug).
  unfold build_plan. cbv zeta.
  apply step_fs; intros _ w1.
  apply step_rmr; intros _ w2.
  apply step_phase; [exact Hg|]. intros _ w3.
  apply step_phase; [exact Hn|]. intros _ w4.
  apply step_rmr; intros _ w5.
  apply step_mkdirp; intros _ w6.
  destruct ios; cbn [platform_name].
  - destruct (build_copy_ios_steps h (Py.path_join target_dir ["build"; "ios"]) debug)
      as (la & -> & Ha).
    apply Ha.
  - destruct (build_copy_android_steps h (Py.path_join target_dir ["build"; "android"]) debug)
      as (la & -> & Ha).
    apply Ha.
Qed.

(** ** The events of a run *)

Section Traces.

Variable h : host.

Lemma exec_trace (s : step) (w : world) :
  exists evs, log (exec h s w).1 = log w ++ evs /\ step_trace s evs (exec h s w).2.
Proof.
  destruct s as [cmd env cwd_arg|path|path|o]; cbn [exec].
  - rewrite sh_run. cbv zeta.
    destruct (bool_decide (is_Some cwd_arg) && _)%bool.
    + eexists. split; [reflexivity|]. apply st_sh_no_dir.
      destruct (FS.exists_ _ _); [now right | now left].
    + eexists. split; [reflexivity|]. cbn [snd].
      destruct (child h _ _ _ _ _).1 as [rc|].
      * destruct (Z.eqb_spec rc 0) as [->|Hrc];
          [apply st_sh_zero | now apply st_sh_failed].
      * apply st_sh_interrupted.
  - unfold mkdirp, try_except, os_makedirs, fs_call.
    destruct (fs_apply (Makedirs path) (cwd w) (fs w)) as [fs'|e].
    + eexists. split; [reflexivity|]. apply st_mkdirp_done.
    + eexists. split; [destruct e; reflexivity|].
      destruct e; first [apply st_mkdirp_exists | now apply st_mkdirp_error].
  - unfold rmr, try_except, shutil_rmtree, fs_call.
    destruct (fs_apply (Rmtree path) (cwd w) (fs w)) as [fs'|e].
    + eexists. split; [reflexivity|]. apply st_rmr_done.
    + eexists. split; [destruct e; reflexivity|].
      destruct e; first [apply st_rmr_missing | now apply st_rmr_error].
  - unfold fs_call.
    destruct (fs_apply o (cwd w) (fs w)) as [fs'|e].
    + eexists. split; [reflexivity|]. apply st_fs_done.
    + eexists. split; [reflexivity|]. apply st_fs_error.
Qed.

Lemma run_steps_trace (l : list step) (w : world) :
  exists evs, log (run_steps h l w).1 = log w ++ evs /\
              plan_trace l evs (run_steps h l w).2.
Proof.
  revert w. induction l as [|s l IH]; intros w.
  - exists []. split; [now rewrite app_nil_r | constructor].
  - rewrite run_steps_cons. unfold bind.
    destruct (exec_trace s w) as (e1 & Hl1 & H1).
    destruct (exec h s w) as [w1 [[]|x]]; simpl in *.
    + destruct (IH w1) as (e2 & Hl2 & H2).
      exists (e1 ++ e2). split; [now rewrite Hl2, Hl1, app_assoc|].
      now apply pt_go.
    + exists e1. split; [exact Hl1|]. now apply pt_stop.
Qed.

End Traces.

(** The spawn of a step and its place among the events of the step. *)
Lemma step_trace_spawn s evs r i cmd env' dir x :
  step_trace s evs r -> evs !! i = Some (EvSpawn cmd env' dir x) ->
  i = 1%nat /\ length evs = 2%nat /\ (exists env cwd_arg, s = SSh cmd env cwd_arg) /\
  r = match x with
      | Exited rc => if Z.eqb rc 0 then Ret tt else Raise (SystemExit rc)
      | Interrupted => Ret tt
      end.
Proof.
  intros Hs Hi.
  destruct Hs; destruct i as [|[|i]]; simpl in Hi; try discriminate Hi;
    injection Hi as <- <- <- <-; (split; [reflexivity|]); (split; [reflexivity|]);
    (split; [eauto|]); try reflexivity.
  cbn. destruct (Z.eqb_spec rc 0); [contradiction | reflexivity].
Qed.

Lemma step_trace_sh_ret cmd env cwd_arg evs :
  step_trace (SSh cmd env cwd_arg) evs (Ret tt) ->
  exists env' dir x, evs = [sh_line cmd; EvSpawn cmd env' dir x] /\
                     (x = Exited 0 \/ x = Interrupted).
Proof.
  intros Hs. inversion Hs; subst; eauto 10.
Qed.

Lemma step_trace_nonempty s evs r : step_trace s evs r -> (0 < length evs)%nat.
Proof. destruct 1; simpl; lia. Qed.

(** Every spawn of a run comes from a command of the plan, and the
    commands planned before it have been spawned before it and have not
    failed. *)
Lemma plan_trace_spawn_order l evs r :
  plan_trace l evs r ->
  forall i cmd env' dir x, evs !! i = Some (EvSpawn cmd env' dir x) ->
  exists k env cwd_arg,
    l !! k = Some (SSh cmd env cwd_arg) /\
    forall k0 cmd0 env0 cwd0,
      (k0 < k)%nat -> l !! k0 = Some (SSh cmd0 env0 cwd0) ->
      exists j env0' dir0 x0,
        (j < i)%nat /\ evs !! j = Some (EvSpawn cmd0 env0' dir0 x0) /\
        (x0 = Exited 0 \/ x0 = Interrupted).
Proof.
  induction 1 as [|s l e1 e2 r Hs Hp IH|s l e1 x0 Hs];
    intros i cmd env' dir x Hi.
  - now rewrite lookup_nil in Hi.
  - destruct (decide (i < length e1)%nat) as [Hlt|Hge].
    + rewrite lookup_app_l in Hi by exact Hlt.
      destruct (step_trace_spawn _ _ _ _ _ _ _ _ Hs Hi) as (_ & _ & (env & ca & ->) & _).
      exists 0%nat, env, ca. split; [reflexivity|]. intros; lia.
    + rewrite lookup_app_r in Hi by lia.
      destruct (IH _ _ _ _ _ Hi) as (k & env & ca & Hk & Hbefore).
      exists (S k), env, ca. split; [exact Hk|].
      intros [|k0] cmd0 env0 cwd0 Hlt Hk0.
      * simpl in Hk0. injection Hk0 as ->.
        destruct (step_trace_sh_ret _ _ _ _ Hs) as (e' & d' & x' & -> & Hx').
        exists 1%nat, e', d', x'. simpl in Hge. split; [lia|]. split; [reflexivity | exact Hx'].
      * simpl in Hk0.
        destruct (Hbefore k0 cmd0 env0 cwd0 ltac:(lia) Hk0) as (j & e' & d' & x' & Hj & Hev & Hx').
        exists (length e1 + j)%nat, e', d', x'. split; [lia|]. split; [|exact Hx'].
        rewrite lookup_app_r by lia. now replace (length e1 + j - length e1)%nat with j by lia.
  - destruct (step_trace_spawn _ _ _ _ _ _ _ _ Hs Hi) as (_ & _ & (env & ca & ->) & _).
    exists 0%nat, env, ca. split; [reflexivity|]. intros; lia.
Qed.

(** An interrupted child does not end a plan: the next step follows, or
    there is none and the plan ends normally. *)
Lemma plan_trace_interrupted l evs r :
  plan_trace l evs r ->
  forall i cmd env' dir, evs !! i = Some (EvSpawn cmd env' dir Interrupted) ->
  is_Some (evs !! S i) \/ (r = Ret tt /\ length evs = S i).
Proof.
  induction 1 as [|s l e1 e2 r Hs Hp IH|s l e1 x0 Hs]; intros i cmd env' dir Hi.
  - now rewrite lookup_nil in Hi.
  - destruct (decide (i < length e1)%nat) as [Hlt|Hge].
    + rewrite lookup_app_l in Hi by exact Hlt.
      destruct (step_trace_spawn _ _ _ _ _ _ _ _ Hs Hi) as (-> & Hlen & _ & _).
      inversion Hp as [|s' l' e1' e2' r' Hs' Hp'|s' l' e1' x' Hs']; subst.
      * right. split; [reflexivity|]. rewrite app_nil_r. exact Hlen.
      * left. apply lookup_lt_is_Some. rewrite !length_app.
        pose proof (step_trace_nonempty _ _ _ Hs'). lia.
      * left. apply lookup_lt_is_Some. rewrite !length_app.
        pose proof (step_trace_nonempty _ _ _ Hs'). lia.
    + rewrite lookup_app_r in Hi by lia.
      destruct (IH _ _ _ _ Hi) as [Hnext|[-> Hlen]].
      * left. rewrite lookup_app_r by lia.
        now replace (S i - length e1)%nat with (S (i - length e1)) by lia.
      * right. split; [reflexivity|]. rewrite length_app. lia.
  - destruct (step_trace_spawn _ _ _ _ _ _ _ _ Hs Hi) as (_ & _ & _ & Hr).
    discriminate Hr.
Qed.

(** The events of [build]: the message of the missing source tree, or
    nothing when the environment has no search path, or the events of
    the plan. *)
Lemma build_trace (h : host) (target_dir : string) (ios debug : bool) (w : world) :
  exists evs,
    log (build h target_dir (platform_name ios) debug w).1 = log w ++ evs /\
    ((evs = [EvPrint "WebRTC source not found, did you forget to run --setup?"] /\
      (build h target_dir (platform_name ios) debug w).2 = Raise (SystemExit 1)) \/
     (evs = [] /\
      (build h target_dir (platform_name ios) debug w).2 = Raise (KeyError "PATH")) \/
     (exists env,
        plan_trace
          (build_plan (outputDirName (build_type_name debug)) target_dir
             (platform_name ios) debug env)
          evs (build h target_dir (platform_name ios) debug w).2)).
Proof.
  rewrite build_runs_plan. unfold planned_build. cbv zeta.
  destruct (FS.isdir (fs w) _).
  - unfold prepare_env, bind, expect.
    destruct (environ h !! "PATH") as [path|].
    + cbn [ret].
      match goal with
      | |- context [run_steps h ?l w] =>
          destruct (run_steps_trace h l w) as (evs & Hlog & Htr)
      end.
      exists evs. split; [exact Hlog|]. right. right. eexists. exact Htr.
    + exists []. split; [now rewrite app_nil_r|]. right. left. now split.
  - eexists. split; [reflexivity|]. left. now split.
Qed.

(** ** The order of archiving and stripping *)

(** In the plan of iOS the bitcode-preserving archive is step 17 and no
    step up to it strips. *)
Lemma ios_plan_strip_position (D : BuildTarget -> string) (target_dir : string)
    (debug : bool) (env : gmap string string) (k : nat) cmd e ca :
  build_plan D target_dir "ios" debug env !! k = Some (SSh cmd e ca) ->
  is_strip_cmd cmd = true ->
  (17 < k)%nat /\
  build_plan D target_dir "ios" debug env !! 17%nat
  = Some (SSh bitcode_archive_cmd None (Some (Py.path_join target_dir ["build"; "ios"]))).
Proof.
  intros Hk Hs. split; [|reflexivity].
  do 18 (destruct k as [|k];
         [ vm_compute in Hk; try discriminate Hk;
           injection Hk as <- _ _; vm_compute in Hs; discriminate Hs |]).
  lia.
Qed.

(** With the wait for the archiver of the bitcode-preserving bundle
    interrupted before it has written anything, the build goes on and
    returns: both strip commands are spawned after it, the archive
    command is not spawned again, and at the end the bitcode-preserving
    archive does not exist, while the stripped one does. *)
Lemma strip_without_archive :
  let run := build interrupted_archive_host "/w/build_webrtc" "ios" false
               (start ios_tree "/") in
  run.2 = Ret tt /\
  (exists env,
     log run.1 !! 28%nat
     = Some (EvSpawn bitcode_archive_cmd env "/w/build_webrtc/build/ios" Interrupted)) /\
  (exists cmd env dir,
     log run.1 !! 31%nat = Some (EvSpawn cmd env dir (Exited 0)) /\
     is_strip_cmd cmd = true) /\
  (exists cmd env dir,
     log run.1 !! 33%nat = Some (EvSpawn cmd env dir (Exited 0)) /\
     is_strip_cmd cmd = true) /\
  omap (fun e => match e with
                 | EvSpawn cmd _ _ x =>
                     if String.eqb cmd bitcode_archive_cmd then Some x else None
                 | _ => None
                 end) (log run.1) = [Interrupted] /\
  fs run.1 "/w/build_webrtc/build/ios/WebRTC.xcframework-bitcode.tgz" = None /\
  fs run.1 "/w/build_webrtc/build/ios/WebRTC.xcframework.tgz" = Some File.
Proof.
  intros run.
  split; [vm_compute; reflexivity|].
  split; [eexists; vm_compute; reflexivity|].
  split; [do 3 eexists; split; [vm_compute; reflexivity | vm_compute; reflexivity]|].
  split; [do 3 eexists; split; [vm_compute; reflexivity | vm_compute; reflexivity]|].
  repeat split; vm_compute; reflexivity.
Qed.

(** C3, amended: in a run of the iOS build, every bitcode-strip command
    is spawned after the command that archives the bitcode-preserving
    bundle, and that command did not fail: it exited with status zero,
    or the wait for it was interrupted, in which case the archive need
    not exist. *)
Theorem archive_before_strip (h : host) (target_dir : string) (debug : bool)
    (fs0 : fs_t) (cwd0 : string) (i : nat) (cmd : string)
    (env : gmap string string) (dir : string) (x : child_end) :
  log (build h target_dir "ios" debug (start fs0 cwd0)).1 !! i
    = Some (EvSpawn cmd env dir x) ->
  is_strip_cmd cmd = true ->
  exists j env0 dir0 x0,
    (j < i)%nat /\
    log (build h target_dir "ios" debug (start fs0 cwd0)).1 !! j
      = Some (EvSpawn bitcode_archive_cmd env0 dir0 x0) /\
    (x0 = Exited 0 \/ x0 = Interrupted).
Proof.
  intros Hi Hs.
  destruct (build_trace h target_dir true debug (start fs0 cwd0))
    as (evs & Hlog & Hcases).
  cbn [platform_name] in Hlog, Hcases. simpl in Hlog. rewrite Hlog in Hi |- *.
  destruct Hcases as [[-> _]|[[-> _]|(penv & Htr)]].
  - destruct i as [|i]; simpl in Hi; [discriminate | now rewrite lookup_nil in Hi].
  - now rewrite lookup_nil in Hi.
  - destruct (plan_trace_spawn_order _ _ _ Htr _ _ _ _ _ Hi) as (k & e & ca & Hk & Hbefore).
    destruct (ios_plan_strip_position _ _ _ _ _ _ _ _ Hk Hs) as [Hlt H17].
    exact (Hbefore _ _ _ _ Hlt H17).
Qed.

Lemma archive_before_strip_witness :
  exists j env0 dir0 x0,
    (j < 31)%nat /\
    log (build ios_tools_host "/w/build_webrtc" "ios" false (start ios_tree "/")).1 !! j
      = Some (EvSpawn bitcode_archive_cmd env0 dir0 x0) /\
    (x0 = Exited 0 \/ x0 = Interrupted).
Proof.
  eapply (archive_before_strip ios_tools_host "/w/build_webrtc" false ios_tree "/" 31%nat).
  - vm_compute. reflexivity.
  - vm_compute. reflexivity.
Defined.

(** ** Interrupted commands *)

(** With the first command of an Android build interrupted, the run goes
    on: the second command is spawned. *)
Lemma interrupt_does_not_stop_run :
  let l := log (main (host_with 0 Interrupted) build_android_args
                  (start android_tree "/")).1 in
  (exists cmd env dir, l !! 3%nat = Some (EvSpawn cmd env dir Interrupted)) /\
  (exists cmd env dir, l !! 5%nat = Some (EvSpawn cmd env dir (Exited 0))).
Proof.
  split; do 3 eexists; vm_compute; reflexivity.
Qed.

(** C4, amended: when the wait for a child is interrupted, [sh] returns
    normally, and the run does not stop there: [build] goes on with its
    next operation; when the interrupted command was the last operation
    of [build], [build] returns normally. *)
Theorem interrupt_swallowed (h : host) (target_dir : string) (ios debug : bool)
    (fs0 : fs_t) (cwd0 : string) (i : nat) (cmd : string)
    (env : gmap string string) (dir : string) :
  log (build h target_dir (platform_name ios) debug (start fs0 cwd0)).1 !! i
    = Some (EvSpawn cmd env dir Interrupted) ->
  (is_Some (log (build h target_dir (platform_name ios) debug (start fs0 cwd0)).1 !! S i) \/
   ((build h target_dir (platform_name ios) debug (start fs0 cwd0)).2 = Ret tt /\
    length (log (build h target_dir (platform_name ios) debug (start fs0 cwd0)).1) = S i)) /\
  (forall cmd' env' cwd_arg w,
     let dir' := from_option (FS.resolve (cwd w)) (cwd w) cwd_arg in
     (bool_decide (is_Some cwd_arg) && negb (FS.isdir (fs w) dir'))%bool = false ->
     (child h (spawned w) cmd' (from_option id (environ h) env') dir' (fs w)).1
       = Interrupted ->
     (sh h cmd' env' cwd_arg w).2 = Ret tt).
Proof.
  intros Hi. split.
  - destruct (build_trace h target_dir ios debug (start fs0 cwd0))
      as (evs & Hlog & Hcases).
    simpl in Hlog. rewrite Hlog in Hi |- *.
    destruct Hcases as [[-> _]|[[-> _]|(penv & Htr)]].
    + destruct i as [|i]; simpl in Hi; [discriminate | now rewrite lookup_nil in Hi].
    + now rewrite lookup_nil in Hi.
    + exact (plan_trace_interrupted _ _ _ Htr _ _ _ _ Hi).
  - intros cmd' env' cwd_arg w dir' Hdir Hch.
    rewrite sh_run. cbv zeta. fold dir'. rewrite Hdir. cbn [snd]. now rewrite Hch.
Qed.

Lemma interrupt_swallowed_witness :
  (is_Some (log (build (host_with 0 Interrupted) "/w/build_webrtc" (platform_name false)
                   false (start android_tree "/")).1 !! 4%nat) \/
   ((build (host_with 0 Interrupted) "/w/build_webrtc" (platform_name false) false
       (start android_tree "/")).2 = Ret tt /\
    length (log (build (host_with 0 Interrupted) "/w/build_webrtc" (platform_name false)
                   false (start android_tree "/")).1) = 4%nat)) /\
  (forall cmd' env' cwd_arg w,
     let dir' := from_option (FS.resolve (cwd w)) (cwd w) cwd_arg in
     (bool_decide (is_Some cwd_arg) && negb (FS.isdir (fs w) dir'))%bool = false ->
     (child (host_with 0 Interrupted) (spawned w) cmd'
        (from_option id (environ (host_with 0 Interrupted)) env') dir' (fs w)).1
       = Interrupted ->
     (sh (host_with 0 Interrupted) cmd' env' cwd_arg w).2 = Ret tt).
Proof.
  eapply (interrupt_swallowed (host_with 0 Interrupted) "/w/build_webrtc" false false
            android_tree "/" 3%nat).
  vm_compute. reflexivity.
Defined.

(** ** Runs that complete *)

Lemma step_trace_width s b : step_trace s b (Ret tt) -> length b = step_width s.
Proof. intros H. inversion H; reflexivity. Qed.

Lemma step_trace_rmr_ret path b :
  step_trace (SRmr path) b (Ret tt) -> exists err, b = [EvFs (Rmtree path) err].
Proof. intros H. inversion H; eauto. Qed.

(** In a run that completes, every step of the plan has its events at
    its place. *)
Lemma plan_trace_block l evs :
  plan_trace l evs (Ret tt) ->
  length evs = offset l (length l) /\
  forall k s, l !! k = Some s ->
    exists b, step_trace s b (Ret tt) /\
      forall j e, b !! j = Some e -> evs !! (offset l k + j)%nat = Some e.
Proof.
  intros H. remember (Ret tt) as r eqn:Hr. revert Hr.
  induction H as [|s l e1 e2 r Hs Hp IH|s l e1 x Hs]; intros Hr; [| |discriminate Hr].
  - split; [reflexivity|]. intros k s Hk. now rewrite lookup_nil in Hk.
  - destruct (IH Hr) as [Hlen Hblocks]. subst r.
    pose proof (step_trace_width _ _ Hs) as Hw.
    split.
    + rewrite length_app, Hlen, Hw. unfold offset. now rewrite !firstn_all.
    + intros [|k] s' Hk.
      * simpl in Hk. injection Hk as <-. exists e1. split; [exact Hs|].
        intros j e Hj. unfold offset. simpl. now apply lookup_app_l_Some.
      * simpl in Hk. destruct (Hblocks k s' Hk) as (b & Hb & Hat).
        exists b. split; [exact Hb|]. intros j e Hj.
        unfold offset in *. cbn [take map].
        change (list_sum (step_width s :: map step_width (take k l)))
          with (step_width s + list_sum (map step_width (take k l)))%nat.
        rewrite lookup_app_r by lia.
        replace (step_width s + list_sum (map step_width (take k l)) + j - length e1)%nat
          with (list_sum (map step_width (take k l)) + j)%nat by lia.
        now apply Hat.
Qed.

Section FinalState.

Variable h : host.

Lemma rmr_ret (path : string) (w w' : world) :
  rmr path w = (w', Ret tt) ->
  cwd w' = cwd w /\ spawned w' = spawned w /\
  fs w' (FS.resolve (cwd w) path) = None /\
  (forall q, fs w' q <> None -> fs w q <> None).
Proof.
  unfold rmr, try_except, shutil_rmtree, fs_call. cbn [fs_apply].
  unfold FS.rmtree.
  destruct (fs w (FS.resolve (cwd w) path)) as [[|]|] eqn:Hp; cbn.
  - discriminate.
  - intros [= <-]. cbn. repeat split.
    + unfold FS.under. now rewrite String.eqb_refl.
    + intros q. now destruct (FS.under _ q).
  - intros [= <-]. cbn. repeat split; [exact Hp | trivial].
Qed.

Lemma run_steps_last_rmr (l : list step) (path : string) (w w' : world) :
  run_steps h (l ++ [SRmr path]) w = (w', Ret tt) ->
  exists w1, run_steps h l w = (w1, Ret tt) /\ cwd w' = cwd w1 /\
             fs w' (FS.resolve (cwd w') path) = None.
Proof.
  rewrite run_steps_app. intros Hrun.
  apply bind_Ret_inv in Hrun as (w1 & [] & Hl & Hlast).
  change (bind (rmr path) (fun _ => ret tt) w1 = (w', Ret tt)) in Hlast.
  rewrite bind_ret_r in Hlast.
  apply rmr_ret in Hlast as (Hcwd & _ & Hgone & _).
  exists w1. split; [exact Hl|]. split; [exact Hcwd|]. now rewrite Hcwd.
Qed.

Lemma sh_ret (cmd : string) (env : option (gmap string string))
    (cwd_arg : option string) (w w' : world) :
  sh h cmd env cwd_arg w = (w', Ret tt) ->
  cwd w' = cwd w /\
  fs w' = (child h (spawned w) cmd (from_option id (environ h) env)
             (from_option (FS.resolve (cwd w)) (cwd w) cwd_arg) (fs w)).2.
Proof.
  rewrite sh_run. cbv zeta.
  destruct (bool_decide (is_Some cwd_arg) && _)%bool; [discriminate|].
  intros [= <- _]. now split.
Qed.

Lemma run_steps_rmr_then_sh (l : list step) (path cmd : string)
    (env : option (gmap string string)) (cwd_arg : option string) (w w' : world) :
  run_steps h (l ++ [SRmr path; SSh cmd env cwd_arg]) w = (w', Ret tt) ->
  exists w1 w2,
    run_steps h l w = (w1, Ret tt) /\ cwd w' = cwd w1 /\ cwd w2 = cwd w1 /\
    fs w2 (FS.resolve (cwd w') path) = None /\
    fs w' = (child h (spawned w2) cmd (from_option id (environ h) env)
               (from_option (FS.resolve (cwd w2)) (cwd w2) cwd_arg) (fs w2)).2.
Proof.
  rewrite run_steps_app. intros Hrun.
  apply bind_Ret_inv in Hrun as (w1 & [] & Hl & Hlast).
  rewrite run_steps_cons in Hlast.
  apply bind_Ret_inv in Hlast as (w2 & [] & Hrm & Hsh).
  change (bind (sh h cmd env cwd_arg) (fun _ => ret tt) w2 = (w', Ret tt)) in Hsh.
  rewrite bind_ret_r in Hsh.
  cbn [exec] in Hrm. apply rmr_ret in Hrm as (Hcwd & _ & Hgone & _).
  apply sh_ret in Hsh as (Hcwd' & Hfs).
  exists w1, w2. split; [exact Hl|]. rewrite Hcwd', Hcwd.
  repeat split; [exact Hgone | now rewrite <- Hcwd].
Qed.

End FinalState.

(** ** Transient directories *)

Lemma build_completes_plan (h : host) (target_dir : string) (ios debug : bool)
    (w : world) :
  (build h target_dir (platform_name ios) debug w).2 = Ret tt ->
  exists env,
    build h target_dir (platform_name ios) debug w
    = run_steps h (build_plan (outputDirName (build_type_name debug)) target_dir
                     (platform_name ios) debug env) w.
Proof.
  rewrite build_runs_plan. unfold planned_build. cbv zeta.
  destruct (FS.isdir (fs w) _); [|discriminate].
  destruct (prepare_env h _ _ _ w) as [w0 [env|e]]; [|discriminate].
  intros _. now exists env.
Qed.

Lemma ios_plan_ends (D : BuildTarget -> string) (target_dir : string) (debug : bool)
    (env : gmap string string) :
  let xc := Py.path_join (Py.path_join target_dir ["build"; "ios"]) ["WebRTC.xcframework"] in
  let plan := build_plan D target_dir "ios" debug env in
  plan = removelast plan ++ [SRmr xc] /\
  plan !! 17%nat = Some (SSh bitcode_archive_cmd None
                           (Some (Py.path_join target_dir ["build"; "ios"]))) /\
  plan !! 18%nat = Some (SRmr xc) /\
  plan !! 22%nat = Some (SSh stripped_archive_cmd None
                           (Some (Py.path_join target_dir ["build"; "ios"]))) /\
  plan !! 23%nat = Some (SRmr xc) /\
  offset plan 17 = 27%nat /\ offset plan 18 = 29%nat /\
  offset plan 22 = 36%nat /\ offset plan 23 = 38%nat /\
  offset plan (length plan) = 39%nat.
Proof. repeat split. Qed.

Lemma android_plan_ends (D : BuildTarget -> string) (target_dir : string) (debug : bool)
    (env : gmap string string) :
  let build_dir := Py.path_join target_dir ["build"; "android"] in
  let lib := Py.path_join build_dir ["lib"] in
  let plan := build_plan D target_dir "android" debug env in
  plan = removelast (removelast plan)
           ++ [SRmr lib; SSh android_archive_cmd None (Some build_dir)] /\
  plan !! 21%nat = Some (SSh jar_cmd None (Some build_dir)) /\
  plan !! 22%nat = Some (SRmr lib) /\
  plan !! 23%nat = Some (SSh android_archive_cmd None (Some build_dir)) /\
  offset plan 21 = 29%nat /\ offset plan 22 = 31%nat /\ offset plan 23 = 32%nat /\
  offset plan (length plan) = 34%nat.
Proof. repeat split. Qed.

(** The removals in the log of a build that completes: for iOS each of
    the two archive commands is followed at once by the removal of the
    bundle directory, the second removal is the last event, and the
    bundle directory does not exist at the end; for Android the jar
    command is followed at once by the removal of the ABI staging tree,
    only the last archive command follows it, and when that archiver
    creates no directory the staging tree does not exist at the end. *)
Lemma transient_removal_events (h : host) (target_dir : string) (ios debug : bool)
    (fs0 : fs_t) (cwd0 : string) :
  let run := build h target_dir (platform_name ios) debug (start fs0 cwd0) in
  let build_dir := Py.path_join target_dir ["build"; platform_name ios] in
  let xcframework_path := Py.path_join build_dir ["WebRTC.xcframework"] in
  let lib := Py.path_join build_dir ["lib"] in
  run.2 = Ret tt ->
  if ios then
    (exists env1 d1 x1 err1,
       log run.1 !! 28%nat = Some (EvSpawn bitcode_archive_cmd env1 d1 x1) /\
       log run.1 !! 29%nat = Some (EvFs (Rmtree xcframework_path) err1)) /\
    (exists env2 d2 x2 err2,
       log run.1 !! 37%nat = Some (EvSpawn stripped_archive_cmd env2 d2 x2) /\
       log run.1 !! 38%nat = Some (EvFs (Rmtree xcframework_path) err2)) /\
    length (log run.1) = 39%nat /\
    fs run.1 (FS.resolve (cwd run.1) xcframework_path) = None
  else
    (exists env1 d1 x1 err1,
       log run.1 !! 30%nat = Some (EvSpawn jar_cmd env1 d1 x1) /\
       log run.1 !! 31%nat = Some (EvFs (Rmtree lib) err1)) /\
    (exists env2 d2 x2,
       log run.1 !! 33%nat = Some (EvSpawn android_archive_cmd env2 d2 x2)) /\
    length (log run.1) = 34%nat /\
    ((forall n env dir fs p,
        fs p = None -> (child h n android_archive_cmd env dir fs).2 p <> Some Dir) ->
     FS.isdir (fs run.1) (FS.resolve (cwd run.1) lib) = false).
Proof.
  intros run build_dir xcframework_path lib Hret.
  destruct (build_completes_plan h target_dir ios debug (start fs0 cwd0) Hret)
    as (env & Hrun).
  set (D := outputDirName (build_type_name debug)) in *.
  set (plan := build_plan D target_dir (platform_name ios) debug env) in *.
  destruct (run_steps_trace h plan (start fs0 cwd0)) as (evs & Hlog & Htrace).
  fold run in Hrun. rewrite <- Hrun in Hlog, Htrace. rewrite Hret in Htrace.
  simpl in Hlog.
  destruct (plan_trace_block _ _ Htrace) as [Hlen Hblocks].
  rewrite Hlog.
  destruct ios; cbn [platform_name] in *.
  - destruct (ios_plan_ends D target_dir debug env)
      as (Hend & H17 & H18 & H22 & H23 & O17 & O18 & O22 & O23 & Olen).
    fold plan in Hend, H17, H18, H22, H23, O17, O18, O22, O23, Olen.
    destruct (Hblocks _ _ H17) as (b17 & Hb17 & Hat17).
    destruct (Hblocks _ _ H18) as (b18 & Hb18 & Hat18).
    destruct (Hblocks _ _ H22) as (b22 & Hb22 & Hat22).
    destruct (Hblocks _ _ H23) as (b23 & Hb23 & Hat23).
    destruct (step_trace_sh_ret _ _ _ _ Hb17) as (e1 & d1 & x1 & -> & _).
    destruct (step_trace_sh_ret _ _ _ _ Hb22) as (e2 & d2 & x2 & -> & _).
    destruct (step_trace_rmr_ret _ _ Hb18) as (err1 & ->).
    destruct (step_trace_rmr_ret _ _ Hb23) as (err2 & ->).
    rewrite O17 in Hat17. rewrite O18 in Hat18. rewrite O22 in Hat22. rewrite O23 in Hat23.
    split; [|split; [|split]].
    + exists e1, d1, x1, err1. split.
      * exact (Hat17 1%nat _ eq_refl).
      * exact (Hat18 0%nat _ eq_refl).
    + exists e2, d2, x2, err2. split.
      * exact (Hat22 1%nat _ eq_refl).
      * exact (Hat23 0%nat _ eq_refl).
    + now rewrite Hlen, Olen.
    + pose proof Hrun as Hrun'. rewrite Hend in Hrun'.
      destruct run as [w' r] eqn:Er. simpl in Hret. subst r. symmetry in Hrun'.
      apply run_steps_last_rmr in Hrun' as (w1 & _ & _ & Hgone). exact Hgone.
  - destruct (android_plan_ends D target_dir debug env)
      as (Hend & H21 & H22 & H23 & O21 & O22 & O23 & Olen).
    fold plan in Hend, H21, H22, H23, O21, O22, O23, Olen.
    destruct (Hblocks _ _ H21) as (b21 & Hb21 & Hat21).
    destruct (Hblocks _ _ H22) as (b22 & Hb22 & Hat22).
    destruct (Hblocks _ _ H23) as (b23 & Hb23 & Hat23).
    destruct (step_trace_sh_ret _ _ _ _ Hb21) as (e1 & d1 & x1 & -> & _).
    destruct (step_trace_sh_ret _ _ _ _ Hb23) as (e2 & d2 & x2 & -> & _).
    destruct (step_trace_rmr_ret _ _ Hb22) as (err1 & ->).
    rewrite O21 in Hat21. rewrite O22 in Hat22. rewrite O23 in Hat23.
    split; [|split; [|split]].
    + exists e1, d1, x1, err1. split.
      * exact (Hat21 1%nat _ eq_refl).
      * exact (Hat22 0%nat _ eq_refl).
    + exists e2, d2, x2. exact (Hat23 1%nat _ eq_refl).
    + now rewrite Hlen, Olen.
    + intros Htar. pose proof Hrun as Hrun'. rewrite Hend in Hrun'.
      destruct run as [w' r] eqn:Er. simpl in Hret. subst r. symmetry in Hrun'.
      apply run_steps_rmr_then_sh in Hrun' as (w1 & w2 & _ & _ & _ & Hgone & Hfs).
      cbn [fst]. unfold FS.isdir. rewrite Hfs.
      specialize (Htar (spawned w2) (from_option id (environ h) None)
                    (from_option (FS.resolve (cwd w2)) (cwd w2)
                       (Some (Py.path_join target_dir ["build"; "android"])))
                    (fs w2) _ Hgone).
      destruct ((child h _ _ _ _ _).2 _) as [[|]|]; [reflexivity | contradiction | reflexivity].
Qed.

(** * Further properties of the script *)

(** ** The helpers [mkdirp], [rmr] and [sh] *)

(** [mkdirp] on a path that exists, directory or file, returns
    normally and changes nothing; the [EEXIST] of [os.makedirs] is the
    only trace. *)
Theorem mkdirp_existing (path : string) (w : world) :
  FS.exists_ (fs w) (FS.resolve (cwd w) path) = true ->
  mkdirp path w
  = (World (fs w) (cwd w) (log w ++ [EvFs (Makedirs path) (Some EEXIST)]) (spawned w),
     Ret tt).
Proof.
  intros He. unfold mkdirp, try_except, os_makedirs, fs_call.
  cbn [fs_apply]. unfold FS.makedirs. now rewrite He.
Qed.

Lemma mkdirp_existing_witness :
  mkdirp "/w" (start android_tree "/")
  = (World (fs (start android_tree "/")) (cwd (start android_tree "/"))
       (log (start android_tree "/") ++ [EvFs (Makedirs "/w") (Some EEXIST)])
       (spawned (start android_tree "/")),
     Ret tt).
Proof.
  apply (mkdirp_existing "/w" (start android_tree "/")). reflexivity.
Defined.

(** X1: when [mkdirp] returns, the path exists, the working directory is
    the same, and nothing that existed has gone; a path that was missing
    is now a directory. *)
Theorem mkdirp_ensures (path : string) (w w' : world) :
  mkdirp path w = (w', Ret tt) ->
  cwd w' = cwd w /\
  FS.exists_ (fs w') (FS.resolve (cwd w) path) = true /\
  (FS.exists_ (fs w) (FS.resolve (cwd w) path) = false ->
   FS.isdir (fs w') (FS.resolve (cwd w) path) = true) /\
  (forall q, FS.exists_ (fs w) q = true -> FS.exists_ (fs w') q = true).
Proof.
  unfold mkdirp, try_except, os_makedirs, fs_call. cbn [fs_apply].
  unfold FS.makedirs.
  destruct (FS.exists_ (fs w) (FS.resolve (cwd w) path)) eqn:He.
  - intros [= <-]. cbn. repeat split; [exact He | discriminate | trivial].
  - destruct (existsb _ _); [discriminate|].
    intros [= <-]. cbn. unfold FS.exists_, FS.isdir.
    rewrite String.eqb_refl. cbn. repeat split.
    intros q Hq. destruct (_ || _)%bool; [reflexivity | exact Hq].
Qed.

Lemma mkdirp_ensures_witness :
  let w' := (mkdirp "/w/new/dir" (start android_tree "/")).1 in
  cwd w' = cwd (start android_tree "/") /\
  FS.exists_ (fs w') (FS.resolve (cwd (start android_tree "/")) "/w/new/dir") = true /\
  (FS.exists_ (fs (start android_tree "/"))
     (FS.resolve (cwd (start android_tree "/")) "/w/new/dir") = false ->
   FS.isdir (fs w') (FS.resolve (cwd (start android_tree "/")) "/w/new/dir") = true) /\
  (forall q, FS.exists_ (fs (start android_tree "/")) q = true ->
             FS.exists_ (fs w') q = true).
Proof.
  apply (mkdirp_ensures "/w/new/dir" (start android_tree "/")). reflexivity.
Defined.

(** X2: [rmr] is idempotent: when it returns, the path does not exist,
    and a second [rmr] of the same path returns normally too and changes
    nothing, its [ENOENT] swallowed. *)
Theorem rmr_idempotent (path : string) (w w' : world) :
  rmr path w = (w', Ret tt) ->
  fs w' (FS.resolve (cwd w') path) = None /\
  rmr path w'
  = (World (fs w') (cwd w') (log w' ++ [EvFs (Rmtree path) (Some ENOENT)]) (spawned w'),
     Ret tt).
Proof.
  intros Hr. pose proof (rmr_ret path w w' Hr) as (Hcwd & _ & Hgone & _).
  rewrite <- Hcwd in Hgone. split; [exact Hgone|].
  unfold rmr, try_except, shutil_rmtree, fs_call. cbn [fs_apply]. unfold FS.rmtree.
  now rewrite Hgone.
Qed.

Lemma rmr_idempotent_witness :
  let w' := (rmr "/w/build_webrtc" (start android_tree "/")).1 in
  fs w' (FS.resolve (cwd w') "/w/build_webrtc") = None /\
  rmr "/w/build_webrtc" w'
  = (World (fs w') (cwd w')
       (log w' ++ [EvFs (Rmtree "/w/build_webrtc") (Some ENOENT)]) (spawned w'),
     Ret tt).
Proof.
  apply (rmr_idempotent "/w/build_webrtc" (start android_tree "/")). reflexivity.
Defined.

(** [rmr] of a directory removes the paths of its tree and no other:
    a path outside the tree is as before. *)
Theorem rmr_removes_tree (path : string) (w : world) :
  FS.isdir (fs w) (FS.resolve (cwd w) path) = true ->
  (rmr path w).2 = Ret tt /\
  forall q,
    fs (rmr path w).1 q
    = if FS.under (FS.resolve (cwd w) path) q then None else fs w q.
Proof.
  unfold FS.isdir, rmr, try_except, shutil_rmtree, fs_call. cbn [fs_apply].
  unfold FS.rmtree.
  destruct (fs w (FS.resolve (cwd w) path)) as [[|]|]; try discriminate.
  intros _. now split.
Qed.

Lemma rmr_removes_tree_witness :
  (rmr "/w/build_webrtc" (start android_tree "/")).2 = Ret tt /\
  forall q,
    fs (rmr "/w/build_webrtc" (start android_tree "/")).1 q
    = if FS.under (FS.resolve (cwd (start android_tree "/")) "/w/build_webrtc") q
      then None else fs (start android_tree "/") q.
Proof.
  apply (rmr_removes_tree "/w/build_webrtc" (start android_tree "/")). reflexivity.
Defined.

(** X3: [rmr] of a path that is a file raises: [shutil.rmtree] fails with
    [ENOTDIR], which [rmr] does not swallow; the file stays. *)
Theorem rmr_file_raises (path : string) (w : world) :
  fs w (FS.resolve (cwd w) path) = Some File ->
  rmr path w
  = (World (fs w) (cwd w) (log w ++ [EvFs (Rmtree path) (Some ENOTDIR)]) (spawned w),
     Raise (OSError ENOTDIR)).
Proof.
  intros Hf. unfold rmr, try_except, shutil_rmtree, fs_call. cbn [fs_apply].
  unfold FS.rmtree. now rewrite Hf.
Qed.

(** The ways in which [sh] ends. *)
Lemma sh_ends (h : host) (cmd : string) (env : option (gmap string string))
    (cwd_arg : option string) (w : world) :
  (sh h cmd env cwd_arg w).2 = Ret tt \/
  (exists rc, rc <> 0 /\ (sh h cmd env cwd_arg w).2 = Raise (SystemExit rc)) \/
  (exists e, (sh h cmd env cwd_arg w).2 = Raise (OSError e)).
Proof.
  rewrite sh_run. cbv zeta.
  destruct (bool_decide (is_Some cwd_arg) && _)%bool; cbn [snd]; [right; right; eauto|].
  destruct (child h _ _ _ _ _).1 as [rc|]; [|now left].
  destruct (Z.eqb_spec rc 0) as [->|Hrc]; [now left|].
  right. left. now exists rc.
Qed.



Lemma rmr_file_raises_witness :
  rmr "/w/notes.txt" (start tree_with_file "/")
  = (World (fs (start tree_with_file "/")) (cwd (start tree_with_file "/"))
       (log (start tree_with_file "/") ++ [EvFs (Rmtree "/w/notes.txt") (Some ENOTDIR)])
       (spawned (start tree_with_file "/")),
     Raise (OSError ENOTDIR)).
Proof.
  apply (rmr_file_raises "/w/notes.txt" (start tree_with_file "/")). reflexivity.
Defined.

(** ** The exceptions of the modes *)

Section RaisesOnly.

Variable h : host.

Lemma ro_ret {A} ok (a : A) : raises_only ok (ret a).
Proof. intros w e H. discriminate H. Qed.

Lemma ro_raise {A} (ok : exn -> Prop) (e : exn) : ok e -> raises_only ok (@raise A e).
Proof. intros He w e' [= <-]. exact He. Qed.

Lemma ro_bind {A B} ok (m : M A) (f : A -> M B) :
  raises_only ok m -> (forall a, raises_only ok (f a)) -> raises_only ok (bind m f).
Proof.
  intros Hm Hf w e. unfold bind. specialize (Hm w).
  destruct (m w) as [w1 [a|e1]]; simpl in *.
  - apply Hf.
  - intros [= <-]. now apply Hm.
Qed.

Lemma ro_expect {A} (ok : exn -> Prop) (o : option A) (e : exn) :
  ok e -> raises_only ok (expect o e).
Proof. intros He. destruct o; [apply ro_ret | now apply ro_raise]. Qed.

Lemma ro_print ok (line : string) : raises_only ok (print line).
Proof. intros w e H. discriminate H. Qed.

Lemma ro_isdir ok (p : string) : raises_only ok (os_path_isdir p).
Proof. intros w e H. discriminate H. Qed.

Lemma ro_fs_call (o : fsop) : raises_only mode_exception (fs_call o).
Proof.
  intros w e. unfold fs_call. destruct (fs_apply o (cwd w) (fs w)); [discriminate|].
  intros [= <-]. exact I.
Qed.

Lemma ro_mkdirp (p : string) : raises_only mode_exception (mkdirp p).
Proof.
  intros w e. unfold mkdirp, try_except, os_makedirs, fs_call.
  destruct (fs_apply (Makedirs p) (cwd w) (fs w)) as [fs'|[]]; cbn;
    try discriminate; intros [= <-]; exact I.
Qed.

Lemma ro_rmr (p : string) : raises_only mode_exception (rmr p).
Proof.
  intros w e. unfold rmr, try_except, shutil_rmtree, fs_call.
  destruct (fs_apply (Rmtree p) (cwd w) (fs w)) as [fs'|[]]; cbn;
    try discriminate; intros [= <-]; exact I.
Qed.

Lemma ro_sh cmd env cwd_arg : raises_only mode_exception (sh h cmd env cwd_arg).
Proof.
  intros w e He.
  destruct (sh_ends h cmd env cwd_arg w) as [Hr|[(rc & Hrc & Hr)|(e0 & Hr)]];
    rewrite Hr in He; [discriminate | |]; injection He as <-; [exact Hrc | exact I].
Qed.

Lemma ro_when ok (c : bool) (m : M unit) : raises_only ok m -> raises_only ok (when c m).
Proof. destruct c; [trivial | intros _; apply ro_ret]. Qed.

Ltac ro_step :=
  cbv beta zeta;
  lazymatch goal with
  | |- raises_only _ (sh _ _ _ _) => apply ro_sh
  | |- raises_only _ (mkdirp _) => apply ro_mkdirp
  | |- raises_only _ (rmr _) => apply ro_rmr
  | |- raises_only _ (os_chdir _) => apply ro_fs_call
  | |- raises_only _ (fs_call _) => apply ro_fs_call
  | |- raises_only _ (bind _ _) => apply ro_bind; [|intros]
  | |- raises_only _ (ret _) => apply ro_ret
  | |- raises_only _ (sys_exit _) => apply ro_raise; cbn; lia
  | |- raises_only _ (print _) => apply ro_print
  | |- raises_only _ (expect _ (KeyError "PATH")) => apply ro_expect; reflexivity
  | |- raises_only _ (os_path_isdir _) => apply ro_isdir
  | |- raises_only _ (when _ _) => apply ro_when
  | |- raises_only _ (if ?c then _ else _) => destruct c
  end.

Lemma ro_setup t p : raises_only mode_exception (setup h t p).
Proof. unfold setup, setup_env. repeat ro_step. Qed.

Lemma ro_sync t p : raises_only mode_exception (sync h t p).
Proof. unfold sync, prepare_env. repeat ro_step. Qed.

Lemma plan_trace_result l evs r :
  plan_trace l evs r ->
  match r with Ret _ => True | Raise e => mode_exception e end.
Proof.
  induction 1 as [|s l e1 e2 r Hs Hp IH|s l e1 x Hs]; [exact I | exact IH |].
  inversion Hs; subst; cbn; trivial.
Qed.

Lemma ro_build t ios d : raises_only mode_exception (build h t (platform_name ios) d).
Proof.
  intros w e He.
  destruct (build_trace h t ios d w) as (evs & _ & [[_ Hr]|[[_ Hr]|(env & Htr)]]).
  - rewrite Hr in He. injection He as <-. cbn. lia.
  - rewrite Hr in He. injection He as <-. reflexivity.
  - apply plan_trace_result in Htr. now rewrite He in Htr.
Qed.

End RaisesOnly.



(** ** The main block *)

Lemma main_after_validation (h : host) (args : Args) (w : world) :
  (arg_setup args || arg_build args || arg_sync args)%bool = true ->
  (arg_setup args && arg_build args)%bool = false ->
  xorb (arg_ios args) (arg_android args) = true ->
  FS.isdir (fs w) (FS.resolve (cwd w) (arg_dir args)) = true ->
  main h args w
  = (let target_dir :=
       normpath h (Py.path_join2 (cwd w) (Py.path_join (arg_dir args) ["build_webrtc"])) in
     let platform := platform_name (arg_ios args) in
     when (arg_setup args)
       (setup h target_dir platform ;;
        print (Py.fmt "WebRTC setup for %s completed in %s" [platform; target_dir]) ;;
        sys_exit 0) ;;
     when (arg_sync args)
       (sync h target_dir platform ;;
        print (Py.fmt "WebRTC sync for %s completed in %s" [platform; target_dir]) ;;
        sys_exit 0) ;;
     when (arg_build args)
       (build h target_dir platform (arg_debug args) ;;
        print (Py.fmt "WebRTC build for %s completed in %s" [platform; target_dir]) ;;
        sys_exit 0))%prog w.
Proof.
  intros Hmode Hsb Hplat Hdir. unfold main.
  rewrite Hmode, Hsb.
  assert (Hn : negb (arg_ios args || arg_android args) = false)
    by (destruct (arg_ios args), (arg_android args); auto; discriminate).
  assert (Ha : (arg_ios args && arg_android args)%bool = false)
    by (destruct (arg_ios args), (arg_android args); auto; discriminate).
  rewrite Hn, Ha. cbn [negb when]. rewrite !bind_ret_l.
  unfold bind at 1. unfold os_path_isdir at 1. rewrite Hdir.
  cbn [negb when]. rewrite bind_ret_l.
  unfold bind at 1. unfold os_path_abspath at 1. reflexivity.
Qed.

(** The checks of the main block, one by one. *)
Lemma main_checks (h : host) (args : Args) (w : world) :
  let reject line :=
    main h args w
    = (World (fs w) (cwd w) (log w ++ [EvPrint line]) (spawned w), Raise (SystemExit 1)) in
  let modes_ok :=
    (arg_setup args || arg_build args || arg_sync args)%bool = true /\
    (arg_setup args && arg_build args)%bool = false in
  ((arg_setup args || arg_build args || arg_sync args)%bool = false ->
   reject "--setup or --build must be specified!") /\
  ((arg_setup args && arg_build args)%bool = true ->
   reject "--setup and --build cannot be specified at the same time!") /\
  (modes_ok -> (arg_ios args || arg_android args)%bool = false ->
   reject "--ios or --android must be specified!") /\
  (modes_ok -> (arg_ios args && arg_android args)%bool = true ->
   reject "--ios and --android cannot be specified at the same time!") /\
  (modes_ok -> xorb (arg_ios args) (arg_android args) = true ->
   FS.isdir (fs w) (FS.resolve (cwd w) (arg_dir args)) = false ->
   reject "The specified directory does not exist!").
Proof.
  cbv zeta. unfold main.
  destruct args as [dir su bu sy io an de]. cbn [arg_setup arg_build arg_sync arg_ios
    arg_android arg_dir arg_debug].
  repeat split.
  - intros ->. reflexivity.
  - intros Hsb. destruct su, bu; try discriminate Hsb. reflexivity.
  - intros [Hm Hsb] Hp. rewrite Hm, Hsb, Hp. reflexivity.
  - intros [Hm Hsb] Hp. rewrite Hm, Hsb.
    destruct io, an; try discriminate Hp. reflexivity.
  - intros [Hm Hsb] Hp Hdir. rewrite Hm, Hsb.
    assert (Hn : negb (io || an) = false) by (destruct io, an; auto; discriminate).
    assert (Ha : (io && an)%bool = false) by (destruct io, an; auto; discriminate).
    rewrite Hn, Ha. cbn [negb when]. rewrite !bind_ret_l.
    unfold bind at 1. unfold os_path_isdir at 1. cbn [fs cwd]. rewrite Hdir.
    reflexivity.
Qed.

(** X6: the main block refuses a command line before it touches
    anything: without a mode, with both --setup and --build, without a
    platform, with both platforms, or with a target directory that does
    not exist, it prints the one message of the first check that fails
    and exits with status 1; the message is the only event. *)
Theorem main_validation (h : host) (args : Args) (w : world) :
  let reject line :=
    main h args w
    = (World (fs w) (cwd w) (log w ++ [EvPrint line]) (spawned w), Raise (SystemExit 1)) in
  let modes_ok :=
    (arg_setup args || arg_build args || arg_sync args)%bool = true /\
    (arg_setup args && arg_build args)%bool = false in
  ((arg_setup args || arg_build args || arg_sync args)%bool = false ->
   reject "--setup or --build must be specified!") /\
  ((arg_setup args && arg_build args)%bool = true ->
   reject "--setup and --build cannot be specified at the same time!") /\
  (modes_ok -> (arg_ios args || arg_android args)%bool = false ->
   reject "--ios or --android must be specified!") /\
  (modes_ok -> (arg_ios args && arg_android args)%bool = true ->
   reject "--ios and --android cannot be specified at the same time!") /\
  (modes_ok -> xorb (arg_ios args) (arg_android args) = true ->
   FS.isdir (fs w) (FS.resolve (cwd w) (arg_dir args)) = false ->
   reject "The specified directory does not exist!").
Proof. exact (main_checks h args w). Qed.

Lemma mode_then_exit (m : M unit) (line : string) (k : unit -> M unit) (w : world) :
  raises_only mode_exception m ->
  let run := bind (bind m (fun _ => bind (print line) (fun _ => sys_exit 0))) k w in
  (forall a, run.2 <> Ret a) /\
  (forall e, run.2 = Raise e -> mode_exception e \/ e = SystemExit 0) /\
  (run.2 = Raise (SystemExit 0) -> last (log run.1) = Some (EvPrint line)).
Proof.
  intros Hm. cbv zeta.
  assert (Hrun :
    bind (bind m (fun _ => bind (print line) (fun _ => sys_exit 0))) k w
    = match m w with
      | (w1, Ret _) =>
          (World (fs w1) (cwd w1) (log w1 ++ [EvPrint line]) (spawned w1),
           Raise (SystemExit 0))
      | (w1, Raise e) => (w1, Raise e)
      end).
  { rewrite bind_assoc. unfold bind at 1. destruct (m w) as [w1 [[]|e]]; reflexivity. }
  rewrite Hrun. specialize (Hm w). destruct (m w) as [w1 [[]|e]]; cbn.
  - repeat split; [discriminate | intros e He; right; congruence |].
    intros _. apply last_snoc.
  - repeat split; [discriminate | intros e' He; left; apply Hm; exact He |].
    intros [= He]. subst e. specialize (Hm _ eq_refl). cbn in Hm. contradiction.
Qed.

(** X7: the main block never just returns: it ends with [sys.exit] or
    with an exception.  With a platform chosen it ends with status zero
    only right after the completion line of the mode that ran, which is
    then the last event of the run. *)
Theorem main_exit_zero (h : host) (args : Args) (w : world) :
  xorb (arg_ios args) (arg_android args) = true ->
  (forall a, (main h args w).2 <> Ret a) /\
  ((main h args w).2 = Raise (SystemExit 0) ->
   exists mode,
     last (log (main h args w).1)
     = Some (EvPrint (completion_line mode (platform_name (arg_ios args))
                        (normpath h (Py.path_join2 (cwd w)
                                       (Py.path_join (arg_dir args) ["build_webrtc"]))))) /\
     (mode = "setup" \/ mode = "sync" \/ mode = "build")).
Proof.
  intros Hplat.
  destruct (arg_setup args || arg_build args || arg_sync args)%bool eqn:Hmode.
  2:{ pose proof (main_checks h args w) as (H1 & _). cbv zeta in H1.
      rewrite (H1 Hmode). cbn. split; [discriminate | discriminate]. }
  destruct (arg_setup args && arg_build args)%bool eqn:Hsb.
  { pose proof (main_checks h args w) as (_ & H2 & _). cbv zeta in H2.
    rewrite (H2 Hsb). cbn. split; [discriminate | discriminate]. }
  destruct (FS.isdir (fs w) (FS.resolve (cwd w) (arg_dir args))) eqn:Hdir.
  2:{ pose proof (main_checks h args w) as (_ & _ & _ & _ & H5). cbv zeta in H5.
      rewrite (H5 (conj Hmode Hsb) Hplat Hdir). cbn. split; [discriminate | discriminate]. }
  rewrite (main_after_validation h args w Hmode Hsb Hplat Hdir). cbv zeta.
  set (target_dir := normpath h _).
  destruct (arg_setup args) eqn:Hsu; cbn [when].
  { lazymatch goal with
    | |- context [bind (bind ?m (fun _ => bind (print ?line) _)) ?k w] =>
        destruct (mode_then_exit m line k w (ro_setup h _ _)) as (Hn & _ & Hz)
    end.
    split; [exact Hn|]. intros Hr. exists "setup". split; [exact (Hz Hr) | auto]. }
  rewrite bind_ret_l.
  destruct (arg_sync args) eqn:Hsy; cbn [when].
  { lazymatch goal with
    | |- context [bind (bind ?m (fun _ => bind (print ?line) _)) ?k w] =>
        destruct (mode_then_exit m line k w (ro_sync h _ _)) as (Hn & _ & Hz)
    end.
    split; [exact Hn|]. intros Hr. exists "sync". split; [exact (Hz Hr) | auto]. }
  rewrite bind_ret_l.
  destruct (arg_build args) eqn:Hbu; [|discriminate Hmode]. cbn [when].
  rewrite <- (bind_ret_r _ w).
  lazymatch goal with
  | |- context [bind (bind ?m (fun _ => bind (print ?line) _)) ?k w] =>
      destruct (mode_then_exit m line k w (ro_build h _ _ _)) as (Hn & _ & Hz)
  end.
  split; [exact Hn|]. intros Hr. exists "build". split; [exact (Hz Hr) | auto].
Qed.

Lemma main_exit_zero_witness :
  (forall a, (main ios_tools_host sync_ios_args (start ios_tree "/")).2 <> Ret a) /\
  ((main ios_tools_host sync_ios_args (start ios_tree "/")).2 = Raise (SystemExit 0) ->
   exists mode,
     last (log (main ios_tools_host sync_ios_args (start ios_tree "/")).1)
     = Some (EvPrint (completion_line mode (platform_name (arg_ios sync_ios_args))
                        (normpath ios_tools_host
                           (Py.path_join2 (cwd (start ios_tree "/"))
                              (Py.path_join (arg_dir sync_ios_args) ["build_webrtc"]))))) /\
     (mode = "setup" \/ mode = "sync" \/ mode = "build")).
Proof.
  apply (main_exit_zero ios_tools_host sync_ios_args (start ios_tree "/")). reflexivity.
Defined.

(** ** [sync] and the precedence of the modes *)

Lemma sync_steps (h : host) (target_dir platform : string) (w : world) :
  sync h target_dir platform w
  = let webrtc_dir := Py.path_join target_dir ["webrtc"; platform; "src"] in
    let depot_tools_dir := Py.path_join target_dir ["depot_tools"] in
    if FS.isdir (fs w) (FS.resolve (cwd w) webrtc_dir) then
      match prepare_env h platform depot_tools_dir webrtc_dir w with
      | (_, Ret env) =>
          run_steps h [SFs (Chdir webrtc_dir); SSh "gclient sync -D" (Some env) None] w
      | (_, Raise e) => (w, Raise e)
      end
    else
      (World (fs w) (cwd w)
         (log w ++ [EvPrint "WebRTC source not found, did you forget to run --setup?"])
         (spawned w),
       Raise (SystemExit 1)).
Proof.
  unfold sync. cbv zeta. unfold bind at 1. unfold os_path_isdir at 1.
  destruct (FS.isdir (fs w) _); [|reflexivity].
  cbn [negb when]. rewrite bind_ret_l. unfold bind at 1.
  pose proof (prepare_env_pure h platform (Py.path_join target_dir ["depot_tools"])
                (Py.path_join target_dir ["webrtc"; platform; "src"]) w) as Hw.
  destruct (prepare_env h _ _ _ w) as [w0 [env|e]]; simpl in Hw; subst w0; [|reflexivity].
  apply step_fs; intros _ w1.
  rewrite <- bind_ret_r. apply step_sh; intros _ w2. reflexivity.
Qed.

Lemma sync_spawns (h : host) (target_dir platform : string) (w : world) :
  exists evs, log (sync h target_dir platform w).1 = log w ++ evs /\
    forall i cmd env dir x, evs !! i = Some (EvSpawn cmd env dir x) ->
                            cmd = "gclient sync -D".
Proof.
  rewrite sync_steps. cbv zeta.
  destruct (FS.isdir (fs w) _).
  - pose proof (prepare_env_pure h platform (Py.path_join target_dir ["depot_tools"])
                  (Py.path_join target_dir ["webrtc"; platform; "src"]) w) as Hw.
    destruct (prepare_env h _ _ _ w) as [w0 [env|e]]; simpl in Hw; subst w0.
    + match goal with
      | |- context [run_steps h ?l w] =>
          destruct (run_steps_trace h l w) as (evs & Hlog & Htr)
      end.
      exists evs. split; [exact Hlog|]. intros i cmd env' dir x Hi.
      destruct (plan_trace_spawn_order _ _ _ Htr _ _ _ _ _ Hi) as (k & e & ca & Hk & _).
      destruct k as [|[|k]]; simpl in Hk; [discriminate | | now rewrite lookup_nil in Hk].
      now injection Hk as <- _ _.
    + exists []. split; [now rewrite app_nil_r|]. intros i ? ? ? ? Hi.
      now rewrite lookup_nil in Hi.
  - eexists. split; [reflexivity|]. intros [|i] ? ? ? ? Hi; simpl in Hi;
      [discriminate | now rewrite lookup_nil in Hi].
Qed.

(** X8: with --sync on the command line and no --setup, the only command
    that a run ever spawns is [gclient sync -D]: when --build is given
    too, the main block exits after the synchronisation and the build
    does not run. *)
Theorem sync_preempts_build (h : host) (args : Args) (fs0 : fs_t) (cwd0 : string)
    (i : nat) (cmd : string) (env : gmap string string) (dir : string) (x : child_end) :
  arg_setup args = false ->
  arg_sync args = true ->
  log (main h args (start fs0 cwd0)).1 !! i = Some (EvSpawn cmd env dir x) ->
  cmd = "gclient sync -D".
Proof.
  intros Hsu Hsy Hi.
  assert (Hmode : (arg_setup args || arg_build args || arg_sync args)%bool = true)
    by (rewrite Hsy; now destruct (arg_setup args), (arg_build args)).
  assert (Hsb : (arg_setup args && arg_build args)%bool = false) by now rewrite Hsu.
  pose proof (main_checks h args (start fs0 cwd0)) as (_ & _ & H3 & H4 & H5).
  cbv zeta in H3, H4, H5.
  assert (Hreject : forall line,
            main h args (start fs0 cwd0)
            = (World fs0 cwd0 ([] ++ [EvPrint line]) 0, Raise (SystemExit 1)) -> False).
  { intros line Hr. rewrite Hr in Hi. destruct i as [|i]; simpl in Hi;
      [discriminate | now rewrite lookup_nil in Hi]. }
  destruct (arg_ios args || arg_android args)%bool eqn:Hp1;
    [|exfalso; exact (Hreject _ (H3 (conj Hmode Hsb) eq_refl))].
  destruct (arg_ios args && arg_android args)%bool eqn:Hp2;
    [exfalso; exact (Hreject _ (H4 (conj Hmode Hsb) eq_refl))|].
  assert (Hplat : xorb (arg_ios args) (arg_android args) = true)
    by (destruct (arg_ios args), (arg_android args); auto; discriminate).
  destruct (FS.isdir fs0 (FS.resolve cwd0 (arg_dir args))) eqn:Hdir;
    [|exfalso; exact (Hreject _ (H5 (conj Hmode Hsb) Hplat Hdir))].
  rewrite (main_after_validation h args (start fs0 cwd0) Hmode Hsb Hplat Hdir) in Hi.
  cbv zeta in Hi. rewrite Hsu, Hsy in Hi. cbn [when] in Hi.
  rewrite bind_ret_l, bind_assoc in Hi. unfold bind at 1 in Hi.
  match type of Hi with
  | context [sync h ?t ?p (start fs0 cwd0)] =>
      destruct (sync_spawns h t p (start fs0 cwd0)) as (evs & Hlog & Hev);
      destruct (sync h t p (start fs0 cwd0)) as [w1 [[]|e]]
  end; simpl in Hlog, Hi.
  - rewrite Hlog in Hi.
    destruct (decide (i < length evs)%nat) as [Hlt|Hge].
    + rewrite lookup_app_l in Hi by exact Hlt. exact (Hev _ _ _ _ _ Hi).
    + rewrite lookup_app_r in Hi by lia.
      destruct (i - length evs)%nat as [|j]; simpl in Hi;
        [discriminate | now rewrite lookup_nil in Hi].
  - rewrite Hlog in Hi. exact (Hev _ _ _ _ _ Hi).
Qed.

Lemma sync_preempts_build_witness :
  exists cmd env dir x,
    log (main ios_tools_host (MkArgs "/w" false true true true false false)
           (start ios_tree "/")).1 !! 2%nat = Some (EvSpawn cmd env dir x) /\
    cmd = "gclient sync -D".
Proof.
  assert (H : exists cmd env dir x,
            log (main ios_tools_host (MkArgs "/w" false true true true false false)
                   (start ios_tree "/")).1 !! 2%nat = Some (EvSpawn cmd env dir x))
    by (do 4 eexists; vm_compute; reflexivity).
  destruct H as (cmd & env & dir & x & H). exists cmd, env, dir, x.
  split; [exact H|].
  exact (sync_preempts_build ios_tools_host (MkArgs "/w" false true true true false false)
           ios_tree "/" 2%nat cmd env dir x eq_refl eq_refl H).
Defined.

(** X9: with the source tree in place and no search path in the
    environment, [build] and [sync] raise [KeyError] for PATH before they
    do anything: nothing is printed, run or changed. *)
Theorem missing_search_path (h : host) (target_dir platform : string) (debug : bool)
    (w : world) :
  FS.isdir (fs w)
    (FS.resolve (cwd w) (Py.path_join target_dir ["webrtc"; platform; "src"])) = true ->
  environ h !! "PATH" = None ->
  build h target_dir platform debug w = (w, Raise (KeyError "PATH")) /\
  sync h target_dir platform w = (w, Raise (KeyError "PATH")).
Proof.
  intros Hdir Hpath. split.
  - unfold build. cbv zeta. unfold bind at 1. unfold os_path_isdir at 1.
    rewrite Hdir. cbn [negb when]. rewrite bind_ret_l.
    unfold bind at 1. unfold prepare_env, bind, expect. rewrite Hpath. reflexivity.
  - rewrite sync_steps. cbv zeta. rewrite Hdir.
    unfold prepare_env, bind, expect. rewrite Hpath. reflexivity.
Qed.

Lemma missing_search_path_witness :
  build (Host ∅ (fun _ _ _ _ fs => (Exited 0, fs)) id) "/w/build_webrtc" "android" false
    (start android_tree "/")
  = (start android_tree "/", Raise (KeyError "PATH")) /\
  sync (Host ∅ (fun _ _ _ _ fs => (Exited 0, fs)) id) "/w/build_webrtc" "android"
    (start android_tree "/")
  = (start android_tree "/", Raise (KeyError "PATH")).
Proof.
  apply (missing_search_path (Host ∅ (fun _ _ _ _ fs => (Exited 0, fs)) id)
           "/w/build_webrtc" "android" false (start android_tree "/")).
  - reflexivity.
  - reflexivity.
Defined.

(** ** The commands of a build *)

Lemma step_trace_cmds s evs r :
  step_trace s evs r ->
  spawned_cmds evs = [] \/
  (exists cmd env ca, s = SSh cmd env ca /\ spawned_cmds evs = [cmd]).
Proof. destruct 1; cbn; eauto 10. Qed.

Lemma step_trace_cmds_ret s evs :
  step_trace s evs (Ret tt) -> spawned_cmds evs = plan_cmds [s].
Proof. intros H. inversion H; reflexivity. Qed.

Lemma spawned_cmds_app (e1 e2 : list event) :
  spawned_cmds (e1 ++ e2) = spawned_cmds e1 ++ spawned_cmds e2.
Proof. unfold spawned_cmds. apply omap_app. Qed.

(** The commands spawned by a plan are the first commands of the plan,
    all of them when the plan completes. *)
Lemma plan_trace_cmds l evs r :
  plan_trace l evs r ->
  spawned_cmds evs `prefix_of` plan_cmds l /\
  (r = Ret tt -> spawned_cmds evs = plan_cmds l).
Proof.
  induction 1 as [|s l e1 e2 r Hs Hp [IHp IHe]|s l e1 x Hs].
  - split; [apply prefix_nil | reflexivity].
  - rewrite spawned_cmds_app, (step_trace_cmds_ret _ _ Hs).
    change (plan_cmds (s :: l)) with (plan_cmds ([s] ++ l)).
    unfold plan_cmds at 2 4. rewrite omap_app. fold (plan_cmds [s]) (plan_cmds l).
    split; [now apply prefix_app | intros Hr; now rewrite IHe].
  - split; [|discriminate].
    destruct (step_trace_cmds _ _ _ Hs) as [->|(cmd & env & ca & -> & ->)].
    + apply prefix_nil.
    + cbn. apply prefix_cons, prefix_nil.
Qed.

(** X10: the commands that a build spawns are, in order, the first
    commands of its plan (the generate command of every target, the
    compile command of every target, then the merge, bundle, archive and
    strip commands), and all of them when [build] returns: fifteen for
    iOS, ten for Android. *)
Theorem build_commands_in_order (h : host) (target_dir : string) (ios debug : bool)
    (fs0 : fs_t) (cwd0 : string) :
  let run := build h target_dir (platform_name ios) debug (start fs0 cwd0) in
  exists env,
    let planned :=
      plan_cmds (build_plan (outputDirName (build_type_name debug)) target_dir
                   (platform_name ios) debug env) in
    spawned_cmds (log run.1) `prefix_of` planned /\
    (run.2 = Ret tt -> spawned_cmds (log run.1) = planned) /\
    length planned = (if ios then 15 else 10)%nat /\
    take (2 * length (targets (platform_name ios))) planned
    = map (generate_cmd (build_type_name debug) debug) (targets (platform_name ios))
      ++ map (compile_cmd (build_type_name debug)) (targets (platform_name ios)).
Proof.
  intros run.
  destruct (build_trace h target_dir ios debug (start fs0 cwd0))
    as (evs & Hlog & Hcases).
  fold run in Hlog, Hcases. simpl in Hlog. rewrite Hlog.
  destruct Hcases as [[-> Hr]|[[-> Hr]|(env & Htr)]].
  - exists ∅. cbv zeta. split; [apply prefix_nil|]. split; [rewrite Hr; discriminate|].
    split; destruct ios, debug; vm_compute; reflexivity.
  - exists ∅. cbv zeta. split; [apply prefix_nil|]. split; [rewrite Hr; discriminate|].
    split; destruct ios, debug; vm_compute; reflexivity.
  - exists env. cbv zeta. destruct (plan_trace_cmds _ _ _ Htr) as [Hp He].
    split; [exact Hp|]. split; [exact He|].
    split; destruct ios, debug; vm_compute; reflexivity.
Qed.

(** ** The environment of the commands *)

Lemma exec_spawn_env (h : host) (s : step) (w : world) j cmd env' dir x :
  log (exec h s w).1 !! (length (log w) + j)%nat = Some (EvSpawn cmd env' dir x) ->
  exists env ca, s = SSh cmd env ca /\ env' = from_option id (environ h) env.
Proof.
  destruct s as [c env ca|p|p|o]; cbn [exec].
  - rewrite sh_run. cbv zeta.
    destruct (bool_decide (is_Some ca) && _)%bool; cbn [fst log]; intros Hj;
      rewrite lookup_app_r in Hj by lia;
      replace (length (log w) + j - length (log w))%nat with j in Hj by lia;
      destruct j as [|[|j]]; simpl in Hj; try discriminate Hj;
      try (now rewrite lookup_nil in Hj).
    injection Hj as <- <- _ _. eauto.
  - intros Hj. destruct (exec_trace h (SMkdirp p) w) as (evs & Hlog & Htr).
    cbn [exec] in Hlog. rewrite Hlog, lookup_app_r in Hj by lia.
    destruct (step_trace_spawn _ _ _ _ _ _ _ _ Htr Hj) as (_ & _ & (? & ? & Hs) & _).
    discriminate Hs.
  - intros Hj. destruct (exec_trace h (SRmr p) w) as (evs & Hlog & Htr).
    cbn [exec] in Hlog. rewrite Hlog, lookup_app_r in Hj by lia.
    destruct (step_trace_spawn _ _ _ _ _ _ _ _ Htr Hj) as (_ & _ & (? & ? & Hs) & _).
    discriminate Hs.
  - intros Hj. destruct (exec_trace h (SFs o) w) as (evs & Hlog & Htr).
    cbn [exec] in Hlog. rewrite Hlog, lookup_app_r in Hj by lia.
    destruct (step_trace_spawn _ _ _ _ _ _ _ _ Htr Hj) as (_ & _ & (? & ? & Hs) & _).
    discriminate Hs.
Qed.

Lemma run_steps_spawn_env (h : host) (l : list step) (w : world) j cmd env' dir x :
  log (run_steps h l w).1 !! (length (log w) + j)%nat = Some (EvSpawn cmd env' dir x) ->
  exists k env ca, l !! k = Some (SSh cmd env ca) /\ env' = from_option id (environ h) env.
Proof.
  revert w j. induction l as [|s l IH]; intros w j Hj.
  - simpl in Hj. apply lookup_lt_Some in Hj. lia.
  - rewrite run_steps_cons in Hj. unfold bind in Hj.
    destruct (exec_trace h s w) as (e1 & Hl1 & _).
    pose proof (exec_spawn_env h s w) as Hexec.
    destruct (exec h s w) as [w1 [[]|e]]; simpl in *.
    + destruct (decide (j < length e1)%nat) as [Hlt|Hge].
      * destruct (run_steps_trace h l w1) as (e2 & Hl2 & _).
        rewrite Hl2, Hl1 in Hj. rewrite <- app_assoc in Hj.
        rewrite lookup_app_r in Hj by lia.
        rewrite lookup_app_l in Hj by lia.
        assert (Hj' : log w1 !! (length (log w) + j)%nat = Some (EvSpawn cmd env' dir x)).
        { rewrite Hl1, lookup_app_r by lia. exact Hj. }
        destruct (Hexec j cmd env' dir x Hj') as (env & ca & -> & ->).
        exists 0%nat, env, ca. now split.
      * replace (length (log w) + j)%nat with (length (log w1) + (j - length e1))%nat in Hj
          by (rewrite Hl1, length_app; lia).
        destruct (IH _ _ Hj) as (k & env & ca & Hk & He).
        exists (S k), env, ca. now split.
    + destruct (Hexec j cmd env' dir x Hj) as (env & ca & -> & ->).
      exists 0%nat, env, ca. now split.
Qed.

Lemma build_plan_env (target_dir : string) (ios debug : bool)
    (penv : gmap string string) (k : nat) cmd env ca :
  build_plan (outputDirName (build_type_name debug)) target_dir (platform_name ios)
    debug penv !! k = Some (SSh cmd env ca) ->
  env = if (is_generate_cmd cmd || is_compile_cmd cmd)%bool then Some penv else None.
Proof.
  intros Hk.
  destruct ios, debug;
    do 24 (destruct k as [|k];
           [ vm_compute in Hk; try discriminate Hk;
             injection Hk as <- <- _; vm_compute; reflexivity |]);
    vm_compute in Hk; discriminate Hk.
Qed.

(** X11: the generate and compile commands of a build run with the
    composed environment (the one with the search path extended), every
    other command (merge, bundle, archive, strip, jar) with the
    environment of the process itself. *)
Theorem build_environments (h : host) (target_dir : string) (ios debug : bool)
    (fs0 : fs_t) (cwd0 : string) (i : nat) (cmd : string)
    (env : gmap string string) (dir : string) (x : child_end) :
  log (build h target_dir (platform_name ios) debug (start fs0 cwd0)).1 !! i
    = Some (EvSpawn cmd env dir x) ->
  if (is_generate_cmd cmd || is_compile_cmd cmd)%bool
  then (prepare_env h (platform_name ios) (Py.path_join target_dir ["depot_tools"])
          (Py.path_join target_dir ["webrtc"; platform_name ios; "src"])
          (start fs0 cwd0)).2 = Ret env
  else env = environ h.
Proof.
  rewrite build_runs_plan. unfold planned_build. cbv zeta.
  destruct (FS.isdir (fs (start fs0 cwd0)) _).
  - destruct (prepare_env h _ _ _ (start fs0 cwd0)) as [w0 [penv|e]].
    + intros Hi.
      destruct (run_steps_spawn_env h _ (start fs0 cwd0) i _ _ _ _ Hi)
        as (k & env0 & ca & Hk & ->).
      rewrite (build_plan_env _ _ _ _ _ _ _ _ Hk).
      now destruct (is_generate_cmd cmd || is_compile_cmd cmd)%bool.
    + intros Hi. simpl in Hi. now rewrite lookup_nil in Hi.
  - intros Hi. destruct i as [|i]; simpl in Hi; [discriminate | now rewrite lookup_nil in Hi].
Qed.

Lemma build_environments_witness :
  if (is_generate_cmd bitcode_archive_cmd || is_compile_cmd bitcode_archive_cmd)%bool
  then (prepare_env ios_tools_host (platform_name true)
          (Py.path_join "/w/build_webrtc" ["depot_tools"])
          (Py.path_join "/w/build_webrtc" ["webrtc"; platform_name true; "src"])
          (start ios_tree "/")).2 = Ret (environ ios_tools_host)
  else environ ios_tools_host = environ ios_tools_host.
Proof.
  eapply (build_environments ios_tools_host "/w/build_webrtc" true false ios_tree "/"
            28%nat bitcode_archive_cmd).
  vm_compute. reflexivity.
Defined.

(** ** The order of the phases *)

Lemma build_plan_phases (target_dir : string) (ios debug : bool)
    (penv : gmap string string) (k : nat) cmd env ca :
  build_plan (outputDirName (build_type_name debug)) target_dir (platform_name ios)
    debug penv !! k = Some (SSh cmd env ca) ->
  (is_generate_cmd cmd = false -> (5 < k)%nat) /\
  (is_generate_cmd cmd = false -> is_compile_cmd cmd = false -> (9 < k)%nat).
Proof.
  intros Hk.
  destruct ios, debug;
    do 10 (destruct k as [|k];
           [ vm_compute in Hk; try discriminate Hk;
             injection Hk as <- _ _; split; intros; try lia; discriminate |]);
    split; intros; lia.
Qed.

Lemma build_plan_targets (target_dir : string) (ios debug : bool)
    (penv : gmap string string) (t : BuildTarget) :
  In t (targets (platform_name ios)) ->
  exists k1 k2,
    (k1 < 6)%nat /\ (k2 < 10)%nat /\
    build_plan (outputDirName (build_type_name debug)) target_dir (platform_name ios)
      debug penv !! k1
    = Some (SSh (generate_cmd (build_type_name debug) debug t) (Some penv) None) /\
    build_plan (outputDirName (build_type_name debug)) target_dir (platform_name ios)
      debug penv !! k2
    = Some (SSh (compile_cmd (build_type_name debug) t) (Some penv) None).
Proof.
  intros Ht.
  destruct ios; vm_compute in Ht;
    destruct Ht as [<-|[<-|[<-|[<-|[]]]]];
    [ exists 2%nat, 6%nat | exists 3%nat, 7%nat | exists 4%nat, 8%nat | exists 5%nat, 9%nat
    | exists 2%nat, 6%nat | exists 3%nat, 7%nat | exists 4%nat, 8%nat | exists 5%nat, 9%nat ];
    (split; [lia|]); (split; [lia|]);
    destruct debug; split; vm_compute; reflexivity.
Qed.

(** X12: the phases of a build follow one another: when a command that
    is not a generate command is spawned, the generate command of every
    target has been spawned before it and has not failed; when a command
    of the assembly (neither generate nor compile) is spawned, the same
    holds for the compile command of every target. *)
Theorem phases_in_order (h : host) (target_dir : string) (ios debug : bool)
    (fs0 : fs_t) (cwd0 : string) (i : nat) (cmd : string)
    (env : gmap string string) (dir : string) (x : child_end) (t : BuildTarget) :
  let l := log (build h target_dir (platform_name ios) debug (start fs0 cwd0)).1 in
  let done_before c :=
    exists j env' dir' x',
      (j < i)%nat /\ l !! j = Some (EvSpawn c env' dir' x') /\
      (x' = Exited 0 \/ x' = Interrupted) in
  l !! i = Some (EvSpawn cmd env dir x) ->
  In t (targets (platform_name ios)) ->
  is_generate_cmd cmd = false ->
  done_before (generate_cmd (build_type_name debug) debug t) /\
  (is_compile_cmd cmd = false -> done_before (compile_cmd (build_type_name debug) t)).
Proof.
  intros l done_before Hi Ht Hg.
  destruct (build_trace h target_dir ios debug (start fs0 cwd0))
    as (evs & Hlog & Hcases).
  simpl in Hlog. subst l done_before. cbv beta. rewrite Hlog in Hi |- *.
  destruct Hcases as [[-> _]|[[-> _]|(penv & Htr)]].
  - destruct i as [|i]; simpl in Hi; [discriminate | now rewrite lookup_nil in Hi].
  - now rewrite lookup_nil in Hi.
  - destruct (plan_trace_spawn_order _ _ _ Htr _ _ _ _ _ Hi) as (k & e & ca & Hk & Hbefore).
    destruct (build_plan_phases _ _ _ _ _ _ _ _ Hk) as [H5 H9].
    destruct (build_plan_targets target_dir ios debug penv t Ht)
      as (k1 & k2 & Hk1 & Hk2 & Hp1 & Hp2).
    split.
    + apply (Hbefore k1 _ (Some penv) None); [specialize (H5 Hg); lia | exact Hp1].
    + intros Hc. apply (Hbefore k2 _ (Some penv) None); [specialize (H9 Hg Hc); lia | exact Hp2].
Qed.

Lemma phases_in_order_witness :
  let l := log (build ios_tools_host "/w/build_webrtc" (platform_name true) false
                  (start ios_tree "/")).1 in
  let done_before c :=
    exists j env' dir' x',
      (j < 28)%nat /\ l !! j = Some (EvSpawn c env' dir' x') /\
      (x' = Exited 0 \/ x' = Interrupted) in
  done_before (generate_cmd (build_type_name false) false (Target Desktop "x64")) /\
  (is_compile_cmd bitcode_archive_cmd = false ->
   done_before (compile_cmd (build_type_name false) (Target Desktop "x64"))).
Proof.
  eapply (phases_in_order ios_tools_host "/w/build_webrtc" true false ios_tree "/"
            28%nat bitcode_archive_cmd).
  - vm_compute. reflexivity.
  - vm_compute. tauto.
  - reflexivity.
Defined.

(** ** The working directory *)

Lemma exec_cwd (h : host) (s : step) (w : world) :
  is_chdir s = false -> cwd (exec h s w).1 = cwd w.
Proof.
  destruct s as [c env ca|p|p|o]; cbn [exec]; intros Hs.
  - rewrite sh_run. cbv zeta. now destruct (bool_decide (is_Some ca) && _)%bool.
  - unfold mkdirp, try_except, os_makedirs, fs_call.
    destruct (fs_apply (Makedirs p) (cwd w) (fs w)) as [fs'|[]]; reflexivity.
  - unfold rmr, try_except, shutil_rmtree, fs_call.
    destruct (fs_apply (Rmtree p) (cwd w) (fs w)) as [fs'|[]]; reflexivity.
  - unfold fs_call. destruct (fs_apply o (cwd w) (fs w)); [|reflexivity].
    destruct o; try reflexivity. discriminate Hs.
Qed.

Lemma run_steps_cwd (h : host) (l : list step) (w : world) :
  forallb (fun s => negb (is_chdir s)) l = true ->
  cwd (run_steps h l w).1 = cwd w.
Proof.
  revert w. induction l as [|s l IH]; intros w Hl; [reflexivity|].
  simpl in Hl. apply andb_true_iff in Hl as [Hs Hl]. apply negb_true_iff in Hs.
  rewrite run_steps_cons. unfold bind.
  pose proof (exec_cwd h s w Hs) as Hc.
  destruct (exec h s w) as [w1 [[]|e]]; simpl in *; [|exact Hc].
  now rewrite IH.
Qed.

(** X13: [build] changes the working directory once, into the source
    tree, and nothing changes it back: a build that returns leaves the
    process in the source tree, and a build that stops leaves it there
    or where it was. *)
Theorem build_leaves_cwd (h : host) (target_dir : string) (ios debug : bool) (w : world) :
  let run := build h target_dir (platform_name ios) debug w in
  let webrtc_dir := Py.path_join target_dir ["webrtc"; platform_name ios; "src"] in
  (cwd run.1 = cwd w \/ cwd run.1 = FS.resolve (cwd w) webrtc_dir) /\
  (run.2 = Ret tt -> cwd run.1 = FS.resolve (cwd w) webrtc_dir).
Proof.
  cbv zeta. rewrite build_runs_plan. unfold planned_build. cbv zeta.
  destruct (FS.isdir (fs w) _); [|split; [now left | discriminate]].
  destruct (prepare_env h _ _ _ w) as [w0 [penv|e]]; [|split; [now left | discriminate]].
  set (plan := build_plan _ _ _ _ _).
  assert (Hplan : exists rest,
            plan = SFs (Chdir (Py.path_join target_dir ["webrtc"; platform_name ios; "src"]))
                   :: rest /\
            forallb (fun s => negb (is_chdir s)) rest = true).
  { subst plan. destruct ios, debug; eexists; (split; [reflexivity|]);
      vm_compute; reflexivity. }
  destruct Hplan as (rest & -> & Hrest).
  rewrite run_steps_cons. unfold bind. cbn [exec]. unfold fs_call. cbn [fs_apply].
  destruct (FS.isdir (fs w) _); cbn [fs_cwd].
  - rewrite run_steps_cwd by exact Hrest. cbn. split; [now right | reflexivity].
  - cbn. split; [now left | discriminate].
Qed.

(** ** The composed flag string *)

Lemma drop_prefix_app (p s : string) : FS.drop_prefix p (p +:+ s) = Some s.
Proof.
  induction p as [|c p IH]; [reflexivity|].
  rewrite append_cons. cbn [FS.drop_prefix]. now rewrite Ascii.eqb_refl.
Qed.

Lemma has_char_app (c : ascii) (a b : string) :
  has_char c (a +:+ b) = (has_char c a || has_char c b)%bool.
Proof.
  induction a as [|x a IH]; [reflexivity|].
  rewrite append_cons. cbn [has_char]. rewrite IH. now rewrite orb_assoc.
Qed.

Lemma split_cons_sep (c : ascii) (s : string) :
  Py.split c (String c s) = EmptyString :: Py.split c s.
Proof. cbn [Py.split]. now rewrite Ascii.eqb_refl. Qed.

Lemma split_nonempty (c : ascii) (s : string) : Py.split c s <> [].
Proof.
  induction s as [|a s IH]; cbn [Py.split]; [discriminate|].
  destruct (Ascii.eqb a c); [discriminate|]. now destruct (Py.split c s).
Qed.

(** A string without the separator in front of a separator is the first
    word of the split. *)
Lemma split_app (c : ascii) (a b : string) :
  has_char c a = false ->
  Py.split c (a +:+ String c b) = a :: Py.split c b.
Proof.
  induction a as [|x a IH]; intros Ha.
  - apply split_cons_sep.
  - cbn [has_char] in Ha. apply orb_false_iff in Ha as [Hx Ha].
    rewrite append_cons. cbn [Py.split]. rewrite Hx. now rewrite (IH Ha).
Qed.

Lemma split_no_sep (c : ascii) (a : string) :
  has_char c a = false -> Py.split c a = [a].
Proof.
  induction a as [|x a IH]; intros Ha; [reflexivity|].
  cbn [has_char] in Ha. apply orb_false_iff in Ha as [Hx Ha].
  cbn [Py.split]. rewrite Hx. now rewrite (IH Ha).
Qed.

Lemma join_cons (sep x y : string) (l : list string) :
  Py.join sep (x :: y :: l) = x +:+ sep +:+ Py.join sep (y :: l).
Proof. reflexivity. Qed.

(** [split] undoes [join] when no part has the separator in it. *)
Lemma split_join (c : ascii) (l : list string) :
  l <> [] ->
  Forall (fun f => has_char c f = false) l ->
  Py.split c (Py.join (String c EmptyString) l) = l.
Proof.
  intros Hne Hl. induction Hl as [|x l Hx Hl IH]; [contradiction|].
  destruct l as [|y l].
  - cbn. now apply split_no_sep.
  - rewrite join_cons.
    change (x +:+ String c EmptyString +:+ Py.join (String c EmptyString) (y :: l))
      with (x +:+ String c (Py.join (String c EmptyString) (y :: l))).
    rewrite (split_app c x _ Hx). f_equal. apply IH. discriminate.
Qed.

Lemma has_char_join (c : ascii) (sep : string) (l : list string) :
  has_char c sep = false ->
  Forall (fun f => has_char c f = false) l ->
  has_char c (Py.join sep l) = false.
Proof.
  intros Hsep Hl. induction Hl as [|x l Hx Hl IH]; [reflexivity|].
  destruct l as [|y l]; [exact Hx|].
  rewrite join_cons, !has_char_app, Hx, Hsep. exact IH.
Qed.

Lemma common_flags_clean : Forall clean_flag GN_COMMON_ARGS.
Proof. repeat constructor. Qed.

(** X14: reading the flags back from the string that [build_gn_args]
    composes gives the common flags followed by the platform flags, in
    table order, none dropped and none merged, whenever no platform flag
    has a space or a quote in it. *)
Theorem flag_set_build_gn_args (platform_args : list string) :
  Forall clean_flag platform_args ->
  flag_set (build_gn_args platform_args) = GN_COMMON_ARGS ++ platform_args.
Proof.
  intros Hargs.
  assert (Hall : Forall clean_flag (GN_COMMON_ARGS ++ platform_args))
    by (apply Forall_app; split; [apply common_flags_clean | exact Hargs]).
  set (flags := GN_COMMON_ARGS ++ platform_args) in *.
  assert (Hne : flags <> []) by discriminate.
  unfold flag_set, build_gn_args. fold flags.
  rewrite drop_prefix_app.
  change (Py.join " " flags +:+ "'") with (Py.join " " flags +:+ String "'" EmptyString).
  rewrite split_app.
  - apply (split_join " " flags Hne). eapply Forall_impl; [exact Hall|]. now intros f [H _].
  - apply has_char_join; [reflexivity|]. eapply Forall_impl; [exact Hall|]. now intros f [_ H].
Qed.

Lemma flag_set_build_gn_args_witness :
  flag_set (build_gn_args (_GN_APPLE_COMMON ++ _GN_IOS_ARGS))
  = GN_COMMON_ARGS ++ (_GN_APPLE_COMMON ++ _GN_IOS_ARGS).
Proof.
  apply (flag_set_build_gn_args (_GN_APPLE_COMMON ++ _GN_IOS_ARGS)).
  repeat constructor.
Defined.

(** ** The commands of [setup] *)

Section SpawnsWithin.

Variable h : host.

Lemma sw_silent {A} (m : M A) : (forall w, log (m w).1 = log w) -> spawns_within [] m.
Proof. intros Hm w. exists []. rewrite app_nil_r. split; [apply Hm | constructor]. Qed.

Lemma sw_single {A} (m : M A) :
  (forall w, exists e, log (m w).1 = log w ++ [e] /\ spawned_cmds [e] = []) ->
  spawns_within [] m.
Proof.
  intros Hm w. destruct (Hm w) as (e & Hlog & He). exists [e].
  split; [exact Hlog|]. rewrite He. constructor.
Qed.

Lemma sw_print (line : string) : spawns_within [] (print line).
Proof. apply sw_single. intros w. eexists. split; reflexivity. Qed.

Lemma sw_fs_call (o : fsop) : spawns_within [] (fs_call o).
Proof.
  apply sw_single. intros w. unfold fs_call.
  destruct (fs_apply o (cwd w) (fs w)); eexists; split; reflexivity.
Qed.

Lemma sw_mkdirp (p : string) : spawns_within [] (mkdirp p).
Proof.
  apply sw_single. intros w. unfold mkdirp, try_except, os_makedirs, fs_call.
  destruct (fs_apply (Makedirs p) (cwd w) (fs w)) as [fs'|[]]; eexists; split; reflexivity.
Qed.

Lemma sw_sh cmd env ca : spawns_within [cmd] (sh h cmd env ca).
Proof.
  intros w. rewrite sh_run. cbv zeta.
  destruct (bool_decide (is_Some ca) && _)%bool; eexists; (split; [reflexivity|]); cbn.
  - apply sublist_nil_l.
  - reflexivity.
Qed.

Lemma sw_bind {A B} (l1 l2 : list string) (m : M A) (f : A -> M B) :
  spawns_within l1 m -> (forall a, spawns_within l2 (f a)) ->
  spawns_within (l1 ++ l2) (bind m f).
Proof.
  intros Hm Hf w. unfold bind. destruct (Hm w) as (e1 & Hl1 & H1).
  destruct (m w) as [w1 [a|e]]; simpl in *.
  - destruct (Hf a w1) as (e2 & Hl2 & H2). exists (e1 ++ e2).
    split; [now rewrite Hl2, Hl1, app_assoc|].
    rewrite spawned_cmds_app. now apply sublist_app.
  - exists e1. split; [exact Hl1|]. now apply sublist_inserts_r.
Qed.

Lemma sw_when (l : list string) (c : bool) (m : M unit) :
  spawns_within l m -> spawns_within l (when c m).
Proof.
  destruct c; [trivial|]. intros _ w. exists []. rewrite app_nil_r.
  split; [reflexivity | apply sublist_nil_l].
Qed.

Lemma sw_setup_env d : spawns_within [] (setup_env h d).
Proof.
  apply sw_silent. intros w. unfold setup_env, bind, expect.
  now destruct (environ h !! "PATH").
Qed.

Lemma sw_isdir p : spawns_within [] (os_path_isdir p).
Proof. now apply sw_silent. Qed.

Ltac sw_step :=
  cbv beta zeta;
  lazymatch goal with
  | |- spawns_within _ (sh _ _ _ _) => apply sw_sh
  | |- spawns_within _ (mkdirp _) => apply sw_mkdirp
  | |- spawns_within _ (os_chdir _) => apply sw_fs_call
  | |- spawns_within _ (setup_env _ _) => apply sw_setup_env
  | |- spawns_within _ (os_path_isdir _) => apply sw_isdir
  | |- spawns_within _ (print _) => apply sw_print
  | |- spawns_within _ (bind _ _) => apply sw_bind; [|intros]
  | |- spawns_within _ (when _ _) => apply sw_when
  end.

Lemma sw_setup_tail (target_dir : string) (ios : bool) (env : gmap string string) :
  spawns_within ("gclient sync" :: if ios then [] else [install_deps_cmd])
    (setup_tail h target_dir ios env).
Proof.
  unfold setup_tail. destruct ios; cbn [platform_name].
  - change (String.eqb "ios" "android") with false. cbn [when].
    change ["gclient sync"] with (["gclient sync"] ++ @nil string).
    apply sw_bind; [apply sw_sh | intros; now apply sw_silent].
  - change (String.eqb "android" "android") with true. cbn [when].
    change ["gclient sync"; install_deps_cmd]
      with (["gclient sync"] ++ ([] ++ [install_deps_cmd])).
    repeat sw_step.
Qed.

Lemma sw_setup (target_dir : string) (ios : bool) :
  spawns_within
    ([clone_cmd; fetch_cmd (platform_name ios); "gclient sync"]
       ++ if ios then [] else [install_deps_cmd])
    (setup h target_dir (platform_name ios)).
Proof.
  change ([clone_cmd; fetch_cmd (platform_name ios); "gclient sync"]
            ++ if ios then [] else [install_deps_cmd])
    with ([] ++ [] ++ [] ++ ([] ++ [clone_cmd]) ++ [] ++ []
          ++ ([] ++ [] ++ [] ++ [fetch_cmd (platform_name ios)])
          ++ ("gclient sync" :: if ios then [] else [install_deps_cmd])).
  unfold setup.
  do 6 (sw_step; [repeat sw_step|]).
  sw_step; [repeat sw_step|]. apply (sw_setup_tail target_dir ios).
Qed.

End SpawnsWithin.

(** X15: [setup] spawns at most four commands, each at most once and in
    this order: the clone of depot_tools, the fetch of the source for the
    platform, [gclient sync], and, for Android only, the installation of
    the build dependencies. *)
Theorem setup_commands (h : host) (target_dir : string) (ios : bool) (w : world) :
  exists evs,
    log (setup h target_dir (platform_name ios) w).1 = log w ++ evs /\
    spawned_cmds evs
      `sublist_of` [clone_cmd; fetch_cmd (platform_name ios); "gclient sync"]
                   ++ (if ios then [] else [install_deps_cmd]).
Proof. apply sw_setup. Qed.

Lemma mkdirp_keeps_dirs (path : string) (w w' : world) :
  mkdirp path w = (w', Ret tt) ->
  cwd w' = cwd w /\ forall q, FS.isdir (fs w) q = true -> FS.isdir (fs w') q = true.
Proof.
  unfold mkdirp, try_except, os_makedirs, fs_call. cbn [fs_apply]. unfold FS.makedirs.
  destruct (FS.exists_ (fs w) (FS.resolve (cwd w) path)).
  - intros [= <-]. now split.
  - destruct (existsb _ _); [discriminate|].
    intros [= <-]. cbn. split; [reflexivity|].
    intros q Hq. unfold FS.isdir in *. now destruct (_ || _)%bool.
Qed.

Lemma chdir_ret (path : string) (w w' : world) :
  os_chdir path w = (w', Ret tt) ->
  cwd w' = FS.resolve (cwd w) path /\ fs w' = fs w.
Proof.
  unfold os_chdir, fs_call. cbn [fs_apply].
  destruct (FS.isdir (fs w) _); [|discriminate]. intros [= <-]. now split.
Qed.

Lemma setup_tail_run (h : host) (target_dir : string) (ios : bool)
    (env : gmap string string) (w : world) :
  let r := child h (spawned w) "gclient sync" env (cwd w) (fs w) in
  exists evs,
    log (setup_tail h target_dir ios env w).1
    = log w ++ EvPrint (Py.fmt "Running cmd: %s" ["gclient sync"])
             :: EvSpawn "gclient sync" env (cwd w) r.1 :: evs /\
    (spawned_cmds evs = [] \/ ios = false /\ spawned_cmds evs = [install_deps_cmd]) /\
    ((setup_tail h target_dir ios env w).2 = Ret tt ->
     spawned_cmds evs = if ios then [] else [install_deps_cmd]).
Proof.
  intros r. unfold setup_tail. unfold bind at 1. unfold bind at 2. rewrite sh_run. cbv zeta.
  cbn [bool_decide is_Some from_option andb id fs cwd log spawned].
  change (bool_decide (is_Some (@None string))) with false. cbn [andb].
  fold r.
  assert (Hstop : forall e : exn,
    exists evs : list event,
      log w ++ [EvPrint (Py.fmt "Running cmd: %s" ["gclient sync"]);
                EvSpawn "gclient sync" env (cwd w) r.1]
      = log w ++ EvPrint (Py.fmt "Running cmd: %s" ["gclient sync"])
               :: EvSpawn "gclient sync" env (cwd w) r.1 :: evs /\
      (spawned_cmds evs = [] \/ ios = false /\ spawned_cmds evs = [install_deps_cmd]) /\
      (@Raise unit e = Ret tt ->
       spawned_cmds evs = if ios then [] else [install_deps_cmd])).
  { intros e. exists []. split; [reflexivity|]. split; [now left|]. discriminate. }
  set (w2 := World r.2 (cwd w)
              (log w ++ [EvPrint (Py.fmt "Running cmd: %s" ["gclient sync"]);
                         EvSpawn "gclient sync" env (cwd w) r.1])
              (S (spawned w))).
  set (m := when (String.eqb (platform_name ios) "android")
              (os_chdir (Py.path_join target_dir ["webrtc"; platform_name ios; "src"]) ;;
               sh h install_deps_cmd None None)).
  assert (Hgo : exists evs,
    log (m w2).1
    = log w ++ EvPrint (Py.fmt "Running cmd: %s" ["gclient sync"])
             :: EvSpawn "gclient sync" env (cwd w) r.1 :: evs /\
    (spawned_cmds evs = [] \/ ios = false /\ spawned_cmds evs = [install_deps_cmd]) /\
    ((m w2).2 = Ret tt ->
     spawned_cmds evs = if ios then [] else [install_deps_cmd])).
  { subst m w2. destruct ios; cbn [platform_name].
    - change (String.eqb "ios" "android") with false. cbn [when ret fst snd log].
      exists []. split; [reflexivity|]. split; [now left|]. reflexivity.
    - change (String.eqb "android" "android") with true. cbn [when].
      unfold bind, os_chdir, fs_call. cbn [fs_apply fs cwd log spawned fs_cwd].
      destruct (FS.isdir (snd r) _); cbn [fst snd].
      + rewrite sh_run. cbv zeta.
        change (bool_decide (is_Some (@None string))) with false.
        cbn [andb from_option id fs cwd log spawned fst snd].
        eexists [_; _; _]. split; [rewrite <- !app_assoc; reflexivity|].
        split; [right; split; reflexivity | reflexivity].
      + eexists [_]. split; [rewrite <- !app_assoc; reflexivity|].
        split; [now left | discriminate]. }
  destruct r.1 as [rc|]; [destruct (Z.eqb rc 0)|]; cbn [fst snd];
    first [exact Hgo | apply Hstop].
Qed.

(** [setup] on a prepared directory skips both fetches. *)
Lemma setup_prepared (h : host) (target_dir : string) (ios : bool) (w : world)
    (path : string) :
  let cwd1 := FS.resolve (cwd w) target_dir in
  FS.isdir (fs w) cwd1 = true ->
  FS.isdir (fs w) (FS.resolve cwd1 (Py.path_join target_dir ["depot_tools"])) = true ->
  FS.isdir (fs w)
    (FS.resolve cwd1 (Py.path_join target_dir ["webrtc"; platform_name ios])) = true ->
  environ h !! "PATH" = Some path ->
  setup h target_dir (platform_name ios) w
  = setup_tail h target_dir ios
      (<["PATH" := Py.fmt "%s:%s" [path; Py.path_join target_dir ["depot_tools"]]]>
         (environ h))
      (World (fs w) cwd1
         (log w ++ [EvFs (Makedirs target_dir) (Some EEXIST);
                    EvFs (Chdir target_dir) None])
         (spawned w)).
Proof.
  intros cwd1 Ht Hdepot Hsrc Hpath. unfold setup.
  unfold bind at 1. rewrite mkdirp_existing
    by (unfold FS.isdir in Ht; unfold FS.exists_; fold cwd1;
        now destruct (fs w cwd1) as [[]|]).
  unfold bind at 1, os_chdir at 1, fs_call at 1.
  cbn [fs_apply fs cwd log spawned fs_cwd]. fold cwd1. rewrite Ht.
  unfold bind at 1. unfold os_path_isdir at 1. cbn [fs cwd].
  rewrite Hdepot. cbn [negb when]. rewrite bind_ret_l.
  unfold bind at 1. unfold setup_env at 1. unfold bind at 1, expect.
  rewrite Hpath. cbn [ret].
  unfold bind at 1. unfold os_path_isdir at 1. cbn [fs cwd].
  rewrite Hsrc. cbn [negb when]. rewrite bind_ret_l.
  rewrite <- app_assoc. reflexivity.
Qed.

(** X16: [setup] can be run again on a prepared directory: when the
    target directory, its depot_tools directory and the source directory
    of the platform are there and the search path is set, it neither
    clones depot_tools nor fetches the source again.  It spawns
    [gclient sync] first, in the target directory and with depot_tools
    appended to the search path, and after it at most the installation
    of the build dependencies, which it spawns for Android only; when it
    returns, it has spawned [gclient sync] and, for Android, the
    installation, nothing else. *)
Theorem setup_again (h : host) (target_dir : string) (ios : bool) (w : world)
    (path : string) :
  let cwd1 := FS.resolve (cwd w) target_dir in
  let env := <["PATH" := Py.fmt "%s:%s" [path; Py.path_join target_dir ["depot_tools"]]]>
               (environ h) in
  let run := setup h target_dir (platform_name ios) w in
  FS.isdir (fs w) cwd1 = true ->
  FS.isdir (fs w) (FS.resolve cwd1 (Py.path_join target_dir ["depot_tools"])) = true ->
  FS.isdir (fs w)
    (FS.resolve cwd1 (Py.path_join target_dir ["webrtc"; platform_name ios])) = true ->
  environ h !! "PATH" = Some path ->
  exists evs,
    log run.1 = log w ++ evs /\
    (exists before r after,
       evs = before ++ EvSpawn "gclient sync" env cwd1 r :: after /\
       spawned_cmds before = [] /\
       (spawned_cmds after = [] \/
        ios = false /\ spawned_cmds after = [install_deps_cmd])) /\
    (run.2 = Ret tt ->
     spawned_cmds evs = "gclient sync" :: (if ios then [] else [install_deps_cmd])).
Proof.
  intros cwd1 env run Ht Hdepot Hsrc Hpath. subst run.
  rewrite (setup_prepared h target_dir ios w path Ht Hdepot Hsrc Hpath). fold env.
  lazymatch goal with
  | |- exists evs, log (setup_tail _ _ _ _ ?w2).1 = _ /\ _ =>
      destruct (setup_tail_run h target_dir ios env w2) as (e3 & Hl & Hor & Hret)
  end.
  cbn [fs cwd log spawned] in Hl.
  eexists. split; [rewrite Hl, <- !app_assoc; reflexivity|]. split.
  - eexists [_; _; _], _, e3. split; [reflexivity|]. split; [reflexivity | exact Hor].
  - intros Hr. specialize (Hret Hr). cbn [app]. unfold spawned_cmds in *.
    cbn [omap list_omap]. now rewrite Hret.
Qed.

Lemma setup_again_witness :
  (exists evs,
    log (setup ios_tools_host "/w" (platform_name true) (start prepared_tree "/")).1
    = log (start prepared_tree "/") ++ evs /\
    (exists before r after,
       evs = before
             ++ EvSpawn "gclient sync"
                  (<["PATH" := Py.fmt "%s:%s" ["/usr/bin"; Py.path_join "/w" ["depot_tools"]]]>
                     (environ ios_tools_host))
                  (FS.resolve (cwd (start prepared_tree "/")) "/w") r :: after /\
       spawned_cmds before = [] /\
       (spawned_cmds after = [] \/
        true = false /\ spawned_cmds after = [install_deps_cmd])) /\
    ((setup ios_tools_host "/w" (platform_name true) (start prepared_tree "/")).2 = Ret tt ->
     spawned_cmds evs = "gclient sync" :: (if true then [] else [install_deps_cmd]))) /\
  (exists evs,
    log (setup (quiet_host "/usr/bin") "/w/build_webrtc" (platform_name false)
           (start prepared_android_tree "/")).1
    = log (start prepared_android_tree "/") ++ evs /\
    (exists before r after,
       evs = before
             ++ EvSpawn "gclient sync"
                  (<["PATH" := Py.fmt "%s:%s"
                                 ["/usr/bin"; Py.path_join "/w/build_webrtc" ["depot_tools"]]]>
                     (environ (quiet_host "/usr/bin")))
                  (FS.resolve (cwd (start prepared_android_tree "/")) "/w/build_webrtc") r
             :: after /\
       spawned_cmds before = [] /\
       (spawned_cmds after = [] \/
        false = false /\ spawned_cmds after = [install_deps_cmd])) /\
    ((setup (quiet_host "/usr/bin") "/w/build_webrtc" (platform_name false)
        (start prepared_android_tree "/")).2 = Ret tt ->
     spawned_cmds evs = "gclient sync" :: (if false then [] else [install_deps_cmd]))) /\
  (setup (quiet_host "/usr/bin") "/w/build_webrtc" (platform_name false)
     (start prepared_android_tree "/")).2 = Ret tt.
Proof.
  split; [|split].
  - apply (setup_again ios_tools_host "/w" true (start prepared_tree "/") "/usr/bin");
      reflexivity.
  - apply (setup_again (quiet_host "/usr/bin") "/w/build_webrtc" false
             (start prepared_android_tree "/") "/usr/bin"); reflexivity.
  - vm_compute. reflexivity.
Defined.

(** ** Paths *)

Lemma prefix_nil_l (s : string) : String.prefix EmptyString s = true.
Proof. now destruct s. Qed.

Lemma prefix_cons (a b : ascii) (p s : string) :
  String.prefix (String a p) (String b s) = (Ascii.eqb a b && String.prefix p s)%bool.
Proof.
  cbn [String.prefix]. destruct (ascii_dec a b) as [->|Hne].
  - now rewrite Ascii.eqb_refl.
  - apply Ascii.eqb_neq in Hne. now rewrite Hne.
Qed.

Lemma prefix_app (p s : string) : String.prefix p (p +:+ s) = true.
Proof.
  induction p as [|c p IH]; [apply prefix_nil_l|].
  rewrite append_cons, prefix_cons, Ascii.eqb_refl. exact IH.
Qed.

Lemma prefix_exists (p s : string) :
  String.prefix p s = true -> exists rest, s = p +:+ rest.
Proof.
  revert s. induction p as [|c p IH]; intros s H.
  - now exists s.
  - destruct s as [|b s]; [discriminate|].
    rewrite prefix_cons in H. apply andb_true_iff in H as [Hc Hp].
    apply Ascii.eqb_eq in Hc as ->. destruct (IH _ Hp) as (rest & ->). now exists rest.
Qed.

Lemma prefix_app_cancel (x a b : string) :
  String.prefix (x +:+ a) (x +:+ b) = String.prefix a b.
Proof.
  induction x as [|c x IH]; [reflexivity|].
  rewrite !append_cons, prefix_cons, Ascii.eqb_refl. exact IH.
Qed.

Lemma eqb_app_cancel (x a b : string) :
  String.eqb (x +:+ a) (x +:+ b) = String.eqb a b.
Proof.
  induction x as [|c x IH]; [reflexivity|].
  rewrite !append_cons. cbn [String.eqb]. now rewrite Ascii.eqb_refl.
Qed.

Lemma prefix_length (p s : string) :
  String.prefix p s = true -> (String.length p <= String.length s)%nat.
Proof.
  intros H. destruct (prefix_exists _ _ H) as (rest & ->). rewrite append_length. lia.
Qed.

Lemma slashed_length (a : string) : (String.length a <= String.length (Py.slashed a))%nat.
Proof.
  unfold Py.slashed. destruct (_ || _)%bool; [lia|]. rewrite append_length. lia.
Qed.

Lemma slashed_prefix (a : string) : String.prefix a (Py.slashed a) = true.
Proof.
  unfold Py.slashed. destruct (_ || _)%bool; [|apply prefix_app].
  rewrite <- (append_nil_r a) at 2. apply prefix_app.
Qed.

Lemma ends_with_slash_app (x s : string) (c : ascii) :
  Py.ends_with_slash (x +:+ String c s) = Py.ends_with_slash (String c s).
Proof.
  induction x as [|a x IH]; [reflexivity|].
  rewrite append_cons. cbn [Py.ends_with_slash].
  destruct (x +:+ String c s) eqn:E.
  - destruct x; discriminate E.
  - exact IH.
Qed.

Lemma eqb_app_nonempty (x s : string) (c : ascii) :
  String.eqb (x +:+ String c s) EmptyString = false.
Proof. now destruct x. Qed.

(** A path that ends with a name gets one separator. *)
Lemma slashed_app (x s : string) (c : ascii) :
  Py.ends_with_slash (String c s) = false ->
  Py.slashed (x +:+ String c s) = x +:+ String c s +:+ "/".
Proof.
  intros H. unfold Py.slashed.
  rewrite eqb_app_nonempty, ends_with_slash_app, H. cbn [orb].
  now rewrite append_assoc.
Qed.

Lemma under_refl (r : string) : FS.under r r = true.
Proof. unfold FS.under. now rewrite String.eqb_refl. Qed.

Lemma under_cases (r q : string) :
  FS.under r q = true <-> q = r \/ exists rest, q = Py.slashed r +:+ rest.
Proof.
  unfold FS.under. rewrite orb_true_iff, String.eqb_eq. split.
  - intros [->|H]; [now left | right; now apply prefix_exists].
  - intros [->|(rest & ->)]; [now left | right; apply prefix_app].
Qed.

Lemma under_length (r q : string) :
  FS.under r q = true -> (String.length r <= String.length q)%nat.
Proof.
  intros H. apply under_cases in H as [->|(rest & ->)]; [lia|].
  rewrite append_length. pose proof (slashed_length r). lia.
Qed.

Lemma prefix_trans (a b c : string) :
  String.prefix a b = true -> String.prefix b c = true -> String.prefix a c = true.
Proof.
  intros Hab Hbc.
  destruct (prefix_exists _ _ Hab) as (r1 & ->).
  destruct (prefix_exists _ _ Hbc) as (r2 & ->).
  rewrite append_assoc. apply prefix_app.
Qed.

Lemma under_trans (a b c : string) :
  FS.under a b = true -> FS.under b c = true -> FS.under a c = true.
Proof.
  intros Hab Hbc. unfold FS.under in *.
  apply orb_true_iff in Hab as [Hab|Hab]; apply orb_true_iff in Hbc as [Hbc|Hbc].
  - apply String.eqb_eq in Hab as ->. apply String.eqb_eq in Hbc as ->.
    now rewrite String.eqb_refl.
  - apply String.eqb_eq in Hab as ->. now rewrite Hbc, orb_true_r.
  - apply String.eqb_eq in Hbc as ->. now rewrite Hab, orb_true_r.
  - rewrite (prefix_trans _ _ _ Hab (prefix_trans _ _ _ (slashed_prefix b) Hbc)).
    apply orb_true_r.
Qed.

(** The ancestors of a path. *)
Lemma dirnames_spec (s a : string) :
  In a (FS.dirnames s) <-> exists rest, s = a +:+ String "/" rest.
Proof.
  revert a. induction s as [|c s IH]; intros a.
  - split; [intros [] | intros (rest & H); destruct a; discriminate H].
  - cbn [FS.dirnames]. rewrite in_app_iff, in_map_iff. split.
    + intros [H|(a' & <- & Ha')].
      * destruct (Ascii.eqb_spec c "/") as [->|]; [|destruct H].
        destruct H as [<-|[]]. now exists s.
      * apply IH in Ha' as (rest & ->). now exists rest.
    + intros (rest & H). destruct a as [|b a].
      * left. cbn in H. injection H as -> _. rewrite Ascii.eqb_refl. now left.
      * right. rewrite append_cons in H. injection H as -> H.
        exists a. split; [reflexivity|]. apply IH. now exists rest.
Qed.

Lemma ancestors_spec (p a : string) :
  In a (FS.ancestors p) <->
  a <> EmptyString /\ Py.ends_with_slash a = false /\
  exists rest, p = a +:+ String "/" rest.
Proof.
  unfold FS.ancestors. rewrite filter_In, dirnames_spec, andb_true_iff, !negb_true_iff.
  rewrite String.eqb_neq. tauto.
Qed.

Lemma ancestor_shorter (p a : string) :
  In a (FS.ancestors p) -> (String.length a < String.length p)%nat.
Proof.
  intros H. apply ancestors_spec in H as (_ & _ & rest & ->).
  rewrite append_length. simpl. lia.
Qed.

Lemma ancestor_not_under (p a : string) :
  In a (FS.ancestors p) -> FS.under p a = false.
Proof.
  intros H. destruct (FS.under p a) eqn:E; [|reflexivity].
  apply under_length in E. apply ancestor_shorter in H. lia.
Qed.

Lemma slashed_ancestor (a : string) :
  a <> EmptyString -> Py.ends_with_slash a = false -> Py.slashed a = a +:+ "/".
Proof.
  intros Hne He. unfold Py.slashed. rewrite He.
  destruct (String.eqb_spec a EmptyString); [contradiction | reflexivity].
Qed.

(** What lies below an ancestor of a path: the path itself. *)
Lemma ancestor_under_path (q a : string) :
  In a (FS.ancestors q) -> FS.under a q = true.
Proof.
  intros H. apply ancestors_spec in H as (Hne & He & rest & ->).
  apply under_cases. right. exists rest. rewrite (slashed_ancestor a Hne He), append_assoc. reflexivity.
Qed.

Lemma under_ancestor (r q a : string) :
  In a (FS.ancestors q) -> FS.under r a = true -> FS.under r q = true.
Proof.
  intros Ha Hr. exact (under_trans _ _ _ Hr (ancestor_under_path _ _ Ha)).
Qed.

(** A path strictly below a directory has the directory among its
    ancestors. *)
Lemma below_has_ancestor (r p : string) :
  r <> EmptyString -> Py.ends_with_slash r = false ->
  FS.under r p = true -> p <> r -> In r (FS.ancestors p).
Proof.
  intros Hne He Hu Hp. apply under_cases in Hu as [->|(rest & ->)]; [contradiction|].
  apply ancestors_spec. split; [exact Hne|]. split; [exact He|].
  exists rest. rewrite (slashed_ancestor r Hne He), append_assoc. reflexivity.
Qed.

(** ** What a step changes in the file system *)

Lemma drop_prefix_prefix (p s rest : string) :
  FS.drop_prefix p s = Some rest -> String.prefix p s = true.
Proof.
  revert s. induction p as [|a p IH]; intros s H; [apply prefix_nil_l|].
  destruct s as [|b s]; [discriminate|]. cbn [FS.drop_prefix] in H.
  rewrite prefix_cons. destruct (Ascii.eqb a b); [|discriminate]. now apply IH.
Qed.

Lemma rebase_under (from to q q' : string) :
  FS.rebase from to q = Some q' -> FS.under from q = true.
Proof.
  unfold FS.rebase, FS.under. destruct (String.eqb q from); [reflexivity|].
  destruct (FS.drop_prefix _ q) as [rest|] eqn:E; [|discriminate].
  intros _. now rewrite (drop_prefix_prefix _ _ _ E).
Qed.

Lemma split_words_no_sep (sep : ascii) (s : string) :
  Forall (fun x => has_char sep x = false) (Py.split sep s).
Proof.
  induction s as [|c s IH]; [repeat constructor|].
  cbn [Py.split]. destruct (Ascii.eqb c sep) eqn:E.
  - constructor; [reflexivity | exact IH].
  - destruct (Py.split sep s) as [|x xs]; [repeat constructor; cbn; now rewrite E|].
    inversion IH as [|? ? Hx Hxs]; subst.
    constructor; [cbn; now rewrite E, Hx | exact Hxs].
Qed.

Lemma last_Forall {A} (P : A -> Prop) (l : list A) (d : A) :
  P d -> Forall P l -> P (List.last l d).
Proof.
  intros Hd Hl. induction Hl as [|x l Hx Hl IH]; [exact Hd|].
  destruct l; [exact Hx | exact IH].
Qed.

(** A base name has no separator, so it is a relative path. *)
Lemma basename_relative (p : string) : Py.isabs (FS.basename p) = false.
Proof.
  unfold FS.basename.
  assert (H : has_char "/" (List.last (Py.split "/" p) EmptyString) = false)
    by (apply last_Forall; [reflexivity | apply split_words_no_sep]).
  destruct (List.last _ _) as [|c s]; [reflexivity|].
  unfold Py.isabs. rewrite prefix_cons, prefix_nil_l, andb_true_r.
  cbn in H. apply orb_false_iff in H as [H _]. now rewrite Ascii.eqb_sym.
Qed.

Lemma under_join (a b : string) :
  Py.isabs b = false -> FS.under a (Py.path_join2 a b) = true.
Proof.
  intros Hb. unfold Py.path_join2. rewrite Hb.
  apply under_cases. right. now exists b.
Qed.

Lemma copytree_changes (src dst : string) (fs fs' : fs_t) :
  FS.copytree src dst fs = inl fs' ->
  forall q, fs' q <> fs q -> FS.under dst q = true.
Proof.
  unfold FS.copytree. destruct (fs src) as [[|]|]; try discriminate.
  destruct (FS.exists_ fs dst); [discriminate|].
  destruct (negb _); [discriminate|].
  intros [= <-] q Hq. destruct (FS.rebase dst src q) eqn:E; [|contradiction].
  exact (rebase_under _ _ _ _ E).
Qed.

Lemma move_changes (src dst : string) (fs fs' : fs_t) :
  FS.move src dst fs = inl fs' ->
  forall q, fs' q <> fs q -> FS.under dst q = true \/ FS.under src q = true.
Proof.
  unfold FS.move. destruct (negb (FS.exists_ fs src)); [discriminate|]. cbv zeta.
  set (real_dst := if FS.isdir fs dst then _ else dst).
  assert (Hreal : FS.under dst real_dst = true).
  { subst real_dst. destruct (FS.isdir fs dst); [|apply under_refl].
    apply under_join, basename_relative. }
  destruct (FS.exists_ fs real_dst); [discriminate|].
  destruct (negb _); [discriminate|].
  intros [= <-] q Hq. destruct (FS.rebase real_dst src q) eqn:E.
  - left. exact (under_trans _ _ _ Hreal (rebase_under _ _ _ _ E)).
  - right. destruct (FS.under src q); [reflexivity | contradiction].
Qed.

(** [shutil.copy] creates or overwrites one file, in a directory that
    exists. *)
Lemma copy_changes (src dst : string) (fs fs' : fs_t) :
  FS.copy src dst fs = inl fs' ->
  exists real_dst,
    real_dst = (if FS.isdir fs dst then Py.path_join2 dst (FS.basename src) else dst) /\
    from_option (FS.isdir fs) false (FS.parent real_dst) = true /\
    forall q, fs' q = if String.eqb q real_dst then Some File else fs q.
Proof.
  unfold FS.copy. destruct (fs src) as [[|]|]; try discriminate. cbv zeta.
  set (real_dst := if FS.isdir fs dst then _ else dst).
  destruct (FS.isdir fs real_dst); [discriminate|].
  destruct (from_option _ _ _) eqn:Hp; [|discriminate]. cbn [negb].
  intros [= <-]. exists real_dst. repeat split. exact Hp.
Qed.

Section Effects.

Variable h : host.

Lemma rmr_effect (path : string) (w w' : world) :
  rmr path w = (w', Ret tt) ->
  cwd w' = cwd w /\
  ((fs w (FS.resolve (cwd w) path) = None /\ fs w' = fs w) \/
   (fs w (FS.resolve (cwd w) path) = Some Dir /\
    fs w' = fun q => if FS.under (FS.resolve (cwd w) path) q then None else fs w q)).
Proof.
  unfold rmr, try_except, shutil_rmtree, fs_call. cbn [fs_apply].
  unfold FS.rmtree.
  destruct (fs w (FS.resolve (cwd w) path)) as [[|]|] eqn:Hp; cbn.
  - discriminate.
  - intros [= <-]. cbn. split; [reflexivity|]. right. now split.
  - intros [= <-]. cbn. split; [reflexivity|]. left. now split.
Qed.

Lemma mkdirp_effect (path : string) (w w' : world) :
  mkdirp path w = (w', Ret tt) ->
  cwd w' = cwd w /\
  ((fs w (FS.resolve (cwd w) path) <> None /\ fs w' = fs w) \/
   (fs w (FS.resolve (cwd w) path) = None /\
    fs w' = fun q =>
      if (String.eqb q (FS.resolve (cwd w) path)
          || existsb (String.eqb q) (FS.ancestors (FS.resolve (cwd w) path)))%bool
      then Some Dir else fs w q)).
Proof.
  unfold mkdirp, try_except, os_makedirs, fs_call. cbn [fs_apply].
  unfold FS.makedirs, FS.exists_.
  destruct (fs w (FS.resolve (cwd w) path)) as [k|] eqn:Hp.
  - intros [= <-]. cbn. split; [reflexivity|]. left. now split.
  - destruct (existsb _ _); [discriminate|].
    intros [= <-]. cbn. split; [reflexivity|]. right. now split.
Qed.

Lemma fs_call_effect (o : fsop) (w w' : world) :
  fs_call o w = (w', Ret tt) ->
  cwd w' = fs_cwd o (cwd w) /\ fs_apply o (cwd w) (fs w) = inl (fs w').
Proof.
  unfold fs_call. destruct (fs_apply o (cwd w) (fs w)) as [fs'|e]; [|discriminate].
  intros [= <-]. now split.
Qed.

Lemma sh_effect (cmd : string) (env : option (gmap string string))
    (cwd_arg : option string) (w w' : world) :
  sh h cmd env cwd_arg w = (w', Ret tt) ->
  cwd w' = cwd w /\
  exists n env',
    fs w' = (child h n cmd env'
               (from_option (FS.resolve (cwd w)) (cwd w) cwd_arg) (fs w)).2.
Proof.
  intros H. apply sh_ret in H as [Hc Hf]. split; [exact Hc|]. eauto.
Qed.

End Effects.

(** ** Paths below a directory *)

Lemma append_inv_head (x a b : string) : x +:+ a = x +:+ b -> a = b.
Proof.
  induction x as [|c x IH]; [trivial|].
  rewrite !append_cons. intros [= H]. now apply IH.
Qed.

Lemma has_char_dirnames (s : string) : has_char "/" s = false -> FS.dirnames s = [].
Proof.
  induction s as [|c s IH]; [reflexivity|].
  cbn [has_char FS.dirnames]. intros H. apply orb_false_iff in H as [Hc Hs].
  now rewrite Hc, (IH Hs).
Qed.

Lemma dirnames_app (x y : string) :
  FS.dirnames (x +:+ y) = FS.dirnames x ++ map (String.append x) (FS.dirnames y).
Proof.
  induction x as [|c x IH].
  - cbn [FS.dirnames app]. change (EmptyString +:+ y) with y.
    induction (FS.dirnames y) as [|d l IHl]; [reflexivity|].
    cbn [map]. now rewrite <- IHl.
  - rewrite append_cons. cbn [FS.dirnames]. rewrite IH, map_app, map_map, <- app_assoc.
    reflexivity.
Qed.

(** The ancestors of a path that ends with a name: the ancestors of its
    directory, then the directory. *)
Lemma ancestors_snoc (x name : string) :
  x <> EmptyString -> Py.ends_with_slash x = false -> has_char "/" name = false ->
  FS.ancestors (x +:+ String "/" name) = FS.ancestors x ++ [x].
Proof.
  intros Hne He Hname. unfold FS.ancestors.
  rewrite dirnames_app, List.filter_app. f_equal.
  cbn [FS.dirnames]. rewrite Ascii.eqb_refl, (has_char_dirnames _ Hname).
  cbn [map app List.filter]. rewrite append_nil_r, He.
  destruct (String.eqb_spec x EmptyString); [contradiction | reflexivity].
Qed.

Lemma parent_snoc (x name : string) :
  x <> EmptyString -> Py.ends_with_slash x = false -> has_char "/" name = false ->
  FS.parent (x +:+ String "/" name) = Some x.
Proof.
  intros Hne He Hname. unfold FS.parent.
  rewrite (ancestors_snoc _ _ Hne He Hname). apply last_snoc.
Qed.

Lemma split_two (sep : ascii) (y : string) :
  has_char sep y = true ->
  exists w ws, Py.split sep y = w :: ws /\ ws <> [].
Proof.
  induction y as [|c y IH]; [discriminate|].
  cbn [has_char Py.split]. intros H.
  destruct (Ascii.eqb c sep) eqn:E.
  - exists EmptyString, (Py.split sep y). split; [reflexivity | apply split_nonempty].
  - cbn [orb] in H. destruct (IH H) as (w & ws & -> & Hws). now exists (String c w), ws.
Qed.

Lemma has_char_app_r (c : ascii) (x y : string) :
  has_char c y = true -> has_char c (x +:+ y) = true.
Proof.
  intros H. induction x as [|a x IH]; [exact H|].
  rewrite append_cons. cbn [has_char]. rewrite IH. apply orb_true_r.
Qed.

Lemma last_cons_nonempty {A} (a d : A) (l : list A) :
  l <> [] -> List.last (a :: l) d = List.last l d.
Proof. now destruct l. Qed.

Lemma last_split_app (sep : ascii) (x y : string) :
  has_char sep y = true ->
  List.last (Py.split sep (x +:+ y)) EmptyString = List.last (Py.split sep y) EmptyString.
Proof.
  intros Hy. induction x as [|c x IH]; [reflexivity|].
  rewrite append_cons. cbn [Py.split].
  destruct (split_two sep (x +:+ y) (has_char_app_r _ _ _ Hy)) as (w & ws & E & Hws).
  rewrite E in *. destruct (Ascii.eqb c sep).
  - rewrite last_cons_nonempty by discriminate. exact IH.
  - rewrite last_cons_nonempty by exact Hws.
    rewrite last_cons_nonempty in IH by exact Hws. exact IH.
Qed.

(** The base name of a path is the base name of any tail of it that has
    a separator. *)
Lemma basename_app (x y : string) :
  has_char "/" y = true -> FS.basename (x +:+ y) = FS.basename y.
Proof. apply last_split_app. Qed.

(** ** The build directory during a build *)

Lemma node_eq_or_not (a b : option node) : a = b \/ a <> b.
Proof. destruct a as [[|]|], b as [[|]|]; (now left) || (right; discriminate). Qed.

Lemma resolve_abs (C p : string) : Py.isabs p = true -> FS.resolve C p = p.
Proof. intros H. unfold FS.resolve, Py.path_join2. now rewrite H. Qed.

Lemma append_neq (x y : string) (c : ascii) : x +:+ String c y <> x.
Proof.
  intros H. rewrite <- (append_nil_r x) in H at 2.
  apply append_inv_head in H. discriminate.
Qed.

Lemma no_sep_no_trailing (s : string) :
  has_char "/" s = false -> Py.ends_with_slash s = false.
Proof.
  induction s as [|c s IH]; [reflexivity|].
  cbn [has_char]. intros H. apply orb_false_iff in H as [Hc Hs].
  cbn [Py.ends_with_slash]. destruct s; [exact Hc | exact (IH Hs)].
Qed.

Lemma basename_no_sep (p : string) : has_char "/" (FS.basename p) = false.
Proof.
  unfold FS.basename.
  apply (last_Forall (fun x => has_char "/" x = false)); [reflexivity | apply split_words_no_sep].
Qed.

Section BuildPaths.

Variable B : string.

Hypothesis B_nonempty : B <> EmptyString.
Hypothesis B_name : Py.ends_with_slash B = false.
Hypothesis B_abs : Py.isabs B = true.

Lemma isabs_below (x : string) : Py.isabs (B +:+ x) = true.
Proof using All.
  unfold Py.isabs in *. destruct B as [|c b]; [discriminate|].
  rewrite append_cons. rewrite prefix_cons in *. now rewrite prefix_nil_l in *.
Qed.

Lemma join2_name (name : string) :
  Py.isabs name = false -> Py.path_join2 B name = B +:+ String "/" name.
Proof using All.
  intros H. unfold Py.path_join2. rewrite H.
  rewrite (slashed_ancestor B B_nonempty B_name), append_assoc. reflexivity.
Qed.

Lemma join_name (name : string) :
  Py.isabs name = false -> Py.path_join B [name] = B +:+ String "/" name.
Proof using All. apply join2_name. Qed.

Lemma join_lib (abi : string) :
  Py.isabs abi = false ->
  Py.path_join B ["lib"; abi] = (B +:+ "/lib") +:+ String "/" abi.
Proof using All.
  intros H. unfold Py.path_join. cbn [fold_left].
  rewrite (join2_name "lib") by reflexivity.
  unfold Py.path_join2. rewrite H.
  rewrite (slashed_app B "lib" "/") by reflexivity.
  rewrite !append_assoc. reflexivity.
Qed.

Lemma below_nonempty (x : string) : B +:+ x <> EmptyString.
Proof using All. destruct B; [contradiction | discriminate]. Qed.

Lemma below_neq (c : ascii) (x : string) : B +:+ String c x <> B.
Proof using All. apply append_neq. Qed.

Lemma under_below (x : string) : FS.under B (B +:+ String "/" x) = true.
Proof using All.
  apply under_cases. right. exists x.
  rewrite (slashed_ancestor B B_nonempty B_name), append_assoc. reflexivity.
Qed.

Lemma not_under_above (c : ascii) (x : string) : FS.under (B +:+ String c x) B = false.
Proof using All.
  destruct (FS.under _ B) eqn:E; [|reflexivity].
  apply under_length in E. rewrite append_length in E. simpl in E. lia.
Qed.

Lemma transient_below (ios : bool) :
  exists name, has_char "/" name = false /\
    transient_dir B ios = B +:+ String "/" name.
Proof using All.
  destruct ios; cbn [transient_dir]; rewrite join_name by reflexivity;
    eexists; (split; [|reflexivity]); reflexivity.
Qed.

Lemma under_transient (ios : bool) : FS.under B (transient_dir B ios) = true.
Proof using All. destruct (transient_below ios) as (name & _ & ->). apply under_below. Qed.

Lemma transient_not_above (ios : bool) : FS.under (transient_dir B ios) B = false.
Proof using All. destruct (transient_below ios) as (name & _ & ->). apply not_under_above. Qed.

Lemma package_is_not_transient (ios : bool) (a : string) :
  In a (packages B ios) -> a <> transient_dir B ios /\ a <> B.
Proof using All.
  destruct ios; cbn [packages transient_dir In]; rewrite !join_name by reflexivity;
    intros H; decompose [or] H; try contradiction; subst a;
    (split; [intros E; apply append_inv_head in E; discriminate | apply below_neq]).
Qed.

Lemma staged_ancestors (name : string) :
  has_char "/" name = false ->
  FS.ancestors ((B +:+ "/lib") +:+ String "/" name)
  = FS.ancestors B ++ [B; B +:+ "/lib"].
Proof using All.
  intros Hname.
  rewrite ancestors_snoc;
    [|apply below_nonempty | now rewrite ends_with_slash_app | exact Hname].
  rewrite (ancestors_snoc B "lib" B_nonempty B_name) by reflexivity.
  now rewrite <- app_assoc.
Qed.

Lemma isabs_staged (x : string) : Py.isabs ((B +:+ "/lib") +:+ x) = true.
Proof using All. rewrite append_assoc. apply isabs_below. Qed.

Lemma staged_under (x : string) :
  FS.under (B +:+ "/lib") ((B +:+ "/lib") +:+ String "/" x) = true.
Proof using All.
  apply under_cases. right. exists x.
  rewrite (slashed_app B "lib" "/") by reflexivity.
  rewrite !append_assoc. reflexivity.
Qed.

Lemma staged_is_no_package (x : string) :
  ~ In ((B +:+ "/lib") +:+ String "/" x) (packages B false).
Proof using All.
  cbn [packages In]. rewrite !join_name by reflexivity. rewrite append_assoc.
  intros H; decompose [or] H; try contradiction;
    match goal with E : _ = _ |- _ => apply append_inv_head in E; discriminate E end.
Qed.

Lemma staged_is_below (x : string) :
  FS.under B ((B +:+ "/lib") +:+ x) = true.
Proof using All. rewrite append_assoc. apply under_below. Qed.

Section BuildDirectory.

Variable h : host.
Variable C : string.

Hypothesis tools : tools_write_outputs h B.

(** What is named relative to the working directory lies outside the
    build directory. *)
Hypothesis outside :
  forall rel p, Py.isabs rel = false ->
    FS.under (FS.resolve C rel) p = true -> FS.under B p = false.

(** *** Properties that depend on the build directory only *)

Lemma rooted_ext (fs fs' : fs_t) :
  (forall p, FS.under B p = true -> fs' p = fs p) -> rooted B fs -> rooted B fs'.
Proof using All.
  intros Hext Hr p Hp Hex. rewrite (Hext B (under_refl B)).
  apply (Hr p Hp). now rewrite <- (Hext p Hp).
Qed.

Lemma assembling_ext (ios : bool) (fs fs' : fs_t) :
  (forall p, FS.under B p = true -> fs' p = fs p) ->
  assembling B ios fs -> assembling B ios fs'.
Proof using All.
  intros Hext [HB Hin]. split; [now rewrite (Hext B (under_refl B))|].
  intros p Hp Hex. rewrite (Hext p Hp) in Hex.
  rewrite (Hext _ (under_transient ios)). exact (Hin p Hp Hex).
Qed.

Lemma assembled_ext (ios : bool) (fs fs' : fs_t) :
  (forall p, FS.under B p = true -> fs' p = fs p) ->
  assembled B ios fs -> assembled B ios fs'.
Proof using All.
  intros Hext [HB Hin]. split; [now rewrite (Hext B (under_refl B))|].
  intros p Hp Hex. rewrite (Hext p Hp) in Hex. exact (Hin p Hp Hex).
Qed.

Lemma quiet_keeps (P : fs_t -> Prop) (s : step) :
  (forall fs fs', (forall p, FS.under B p = true -> fs' p = fs p) -> P fs -> P fs') ->
  quiet_below h B C s -> keeps h C P s.
Proof using All.
  intros Hext Hq w w' Hc HP Hrun. destruct (Hq w w' Hc Hrun) as [Hc' Hsame].
  split; [exact Hc' | exact (Hext _ _ Hsame HP)].
Qed.

(** *** Steps that change nothing below the build directory *)

Lemma quiet_tool (cmd : string) (env : option (gmap string string))
    (cwd_arg : option string) :
  is_bundle_cmd cmd = false -> archive_name cmd = None ->
  quiet_below h B C (SSh cmd env cwd_arg).
Proof using All.
  intros Hb Ha w w' Hc Hrun. cbn [exec] in Hrun.
  apply (sh_effect h) in Hrun as (Hc' & n & env' & Hfs).
  split; [congruence|]. intros p Hp. rewrite Hfs.
  destruct (node_eq_or_not ((child h n cmd env'
    (from_option (FS.resolve (cwd w)) (cwd w) cwd_arg) (fs w)).2 p) (fs w p)) as [E|E];
    [exact E|].
  destruct (tools _ _ _ _ _ _ Hp E) as [(Hb' & _)|(name & Ha' & _)]; congruence.
Qed.

Lemma quiet_rmr (path : string) :
  Py.isabs path = false -> quiet_below h B C (SRmr path).
Proof using All.
  intros Hrel w w' Hc Hrun. cbn [exec] in Hrun.
  apply rmr_effect in Hrun as (Hc' & [(_ & ->)|(_ & ->)]);
    (split; [congruence|]); intros p Hp; [reflexivity|].
  rewrite Hc. destruct (FS.under (FS.resolve C path) p) eqn:E; [|reflexivity].
  rewrite (outside _ _ Hrel E) in Hp. discriminate.
Qed.

Lemma quiet_copytree (src dst : string) :
  Py.isabs dst = false -> quiet_below h B C (SFs (Copytree src dst)).
Proof using All.
  intros Hrel w w' Hc Hrun. cbn [exec] in Hrun.
  apply fs_call_effect in Hrun as (Hc' & Hfs). cbn [fs_cwd fs_apply] in *.
  split; [congruence|]. intros p Hp.
  destruct (node_eq_or_not (fs w' p) (fs w p)) as [E|E]; [exact E|].
  pose proof (copytree_changes _ _ _ _ Hfs p E) as Hu. rewrite Hc in Hu.
  rewrite (outside _ _ Hrel Hu) in Hp. discriminate.
Qed.

Lemma quiet_move (src dst : string) :
  Py.isabs src = false -> Py.isabs dst = false ->
  quiet_below h B C (SFs (Move src dst)).
Proof using All.
  intros Hs Hd w w' Hc Hrun. cbn [exec] in Hrun.
  apply fs_call_effect in Hrun as (Hc' & Hfs). cbn [fs_cwd fs_apply] in *.
  split; [congruence|]. intros p Hp.
  destruct (node_eq_or_not (fs w' p) (fs w p)) as [E|E]; [exact E|].
  rewrite Hc in Hfs.
  destruct (move_changes _ _ _ _ Hfs p E) as [Hu|Hu];
    [rewrite (outside _ _ Hd Hu) in Hp | rewrite (outside _ _ Hs Hu) in Hp];
    discriminate.
Qed.

(** *** The cleaning of the build directory *)

Lemma cleaned (ios : bool) (w w1 w' : world) :
  cwd w = C -> rooted B (fs w) ->
  exec h (SRmr B) w = (w1, Ret tt) -> exec h (SMkdirp B) w1 = (w', Ret tt) ->
  cwd w' = C /\ assembling B ios (fs w').
Proof using All.
  intros Hc Hr Hrm Hmk. cbn [exec] in *.
  apply rmr_effect in Hrm as (Hc1 & Hrm). rewrite Hc, (resolve_abs C B B_abs) in Hrm.
  assert (Hgone : forall p, FS.under B p = true -> fs w1 p = None).
  { destruct Hrm as [(HB & ->)|(_ & ->)]; intros p Hp.
    - destruct (fs w p) eqn:E; [|reflexivity].
      exfalso. apply (Hr p Hp); [congruence | exact HB].
    - now rewrite Hp. }
  apply mkdirp_effect in Hmk as (Hc2 & Hmk).
  rewrite Hc1, Hc, (resolve_abs C B B_abs) in Hmk.
  split; [congruence|].
  destruct Hmk as [(HB & _)|(_ & ->)].
  - exfalso. apply HB, Hgone, under_refl.
  - split; [now rewrite String.eqb_refl|].
    intros p Hp Hex. left.
    destruct (String.eqb_spec p B) as [->|Hne]; [reflexivity|]. cbn [orb] in Hex.
    destruct (existsb (String.eqb p) (FS.ancestors B)) eqn:E.
    + apply existsb_exists in E as (a & Ha & Hpa). apply String.eqb_eq in Hpa as <-.
      apply ancestor_not_under in Ha. congruence.
    + exfalso. apply Hex, Hgone, Hp.
Qed.

(** *** The packaging steps *)

Lemma keeps_bundle (cmd : string) (env : option (gmap string string))
    (cwd_arg : option string) :
  archive_name cmd = None ->
  keeps h C (assembling B true) (SSh cmd env cwd_arg).
Proof using All.
  intros Ha w w' Hc [HB Hin] Hrun. cbn [exec] in Hrun.
  apply (sh_effect h) in Hrun as (Hc' & n & env' & Hfs).
  split; [congruence|].
  set (dir := from_option (FS.resolve (cwd w)) (cwd w) cwd_arg) in Hfs.
  assert (Hch : forall p, FS.under B p = true -> fs w' p <> fs w p ->
                  FS.under (transient_dir B true) p = true /\
                  fs w' (transient_dir B true) = Some Dir).
  { intros p Hp E. rewrite Hfs in E |- *.
    destruct (tools _ _ _ _ _ _ Hp E) as [(_ & Hu & Hd)|(name & Ha' & _)];
      [now split | congruence]. }
  assert (Htr : fs w (transient_dir B true) = Some Dir ->
                fs w' (transient_dir B true) = Some Dir).
  { intros Hd.
    destruct (node_eq_or_not (fs w' (transient_dir B true)) (fs w (transient_dir B true)))
      as [E|E]; [congruence|].
    exact (proj2 (Hch _ (under_transient true) E)). }
  split.
  - destruct (node_eq_or_not (fs w' B) (fs w B)) as [E|E]; [congruence|].
    destruct (Hch B (under_refl B) E) as [Hu _].
    rewrite transient_not_above in Hu. discriminate.
  - intros p Hp Hex.
    destruct (node_eq_or_not (fs w' p) (fs w p)) as [E|E].
    + rewrite E in Hex.
      destruct (Hin p Hp Hex) as [H|[H|[Hu Hd]]]; [now left | now right; left|].
      right; right. split; [exact Hu | exact (Htr Hd)].
    + right; right. exact (Hch p Hp E).
Qed.

Lemma archive_changes (cmd name : string) (env : option (gmap string string))
    (w w' : world) :
  archive_name cmd = Some name -> is_bundle_cmd cmd = false ->
  cwd w = C -> exec h (SSh cmd env (Some B)) w = (w', Ret tt) ->
  cwd w' = C /\
  forall p, FS.under B p = true -> fs w' p <> fs w p -> p = Py.path_join2 B name.
Proof using All.
  intros Ha Hb Hc Hrun. cbn [exec] in Hrun.
  apply (sh_effect h) in Hrun as (Hc' & n & env' & Hfs).
  split; [congruence|]. intros p Hp E. rewrite Hfs in E.
  cbn [from_option] in E. rewrite Hc, (resolve_abs C B B_abs) in E.
  destruct (tools _ _ _ _ _ _ Hp E) as [(Hb' & _)|(name' & Ha' & ->)]; congruence.
Qed.

Lemma keeps_archive_assembling (ios : bool) (cmd name : string)
    (env : option (gmap string string)) :
  archive_name cmd = Some name -> is_bundle_cmd cmd = false ->
  In (Py.path_join2 B name) (packages B ios) ->
  keeps h C (assembling B ios) (SSh cmd env (Some B)).
Proof using All.
  intros Ha Hb Hpk w w' Hc [HB Hin] Hrun.
  destruct (archive_changes _ _ _ _ _ Ha Hb Hc Hrun) as [Hc' Hch].
  destruct (package_is_not_transient _ _ Hpk) as [Hntr HnB].
  split; [exact Hc'|].
  assert (Htr : fs w' (transient_dir B ios) = fs w (transient_dir B ios)).
  { destruct (node_eq_or_not (fs w' (transient_dir B ios)) (fs w (transient_dir B ios)))
      as [E|E]; [exact E|].
    exfalso. apply Hntr. symmetry. exact (Hch _ (under_transient ios) E). }
  split.
  - destruct (node_eq_or_not (fs w' B) (fs w B)) as [E|E]; [congruence|].
    exfalso. apply HnB. symmetry. exact (Hch _ (under_refl B) E).
  - intros p Hp Hex. rewrite Htr.
    destruct (node_eq_or_not (fs w' p) (fs w p)) as [E|E].
    + rewrite E in Hex. exact (Hin p Hp Hex).
    + right; left. now rewrite (Hch p Hp E).
Qed.

Lemma keeps_archive_assembled (ios : bool) (cmd name : string)
    (env : option (gmap string string)) :
  archive_name cmd = Some name -> is_bundle_cmd cmd = false ->
  In (Py.path_join2 B name) (packages B ios) ->
  keeps h C (assembled B ios) (SSh cmd env (Some B)).
Proof using All.
  intros Ha Hb Hpk w w' Hc [HB Hin] Hrun.
  destruct (archive_changes _ _ _ _ _ Ha Hb Hc Hrun) as [Hc' Hch].
  destruct (package_is_not_transient _ _ Hpk) as [_ HnB].
  split; [exact Hc'|]. split.
  - destruct (node_eq_or_not (fs w' B) (fs w B)) as [E|E]; [congruence|].
    exfalso. apply HnB. symmetry. exact (Hch _ (under_refl B) E).
  - intros p Hp Hex.
    destruct (node_eq_or_not (fs w' p) (fs w p)) as [E|E].
    + rewrite E in Hex. exact (Hin p Hp Hex).
    + right. now rewrite (Hch p Hp E).
Qed.

(** The removal of the transient directory leaves the packages. *)
Lemma transient_removed (ios : bool) (w w' : world) :
  cwd w = C -> assembling B ios (fs w) ->
  exec h (SRmr (transient_dir B ios)) w = (w', Ret tt) ->
  cwd w' = C /\ assembled B ios (fs w').
Proof using All.
  intros Hc [HB Hin] Hrun. cbn [exec] in Hrun.
  apply rmr_effect in Hrun as (Hc' & Hrm).
  assert (Habs : Py.isabs (transient_dir B ios) = true)
    by (destruct (transient_below ios) as (name & _ & ->); apply isabs_below).
  rewrite Hc, (resolve_abs C _ Habs) in Hrm.
  split; [congruence|].
  destruct Hrm as [(Hnone & ->)|(_ & ->)].
  - split; [exact HB|]. intros p Hp Hex.
    destruct (Hin p Hp Hex) as [H|[H|[_ Hd]]]; [now left | now right | congruence].
  - split; [now rewrite transient_not_above|].
    intros p Hp Hex. destruct (FS.under (transient_dir B ios) p) eqn:E; [contradiction|].
    destruct (Hin p Hp Hex) as [H|[H|[Hu _]]]; [now left | now right | congruence].
Qed.

(** *** The staging of the Android libraries *)

Lemma keeps_mkdirp_stage (name : string) :
  has_char "/" name = false ->
  keeps h C (assembling B false) (SMkdirp ((B +:+ "/lib") +:+ String "/" name)).
Proof using All.
  intros Hname w w' Hc [HB Hin] Hrun. cbn [exec] in Hrun.
  apply mkdirp_effect in Hrun as (Hc' & Hmk).
  rewrite Hc, (resolve_abs C _ (isabs_staged _)) in Hmk.
  split; [congruence|].
  destruct Hmk as [(_ & ->)|(_ & ->)]; [now split|].
  rewrite (staged_ancestors _ Hname).
  assert (Hanc : forall q, In q [B; B +:+ "/lib"] ->
            (String.eqb q ((B +:+ "/lib") +:+ String "/" name)
             || existsb (String.eqb q) (FS.ancestors B ++ [B; B +:+ "/lib"]))%bool = true).
  { intros q Hq. apply orb_true_iff. right. apply existsb_exists.
    exists q. split; [apply in_app_iff; now right | apply String.eqb_refl]. }
  unfold assembling.
  change (transient_dir B false) with (Py.path_join B ["lib"]) in *.
  rewrite (join_name "lib") in * by reflexivity.
  split; [rewrite Hanc; [reflexivity | now left]|].
  intros p Hp Hex. cbv beta in *.
  rewrite (Hanc (B +:+ "/lib")) by (right; now left).
  destruct (String.eqb_spec p ((B +:+ "/lib") +:+ String "/" name)) as [->|Hne].
  { right; right. split; [apply staged_under | reflexivity]. }
  cbn [orb] in Hex.
  destruct (existsb (String.eqb p) (FS.ancestors B ++ [B; B +:+ "/lib"])) eqn:E.
  - apply existsb_exists in E as (a & Ha & Hpa). apply String.eqb_eq in Hpa as <-.
    apply in_app_iff in Ha as [Ha|[<-|[<-|[]]]].
    + apply ancestor_not_under in Ha. congruence.
    + now left.
    + right; right. split; [apply under_refl | reflexivity].
  - destruct (Hin p Hp Hex) as [H|[H|[Hu _]]]; [now left | now right; left|].
    right; right. now split.
Qed.

Lemma keeps_copy_stage (src name : string) :
  name <> EmptyString -> has_char "/" name = false ->
  keeps h C (assembling B false)
    (SFs (Copy src ((B +:+ "/lib") +:+ String "/" name))).
Proof using All.
  intros Hne Hname w w' Hc [HB Hin] Hrun. cbn [exec] in Hrun.
  apply fs_call_effect in Hrun as (Hc' & Hfs). cbn [fs_cwd fs_apply] in *.
  rewrite Hc, (resolve_abs C _ (isabs_staged _)) in Hfs.
  split; [congruence|].
  apply copy_changes in Hfs as (real & Hreal & Hpar & Hfs').
  unfold assembling.
  change (transient_dir B false) with (Py.path_join B ["lib"]) in *.
  rewrite (join_name "lib") in * by reflexivity.
  set (tr := B +:+ "/lib") in *. set (dst := tr +:+ String "/" name) in *.
  assert (Htr_ne : tr <> EmptyString) by apply below_nonempty.
  assert (Htr_name : Py.ends_with_slash tr = false)
    by (subst tr; now rewrite ends_with_slash_app).
  assert (Hdst_ne : dst <> EmptyString).
  { subst dst tr. rewrite append_assoc. apply below_nonempty. }
  assert (Hdst_name : Py.ends_with_slash dst = false).
  { subst dst. rewrite ends_with_slash_app.
    destruct name as [|c n]; [contradiction|].
    change (Py.ends_with_slash (String c n) = false). now apply no_sep_no_trailing. }
  assert (Hshape : exists x par, real = tr +:+ String "/" x /\
            FS.parent real = Some par /\ (par = tr \/ par = dst)).
  { destruct (FS.isdir (fs w) dst).
    - pose proof (basename_no_sep (FS.resolve C src)) as Hb.
      exists (name +:+ String "/" (FS.basename (FS.resolve C src))), dst.
      assert (E : real = dst +:+ String "/" (FS.basename (FS.resolve C src))).
      { rewrite Hreal. unfold Py.path_join2. rewrite basename_relative.
        rewrite (slashed_ancestor dst Hdst_ne Hdst_name), append_assoc. reflexivity. }
      split; [rewrite E; subst dst; now rewrite append_assoc|].
      split; [rewrite E; now apply parent_snoc | now right].
    - exists name, tr. split; [exact Hreal|].
      split; [rewrite Hreal; now apply parent_snoc | now left]. }
  destruct Hshape as (x & par & Ex & Epar & Hparent).
  rewrite Epar in Hpar. cbn [from_option] in Hpar.
  assert (Hd : fs w tr = Some Dir).
  { unfold FS.isdir in Hpar. destruct Hparent as [->| ->].
    - destruct (fs w tr) as [[|]|]; congruence.
    - assert (Hex : fs w dst <> None) by (destruct (fs w dst) as [[|]|]; congruence).
      destruct (Hin dst (staged_is_below _) Hex) as [H|[H|[_ H]]]; [| |exact H].
      + exfalso. subst dst tr. rewrite append_assoc in H. now apply below_neq in H.
      + exfalso. now apply staged_is_no_package in H. }
  assert (HnB : B <> real).
  { rewrite Ex. subst tr. rewrite append_assoc. intros E. symmetry in E.
    now apply below_neq in E. }
  assert (Hntr : tr <> real).
  { rewrite Ex. intros E. symmetry in E. now apply append_neq in E. }
  apply String.eqb_neq in HnB, Hntr.
  rewrite !Hfs', HnB, Hntr. split; [exact HB|].
  intros p Hp Hex. rewrite Hfs' in Hex.
  destruct (String.eqb_spec p real) as [->|Hpr].
  - right; right. split; [rewrite Ex; apply staged_under | exact Hd].
  - exact (Hin p Hp Hex).
Qed.

Lemma keeps_copy_jar (src : string) :
  FS.basename (FS.resolve C src) = "libwebrtc.jar" ->
  keeps h C (assembling B false) (SFs (Copy src B)).
Proof using All.
  intros Hbase w w' Hc [HB Hin] Hrun. cbn [exec] in Hrun.
  apply fs_call_effect in Hrun as (Hc' & Hfs). cbn [fs_cwd fs_apply] in *.
  rewrite Hc, (resolve_abs C B B_abs) in Hfs.
  split; [congruence|].
  apply copy_changes in Hfs as (real & Hreal & _ & Hfs').
  unfold FS.isdir in Hreal. rewrite HB, Hbase, join2_name in Hreal by reflexivity.
  assert (Hpk : In real (packages B false)).
  { rewrite Hreal. cbn [packages]. rewrite !join_name by reflexivity. now left. }
  destruct (package_is_not_transient _ _ Hpk) as [Hntr HnB].
  unfold assembling. rewrite !Hfs'.
  destruct (String.eqb_spec B real) as [E|_]; [now symmetry in E|].
  destruct (String.eqb_spec (transient_dir B false) real) as [E|_]; [now symmetry in E|].
  split; [exact HB|].
  intros p Hp Hex. rewrite Hfs' in Hex.
  destruct (String.eqb_spec p real) as [->|Hpr]; [now right; left|].
  exact (Hin p Hp Hex).
Qed.

End BuildDirectory.

End BuildPaths.


(** ** The steps of a build and the build directory *)

Lemma run_keeps (h : host) (C : string) (P : fs_t -> Prop) (l : list step) :
  Forall (keeps h C P) l ->
  forall w w', cwd w = C -> P (fs w) -> run_steps h l w = (w', Ret tt) ->
    cwd w' = C /\ P (fs w').
Proof.
  induction 1 as [|s l Hs Hl IH]; intros w w' Hc HP Hrun.
  - injection Hrun as <-. now split.
  - rewrite run_steps_cons in Hrun.
    apply bind_Ret_inv in Hrun as (w1 & [] & Hstep & Hrest).
    destruct (Hs w w1 Hc HP Hstep) as [Hc1 HP1].
    exact (IH w1 w' Hc1 HP1 Hrest).
Qed.

Lemma run_steps_app_inv (h : host) (l1 l2 : list step) (w w' : world) :
  run_steps h (l1 ++ l2) w = (w', Ret tt) ->
  exists w1, run_steps h l1 w = (w1, Ret tt) /\ run_steps h l2 w1 = (w', Ret tt).
Proof.
  rewrite run_steps_app. intros H.
  apply bind_Ret_inv in H as (w1 & [] & H1 & H2). eauto.
Qed.

Lemma run_steps_cons_inv (h : host) (s : step) (l : list step) (w w' : world) :
  run_steps h (s :: l) w = (w', Ret tt) ->
  exists w1, exec h s w = (w1, Ret tt) /\ run_steps h l w1 = (w', Ret tt).
Proof.
  rewrite run_steps_cons. intros H.
  apply bind_Ret_inv in H as (w1 & [] & H1 & H2). eauto.
Qed.

Lemma run_steps_nil_inv (h : host) (w w' : world) :
  run_steps h [] w = (w', Ret tt) -> w' = w.
Proof. now intros [= <-]. Qed.

(** The commands of the generate, compile and strip steps are neither
    the bundler nor an archiver. *)
Lemma generate_is_no_packaging (D : BuildTarget -> string) (debug : bool)
    (env : gmap string string) (t : BuildTarget) :
  exists cmd, generate_step D debug env t = SSh cmd (Some env) None /\
    is_bundle_cmd cmd = false /\ archive_name cmd = None.
Proof. eexists. split; [reflexivity|]. now split. Qed.

Lemma compile_is_no_packaging (D : BuildTarget -> string)
    (env : gmap string string) (t : BuildTarget) :
  exists cmd, compile_step D env t = SSh cmd (Some env) None /\
    is_bundle_cmd cmd = false /\ archive_name cmd = None.
Proof.
  unfold compile_step. eexists. split; [reflexivity|].
  destruct (kind t); now split.
Qed.

Lemma strip_is_no_packaging (D : BuildTarget -> string) (t : BuildTarget) :
  exists cmd, strip_step D t = SSh cmd None None /\
    is_bundle_cmd cmd = false /\ archive_name cmd = None.
Proof. eexists. split; [reflexivity|]. now split. Qed.

Lemma bundle_cmd_head (D : BuildTarget -> string) (xc : string) (ts : list BuildTarget) :
  exists s, bundle_cmd D xc ts = String "x" s.
Proof.
  unfold bundle_cmd.
  assert (H : exists s, Py.fmt "xcodebuild -create-xcframework -output %s" [xc]
                        = String "x" s).
  { let t := eval cbv in (Py.fmt "xcodebuild -create-xcframework -output %s" [xc]) in
    match t with String _ ?s => exists s end.
    vm_compute. reflexivity. }
  revert H. generalize (Py.fmt "xcodebuild -create-xcframework -output %s" [xc]).
  induction ts as [|t ts IH]; intros init H; [exact H|].
  cbn [fold_left]. apply IH. destruct H as (s & ->). rewrite append_cons. eauto.
Qed.

Lemma bundle_is_no_archive (D : BuildTarget -> string) (xc : string)
    (ts : list BuildTarget) :
  archive_name (bundle_cmd D xc ts) = None.
Proof. destruct (bundle_cmd_head D xc ts) as (s & ->). reflexivity. Qed.

(** The ABI names of the table. *)
Lemma abi_names (cpu abi : string) :
  ANDROID_CPU_ABI_MAP !! cpu = Some abi ->
  abi <> EmptyString /\ has_char "/" abi = false.
Proof.
  unfold ANDROID_CPU_ABI_MAP. intros H.
  apply elem_of_list_to_map_2 in H.
  repeat (apply elem_of_cons in H as [E|H]; [injection E as _ ->; now split|]).
  now apply elem_of_nil in H.
Qed.

Lemma path_join2_name (x : string) (c : ascii) (s name : string) :
  Py.ends_with_slash (String c s) = false -> Py.isabs name = false ->
  Py.path_join2 (x +:+ String c s) name = x +:+ (String c s +:+ String "/" name).
Proof.
  intros Hs Hname. unfold Py.path_join2. rewrite Hname.
  rewrite (slashed_app x s c Hs), !append_assoc. reflexivity.
Qed.

Lemma under_split (r p : string) :
  FS.under r p = true -> exists rest, p = r +:+ rest.
Proof.
  intros H. apply under_cases in H as [->|(rest & ->)].
  - exists EmptyString. now rewrite append_nil_r.
  - destruct (prefix_exists _ _ (slashed_prefix r)) as (x & ->).
    exists (x +:+ rest). now rewrite append_assoc.
Qed.

(** *** The two directories of a build *)

Section Directories.

Variable target_dir : string.
Hypothesis target_abs : Py.isabs target_dir = true.

Lemma slashed_abs : exists s, Py.slashed target_dir = String "/" s.
Proof.
  unfold Py.isabs in target_abs. destruct target_dir as [|c t]; [discriminate|].
  rewrite prefix_cons in target_abs. apply andb_true_iff in target_abs as [Hc _].
  apply Ascii.eqb_eq in Hc as <-. unfold Py.slashed.
  destruct (_ || _)%bool; [eauto|]. rewrite append_cons. eauto.
Qed.

Lemma build_dir_path (ios : bool) :
  Py.path_join target_dir ["build"; platform_name ios]
  = Py.slashed target_dir +:+ String "b" ("uild/" +:+ platform_name ios).
Proof.
  unfold Py.path_join. cbn [fold_left]. unfold Py.path_join2 at 2.
  change (Py.isabs "build") with false. cbv iota.
  unfold Py.path_join2.
  replace (Py.isabs (platform_name ios)) with false by now destruct ios.
  rewrite (slashed_app (Py.slashed target_dir) "uild" "b") by reflexivity.
  rewrite !append_assoc. now destruct ios.
Qed.

Lemma webrtc_dir_path (ios : bool) :
  Py.path_join target_dir ["webrtc"; platform_name ios; "src"]
  = Py.slashed target_dir +:+ String "w" ("ebrtc/" +:+ platform_name ios +:+ "/src").
Proof.
  unfold Py.path_join. cbn [fold_left].
  change (Py.path_join2 target_dir "webrtc") with (Py.slashed target_dir +:+ "webrtc").
  destruct ios; cbn [platform_name].
  - rewrite (path_join2_name (Py.slashed target_dir) "w" "ebrtc" "ios") by reflexivity.
    change (String "w" "ebrtc" +:+ String "/" "ios") with (String "w" "ebrtc/ios").
    now rewrite (path_join2_name (Py.slashed target_dir) "w" "ebrtc/ios" "src").
  - rewrite (path_join2_name (Py.slashed target_dir) "w" "ebrtc" "android") by reflexivity.
    change (String "w" "ebrtc" +:+ String "/" "android") with (String "w" "ebrtc/android").
    now rewrite (path_join2_name (Py.slashed target_dir) "w" "ebrtc/android" "src").
Qed.

Lemma below_target_abs (x : string) : Py.isabs (Py.slashed target_dir +:+ x) = true.
Proof.
  destruct slashed_abs as (s & ->). rewrite append_cons.
  unfold Py.isabs. now rewrite prefix_cons, prefix_nil_l.
Qed.

(** The source directory and what is named relative to it lie outside
    the build directory. *)
Lemma source_outside_build (ios : bool) (rel p : string) :
  Py.isabs rel = false ->
  FS.under (FS.resolve (Py.path_join target_dir ["webrtc"; platform_name ios; "src"]) rel) p
  = true ->
  FS.under (Py.path_join target_dir ["build"; platform_name ios]) p = false.
Proof.
  intros Hrel Hp.
  pose proof (under_trans _ _ _ (under_join _ _ Hrel) Hp) as Hw.
  destruct (FS.under (Py.path_join target_dir ["build"; platform_name ios]) p) eqn:Hb;
    [|reflexivity].
  exfalso. rewrite webrtc_dir_path in Hw. rewrite build_dir_path in Hb.
  apply under_split in Hw as (r1 & E1). apply under_split in Hb as (r2 & E2).
  rewrite E1, !append_assoc in E2. apply append_inv_head in E2.
  rewrite !append_cons in E2. discriminate E2.
Qed.

End Directories.

(** *** The phases of a build *)

Lemma is_tree_rooted (B : string) (fs : fs_t) :
  B <> EmptyString -> Py.ends_with_slash B = false -> is_tree fs -> rooted B fs.
Proof.
  intros Hne Hname Htree p Hp Hex.
  destruct (String.eqb_spec p B) as [->|Hpb]; [exact Hex|].
  rewrite (Htree p Hex B (below_has_ancestor B p Hne Hname Hp Hpb)). discriminate.
Qed.

Lemma assembled_assembling (B : string) (ios : bool) (fs : fs_t) :
  assembled B ios fs -> assembling B ios fs.
Proof.
  intros [HB Hin]. split; [exact HB|]. intros p Hp Hex.
  destruct (Hin p Hp Hex) as [H|H]; [now left | now right; left].
Qed.

Section Phases.

Variable h : host.
Variables B C : string.

Hypothesis B_nonempty : B <> EmptyString.
Hypothesis B_name : Py.ends_with_slash B = false.
Hypothesis B_abs : Py.isabs B = true.
Hypothesis tools : tools_write_outputs h B.
Hypothesis outside :
  forall rel p, Py.isabs rel = false ->
    FS.under (FS.resolve C rel) p = true -> FS.under B p = false.

Lemma keeps_rmr_transient (ios : bool) :
  keeps h C (assembling B ios) (SRmr (transient_dir B ios)).
Proof using All.
  intros w w' Hc HP Hrun.
  destruct (transient_removed B B_nonempty B_name B_abs h C tools outside ios w w' Hc HP Hrun)
    as [Hc' Hd].
  split; [exact Hc' | now apply assembled_assembling].
Qed.

(** From the cleaning of the output directory to the last compile
    command, nothing changes below the build directory. *)
Lemma prepare_keeps_rooted (D : BuildTarget -> string) (debug : bool)
    (env : gmap string string) (ts : list BuildTarget) :
  Forall (keeps h C (rooted B))
    (SRmr "out" :: map (generate_step D debug env) ts ++ map (compile_step D env) ts).
Proof using All.
  assert (Hext := rooted_ext B B_nonempty B_name B_abs h C tools outside).
  constructor; [apply (quiet_keeps B B_nonempty B_name B_abs h C tools outside), (quiet_rmr B B_nonempty B_name B_abs h C tools outside); auto|].
  apply Forall_app; split; apply List.Forall_map, Forall_forall; intros t _.
  - destruct (generate_is_no_packaging D debug env t) as (cmd & -> & Hb & Ha).
    apply (quiet_keeps B B_nonempty B_name B_abs h C tools outside), (quiet_tool B B_nonempty B_name B_abs h C tools outside); auto.
  - destruct (compile_is_no_packaging D env t) as (cmd & -> & Hb & Ha).
    apply (quiet_keeps B B_nonempty B_name B_abs h C tools outside), (quiet_tool B B_nonempty B_name B_abs h C tools outside); auto.
Qed.

Lemma strips_keep_assembling (D : BuildTarget -> string) (ts : list BuildTarget) :
  Forall (keeps h C (assembling B true)) (map (strip_step D) ts).
Proof using All.
  apply List.Forall_map, Forall_forall; intros t _.
  destruct (strip_is_no_packaging D t) as (cmd & -> & Hb & Ha).
  apply (quiet_keeps B B_nonempty B_name B_abs h C tools outside); [apply (assembling_ext B B_nonempty B_name B_abs h C tools outside) | apply (quiet_tool B B_nonempty B_name B_abs h C tools outside); auto].
Qed.

Lemma ios_assembled (debug : bool) (w w' : world) :
  cwd w = C -> assembling B true (fs w) ->
  run_steps h (assemble_ios (outputDirName (build_type_name debug)) B (targets "ios")) w
  = (w', Ret tt) ->
  assembled B true (fs w').
Proof using All.
  intros Hc HP Hrun. unfold assemble_ios in Hrun.
  let l := eval vm_compute in (List.filter is_simulator (targets "ios")) in
  change (List.filter is_simulator (targets "ios")) with l in Hrun.
  cbv beta iota zeta in Hrun.
  change (Py.path_join B ["WebRTC.xcframework"]) with (transient_dir B true) in Hrun.
  rewrite app_assoc in Hrun.
  apply run_steps_app_inv in Hrun as (w1 & Hfirst & Hlast).
  assert (Hext := assembling_ext B B_nonempty B_name B_abs h C tools outside true).
  assert (Htar : forall name cmd,
            archive_name cmd = Some name -> is_bundle_cmd cmd = false ->
            In (Py.path_join2 B name) (packages B true) ->
            keeps h C (assembling B true) (SSh cmd None (Some B))).
  { intros name cmd Ha Hb Hin.
    exact (keeps_archive_assembling B B_nonempty B_name B_abs h C tools outside true cmd name None
             Ha Hb Hin). }
  assert (Hbundle : forall ts,
            keeps h C (assembling B true)
              (SSh (bundle_cmd (outputDirName (build_type_name debug))
                      (transient_dir B true) ts) None None)).
  { intros ts. apply (keeps_bundle B B_nonempty B_name B_abs h C tools outside), bundle_is_no_archive. }
  assert (H1 : cwd w1 = C /\ assembling B true (fs w1)).
  { refine (run_keeps h C _ _ _ w w1 Hc HP Hfirst).
    apply Forall_app; split; [|apply strips_keep_assembling].
    repeat (apply List.Forall_cons; [|]); [..|apply List.Forall_nil].
    - apply (quiet_keeps B B_nonempty B_name B_abs h C tools outside); [exact Hext|].
      apply (quiet_copytree B B_nonempty B_name B_abs h C tools outside). now destruct debug.
    - apply (quiet_keeps B B_nonempty B_name B_abs h C tools outside); [exact Hext|]. apply (quiet_tool B B_nonempty B_name B_abs h C tools outside); reflexivity.
    - apply (quiet_keeps B B_nonempty B_name B_abs h C tools outside); [exact Hext|].
      apply (quiet_move B B_nonempty B_name B_abs h C tools outside); now destruct debug.
    - apply (quiet_keeps B B_nonempty B_name B_abs h C tools outside); [exact Hext|].
      apply (quiet_move B B_nonempty B_name B_abs h C tools outside); now destruct debug.
    - apply Hbundle.
    - apply (Htar "WebRTC.xcframework-bitcode.tgz"); [reflexivity | reflexivity | now left].
    - apply keeps_rmr_transient. }
  destruct H1 as [Hc1 HP1].
  apply run_steps_cons_inv in Hlast as (w2 & Hs2 & Hlast).
  destruct (Hbundle _ w1 w2 Hc1 HP1 Hs2) as [Hc2 HP2].
  apply run_steps_cons_inv in Hlast as (w3 & Hs3 & Hlast).
  destruct (Htar "WebRTC.xcframework.tgz"
              "tar zcf WebRTC.xcframework.tgz WebRTC.xcframework" eq_refl eq_refl
              (or_intror (or_introl eq_refl)) w2 w3 Hc2 HP2 Hs3) as [Hc3 HP3].
  apply run_steps_cons_inv in Hlast as (w4 & Hs4 & Hlast).
  apply run_steps_nil_inv in Hlast as ->.
  exact (proj2 (transient_removed B B_nonempty B_name B_abs h C tools outside true w3 w4 Hc3 HP3 Hs4)).
Qed.

Lemma stage_keeps_assembling (D : BuildTarget -> string) (t : BuildTarget) :
  Forall (keeps h C (assembling B false)) (stage_steps D B t).
Proof using All.
  unfold stage_steps.
  destruct (ANDROID_CPU_ABI_MAP !! architecture t) as [abi|] eqn:E; [|constructor].
  destruct (abi_names _ _ E) as [Hne Hsep].
  assert (Hrel : Py.isabs abi = false).
  { destruct abi as [|c s]; [reflexivity|]. unfold Py.isabs.
    rewrite prefix_cons, prefix_nil_l, andb_true_r. cbn in Hsep.
    apply orb_false_iff in Hsep as [Hc _]. now rewrite Ascii.eqb_sym. }
  rewrite (join_lib B B_nonempty B_name B_abs abi Hrel).
  apply List.Forall_cons; [|apply List.Forall_cons; [|apply List.Forall_nil]].
  - now apply (keeps_mkdirp_stage B B_nonempty B_name B_abs h C tools outside).
  - now apply (keeps_copy_stage B B_nonempty B_name B_abs h C tools outside).
Qed.

Lemma android_assembled (D : BuildTarget -> string) (w w' : world) :
  cwd w = C -> assembling B false (fs w) ->
  run_steps h (assemble_android D B (targets "android")) w = (w', Ret tt) ->
  assembled B false (fs w').
Proof using All.
  intros Hc HP Hrun. unfold assemble_android in Hrun.
  let l := eval vm_compute in (targets "android") in
  change (targets "android") with l in Hrun.
  cbv beta iota zeta in Hrun.
  rewrite app_assoc in Hrun.
  apply run_steps_app_inv in Hrun as (w1 & Hfirst & Hlast).
  assert (H1 : cwd w1 = C /\ assembling B false (fs w1)).
  { refine (run_keeps h C _ _ _ w w1 Hc HP Hfirst).
    apply Forall_app; split.
    - apply List.Forall_cons; [|apply List.Forall_nil]. apply (keeps_copy_jar B B_nonempty B_name B_abs h C tools outside).
      unfold FS.resolve, Py.path_join. cbn [fold_left]. unfold Py.path_join2.
      change (Py.isabs "lib.java/sdk/android/libwebrtc.jar") with false. cbv iota.
      match goal with |- FS.basename (if ?c then _ else _) = _ => destruct c end;
        [|rewrite <- append_assoc]; rewrite basename_app by reflexivity; reflexivity.
    - apply Forall_concat, List.Forall_map, Forall_forall. intros t _.
      apply stage_keeps_assembling. }
  destruct H1 as [Hc1 HP1].
  apply run_steps_cons_inv in Hlast as (w2 & Hs2 & Hlast).
  destruct (keeps_archive_assembling B B_nonempty B_name B_abs h C tools outside false
              "jar cvfM libjingle_peerconnection.so.jar lib"
              "libjingle_peerconnection.so.jar" None eq_refl eq_refl
              (or_intror (or_introl eq_refl)) w1 w2 Hc1 HP1 Hs2) as [Hc2 HP2].
  apply run_steps_cons_inv in Hlast as (w3 & Hs3 & Hlast).
  destruct (transient_removed B B_nonempty B_name B_abs h C tools outside false w2 w3 Hc2 HP2 Hs3)
    as [Hc3 HP3].
  apply run_steps_cons_inv in Hlast as (w4 & Hs4 & Hlast).
  apply run_steps_nil_inv in Hlast as ->.
  exact (proj2 (keeps_archive_assembled B B_nonempty B_name B_abs h C tools outside false
                  "tar zcf android-webrtc.tgz *.jar" "android-webrtc.tgz" None eq_refl eq_refl
                  (or_intror (or_intror (or_introl eq_refl))) w3 w4 Hc3 HP3 Hs4)).
Qed.

End Phases.

(** What a build that completes leaves below the build directory: the
    directory itself and final packages. *)
Lemma build_leaves_packages (h : host) (target_dir : string) (ios debug : bool)
    (w : world) :
  let build_dir := Py.path_join target_dir ["build"; platform_name ios] in
  let w' := (build h target_dir (platform_name ios) debug w).1 in
  Py.isabs target_dir = true ->
  is_tree (fs w) ->
  tools_write_outputs h build_dir ->
  (build h target_dir (platform_name ios) debug w).2 = Ret tt ->
  fs w' build_dir = Some Dir /\
  forall p, FS.under build_dir p = true -> fs w' p <> None ->
    p = build_dir \/ In p (packages build_dir ios).
Proof.
  intros B w' Habs Htree Htools Hret.
  destruct (build_completes_plan h target_dir ios debug w Hret) as (env & Hplan).
  subst w'. rewrite Hplan in *. clear Hplan.
  set (C := Py.path_join target_dir ["webrtc"; platform_name ios; "src"]).
  assert (HBne : B <> EmptyString).
  { subst B. rewrite build_dir_path by exact Habs.
    destruct (Py.slashed target_dir); discriminate. }
  assert (HBname : Py.ends_with_slash B = false).
  { subst B. rewrite build_dir_path, ends_with_slash_app by exact Habs. now destruct ios. }
  assert (HBabs : Py.isabs B = true).
  { subst B. rewrite build_dir_path by exact Habs. now apply below_target_abs. }
  assert (HCabs : Py.isabs C = true).
  { subst C. rewrite webrtc_dir_path by exact Habs. now apply below_target_abs. }
  assert (Hout : forall rel p, Py.isabs rel = false ->
            FS.under (FS.resolve C rel) p = true -> FS.under B p = false)
    by (intros rel p; now apply source_outside_build).
  destruct (run_steps h _ w) as [w' r] eqn:Hrun. cbn [fst snd] in *. subst r.
  unfold build_plan in Hrun. cbv zeta in Hrun. fold B C in Hrun.
  cbn [app] in Hrun.
  apply run_steps_cons_inv in Hrun as (w1 & Hcd & Hrun).
  cbn [exec] in Hcd. apply fs_call_effect in Hcd as [Hc1 Hfs1].
  cbn [fs_cwd fs_apply] in Hc1, Hfs1. rewrite (resolve_abs _ C HCabs) in Hc1, Hfs1.
  destruct (FS.isdir (fs w) C); [|discriminate]. injection Hfs1 as Hfs1.
  assert (Hr1 : rooted B (fs w1)) by (rewrite <- Hfs1; now apply is_tree_rooted).
  rewrite (app_assoc (map _ _)), app_comm_cons in Hrun.
  apply run_steps_app_inv in Hrun as (w2 & Hprep & Hrun).
  destruct (run_keeps h C _ _
              (prepare_keeps_rooted h B C HBne HBname HBabs Htools Hout _ debug env _)
              w1 w2 Hc1 Hr1 Hprep) as [Hc2 Hr2].
  cbn [app] in Hrun.
  apply run_steps_cons_inv in Hrun as (w3 & Hrm & Hrun).
  apply run_steps_cons_inv in Hrun as (w4 & Hmk & Hrun).
  destruct (cleaned B HBne HBname HBabs h C Htools Hout ios w2 w3 w4 Hc2 Hr2 Hrm Hmk)
    as [Hc4 HP4].
  destruct ios; cbn [platform_name String.eqb Ascii.eqb Bool.eqb] in Hrun.
  - exact (ios_assembled h B C HBne HBname HBabs Htools Hout debug w4 w' Hc4 HP4 Hrun).
  - exact (android_assembled h B C HBne HBname HBabs Htools Hout _ w4 w' Hc4 HP4 Hrun).
Qed.

(** X17: when a build completes, the build directory holds the final
    packages and nothing else: the two archives of the bundle for iOS;
    the Java archive, the archive of the native libraries and the archive
    of both for Android.  The bundle directory and the staging tree are
    gone, and so is whatever the directory held before the build.  This
    is so for an absolute target directory, on a file system that is a
    tree, with tools that change nothing below the build directory but
    what they are asked for: the bundler the bundle directory, an
    archiver its archive. *)
Theorem build_dir_contents (h : host) (target_dir : string) (ios debug : bool)
    (w : world) :
  let build_dir := Py.path_join target_dir ["build"; platform_name ios] in
  let w' := (build h target_dir (platform_name ios) debug w).1 in
  Py.isabs target_dir = true ->
  is_tree (fs w) ->
  tools_write_outputs h build_dir ->
  (build h target_dir (platform_name ios) debug w).2 = Ret tt ->
  fs w' build_dir = Some Dir /\
  forall p, FS.under build_dir p = true -> fs w' p <> None ->
    p = build_dir \/ In p (packages build_dir ios).
Proof.
  intros B w' Habs Htree Htools Hret.
  exact (build_leaves_packages h target_dir ios debug w Habs Htree Htools Hret).
Qed.

Lemma build_dir_contents_witness :
  let build_dir := Py.path_join "/w/build_webrtc" ["build"; platform_name true] in
  let w' := (build packaging_host "/w/build_webrtc" (platform_name true) false
               (start ios_tree "/")).1 in
  fs w' build_dir = Some Dir /\
  forall p, FS.under build_dir p = true -> fs w' p <> None ->
    p = build_dir \/ In p (packages build_dir true).
Proof.
  apply (build_dir_contents packaging_host "/w/build_webrtc" true false
           (start ios_tree "/")).
  - reflexivity.
  - intros p Hp a Ha. cbn [fs start] in *. unfold ios_tree in Hp.
    destruct (existsb _ _) eqn:E; [|contradiction].
    apply existsb_exists in E as (x & Hx & Hpx). apply String.eqb_eq in Hpx. subst x.
    cbn [In] in Hx. decompose [or] Hx; try contradiction; subst p;
      vm_compute in Ha; decompose [or] Ha; try contradiction; subst a; reflexivity.
  - intros n cmd env dir fs p Hp Hch. cbn [child packaging_host snd] in *.
    destruct (archive_name cmd) as [name|] eqn:Ea.
    + right. exists name. split; [reflexivity|].
      unfold overlay in Hch. cbn [List.find fst snd] in Hch.
      destruct (String.eqb_spec p (Py.path_join2 dir name)); [assumption | contradiction].
    + destruct (is_bundle_cmd cmd) eqn:Eb.
      * left. split; [reflexivity|].
        unfold overlay in Hch. cbn [List.find fst snd] in Hch.
        destruct (String.eqb_spec p "/w/build_webrtc/build/ios/WebRTC.xcframework");
          [subst p | contradiction].
        split; reflexivity.
      * exfalso. unfold overlay in Hch.
        destruct (List.find _ ios_outputs) as [e|] eqn:Ef; [|contradiction].
        apply find_some in Ef as [Hin He]. apply String.eqb_eq in He. subst p.
        vm_compute in Hin. decompose [or] Hin; try contradiction; subst e;
          vm_compute in Hp; discriminate Hp.
  - vm_compute. reflexivity.
Defined.

(** ** What a build leaves alone *)

Lemma run_leaves (h : host) (C p : string) (l : list step) :
  Forall (leaves h C p) l ->
  forall w, cwd w = C -> fs (run_steps h l w).1 p = fs w p.
Proof.
  induction 1 as [|s l Hs Hl IH]; intros w Hc; [reflexivity|].
  rewrite run_steps_cons. unfold bind.
  destruct (Hs w Hc) as [Hc1 Hp1].
  destruct (exec h s w) as [w1 [[]|e]]; cbn [fst snd] in *; [|exact Hp1].
  now rewrite (IH w1 Hc1).
Qed.

Section Leaves.

Variable h : host.
Variables B C p : string.

Hypothesis B_nonempty : B <> EmptyString.
Hypothesis B_name : Py.ends_with_slash B = false.
Hypothesis B_abs : Py.isabs B = true.
Hypothesis tools_leave : forall n cmd env dir fs, (child h n cmd env dir fs).2 p = fs p.
Hypothesis not_in_out : FS.under (FS.resolve C "out") p = false.
Hypothesis not_in_build : FS.under B p = false.
Hypothesis not_above_build : ~ In p (FS.ancestors B).

Lemma leaves_sh (cmd : string) (env : option (gmap string string))
    (cwd_arg : option string) :
  leaves h C p (SSh cmd env cwd_arg).
Proof using All.
  intros w Hc. cbn [exec]. rewrite sh_run. cbv zeta.
  destruct (_ && _)%bool; cbn [fst fs cwd]; (split; [exact Hc|]);
    [reflexivity | apply tools_leave].
Qed.

Lemma leaves_rmr (path : string) :
  FS.under (FS.resolve C path) p = false -> leaves h C p (SRmr path).
Proof using All.
  intros Hu w Hc. cbn [exec]. unfold rmr, try_except, shutil_rmtree, fs_call.
  cbn [fs_apply]. unfold FS.rmtree. rewrite Hc.
  destruct (fs w (FS.resolve C path)) as [[|]|]; cbn; rewrite ?Hu; now split.
Qed.

Lemma leaves_mkdirp (path : string) :
  p <> FS.resolve C path -> ~ In p (FS.ancestors (FS.resolve C path)) ->
  leaves h C p (SMkdirp path).
Proof using All.
  intros Hne Hanc w Hc. cbn [exec]. unfold mkdirp, try_except, os_makedirs, fs_call.
  cbn [fs_apply]. unfold FS.makedirs. rewrite Hc.
  destruct (FS.exists_ (fs w) _); [cbn; now split|].
  destruct (existsb _ (FS.ancestors _)) eqn:E0; [cbn; now split|].
  cbn. split; [reflexivity|].
  destruct (String.eqb_spec p (FS.resolve C path)); [contradiction|]. cbn [orb].
  destruct (existsb (String.eqb p) _) eqn:E; [|reflexivity].
  apply existsb_exists in E as (a & Ha & Hpa). apply String.eqb_eq in Hpa as <-.
  contradiction.
Qed.

Lemma leaves_fs (o : fsop) :
  fs_cwd o C = C ->
  (forall fs fs', fs_apply o C fs = inl fs' -> fs' p = fs p) ->
  leaves h C p (SFs o).
Proof using All.
  intros Hcwd Hsame w Hc. cbn [exec]. unfold fs_call. rewrite Hc.
  destruct (fs_apply o C (fs w)) as [fs'|e] eqn:E; cbn; [|now split].
  split; [exact Hcwd | exact (Hsame _ _ E)].
Qed.

Lemma leaves_copytree (src dst : string) :
  FS.under (FS.resolve C dst) p = false -> leaves h C p (SFs (Copytree src dst)).
Proof using All.
  intros Hu. apply leaves_fs; [reflexivity|]. cbn [fs_apply]. intros fs fs' E.
  destruct (node_eq_or_not (fs' p) (fs p)) as [H|H]; [exact H|].
  rewrite (copytree_changes _ _ _ _ E p H) in Hu. discriminate.
Qed.

Lemma leaves_move (src dst : string) :
  FS.under (FS.resolve C src) p = false -> FS.under (FS.resolve C dst) p = false ->
  leaves h C p (SFs (Move src dst)).
Proof using All.
  intros Hs Hd. apply leaves_fs; [reflexivity|]. cbn [fs_apply]. intros fs fs' E.
  destruct (node_eq_or_not (fs' p) (fs p)) as [H|H]; [exact H|].
  destruct (move_changes _ _ _ _ E p H); congruence.
Qed.

Lemma leaves_copy (src dst : string) :
  FS.under (FS.resolve C dst) p = false -> leaves h C p (SFs (Copy src dst)).
Proof using All.
  intros Hu. apply leaves_fs; [reflexivity|]. cbn [fs_apply]. intros fs fs' E.
  apply copy_changes in E as (real & Hreal & _ & Hfs). rewrite Hfs.
  destruct (String.eqb_spec p real) as [->|_]; [|reflexivity].
  exfalso. assert (Hr : FS.under (FS.resolve C dst) real = true).
  { rewrite Hreal. destruct (FS.isdir fs _); [|apply under_refl].
    apply under_join, basename_relative. }
  congruence.
Qed.

(** Below the output directory. *)
Lemma not_in_out_dir (rel : string) :
  String.prefix "out/" rel = true -> FS.under (FS.resolve C rel) p = false.
Proof using All.
  intros Hrel. destruct (FS.under (FS.resolve C rel) p) eqn:E; [|reflexivity].
  rewrite <- not_in_out. symmetry. refine (under_trans _ _ _ _ E).
  apply prefix_exists in Hrel as (rest & ->).
  unfold FS.resolve, Py.path_join2.
  replace (Py.isabs ("out/" +:+ rest)) with false by reflexivity.
  change (Py.isabs "out") with false. cbv iota.
  apply under_cases. right. exists rest.
  rewrite (slashed_app (Py.slashed C) "ut" "o") by reflexivity.
  rewrite !append_assoc. reflexivity.
Qed.

(** Below the build directory. *)
Lemma not_below_build (q : string) :
  FS.under B q = true -> FS.under (FS.resolve C q) p = false.
Proof using All.
  intros Hq. destruct (FS.under (FS.resolve C q) p) eqn:E; [|reflexivity].
  assert (Habs : Py.isabs q = true).
  { apply under_split in Hq as (rest & ->). now apply (isabs_below B B_nonempty B_name B_abs). }
  rewrite (resolve_abs C q Habs) in E.
  rewrite <- not_in_build. symmetry. exact (under_trans _ _ _ Hq E).
Qed.

Lemma leaves_mkdirp_build : leaves h C p (SMkdirp B).
Proof using All.
  apply leaves_mkdirp; rewrite (resolve_abs C B B_abs); [|exact not_above_build].
  intros ->. now rewrite under_refl in not_in_build.
Qed.

Lemma leaves_mkdirp_stage (name : string) :
  has_char "/" name = false ->
  leaves h C p (SMkdirp ((B +:+ "/lib") +:+ String "/" name)).
Proof using All.
  intros Hname.
  apply leaves_mkdirp; rewrite (resolve_abs C _ (isabs_staged B B_nonempty B_name B_abs _)).
  - intros ->. now rewrite (staged_is_below B B_nonempty B_name B_abs) in not_in_build.
  - rewrite (staged_ancestors B B_nonempty B_name B_abs name Hname).
    intros Hin. apply in_app_iff in Hin as [Hin|[<-|[<-|[]]]].
    + contradiction.
    + now rewrite under_refl in not_in_build.
    + now rewrite (under_below B B_nonempty B_name B_abs) in not_in_build.
Qed.

Lemma prepare_leaves (D : BuildTarget -> string) (debug : bool)
    (env : gmap string string) (ts : list BuildTarget) :
  Forall (leaves h C p)
    (SRmr "out" :: map (generate_step D debug env) ts ++ map (compile_step D env) ts).
Proof using All.
  apply List.Forall_cons; [apply leaves_rmr, not_in_out|].
  apply Forall_app; split; apply List.Forall_map, Forall_forall; intros t _;
    apply leaves_sh.
Qed.

Lemma clean_leaves : Forall (leaves h C p) [SRmr B; SMkdirp B].
Proof using All.
  apply List.Forall_cons; [|apply List.Forall_cons; [|apply List.Forall_nil]].
  - apply leaves_rmr, not_below_build, under_refl.
  - apply leaves_mkdirp_build.
Qed.

Lemma ios_leaves (debug : bool) :
  Forall (leaves h C p)
    (assemble_ios (outputDirName (build_type_name debug)) B (targets "ios")).
Proof using All.
  unfold assemble_ios.
  let l := eval vm_compute in (List.filter is_simulator (targets "ios")) in
  change (List.filter is_simulator (targets "ios")) with l.
  cbv beta iota zeta.
  assert (Hrm : leaves h C p (SRmr (Py.path_join B ["WebRTC.xcframework"]))).
  { apply leaves_rmr, not_below_build.
    exact (under_transient B B_nonempty B_name B_abs true). }
  apply Forall_app; split; [|apply Forall_app; split].
  - repeat (apply List.Forall_cons; [|]); [..|apply List.Forall_nil].
    + apply leaves_copytree, not_in_out_dir. now destruct debug.
    + apply leaves_sh.
    + apply leaves_move; apply not_in_out_dir; now destruct debug.
    + apply leaves_move; apply not_in_out_dir; now destruct debug.
    + apply leaves_sh.
    + apply leaves_sh.
    + exact Hrm.
  - apply List.Forall_map, Forall_forall; intros t _. apply leaves_sh.
  - repeat (apply List.Forall_cons; [|]); [..|apply List.Forall_nil];
      [apply leaves_sh | apply leaves_sh | exact Hrm].
Qed.

Lemma android_leaves (D : BuildTarget -> string) :
  Forall (leaves h C p) (assemble_android D B (targets "android")).
Proof using All.
  unfold assemble_android.
  let l := eval vm_compute in (targets "android") in
  change (targets "android") with l.
  cbv beta iota zeta.
  apply Forall_app; split; [|apply Forall_app; split].
  - apply List.Forall_cons; [|apply List.Forall_nil].
    apply leaves_copy, not_below_build, under_refl.
  - apply Forall_concat, List.Forall_map, Forall_forall. intros t _.
    unfold stage_steps.
    destruct (ANDROID_CPU_ABI_MAP !! architecture t) as [abi|] eqn:E;
      [|apply List.Forall_nil].
    destruct (abi_names _ _ E) as [Hne Hsep].
    assert (Hrel : Py.isabs abi = false).
    { destruct abi as [|c s]; [reflexivity|]. unfold Py.isabs.
      rewrite prefix_cons, prefix_nil_l, andb_true_r. cbn in Hsep.
      apply orb_false_iff in Hsep as [Hc _]. now rewrite Ascii.eqb_sym. }
    rewrite (join_lib B B_nonempty B_name B_abs abi Hrel).
    apply List.Forall_cons; [|apply List.Forall_cons; [|apply List.Forall_nil]].
    + now apply leaves_mkdirp_stage.
    + apply leaves_copy, not_below_build, (staged_is_below B B_nonempty B_name B_abs).
  - repeat (apply List.Forall_cons; [|]); [..|apply List.Forall_nil].
    + apply leaves_sh.
    + apply leaves_rmr, not_below_build.
      exact (under_transient B B_nonempty B_name B_abs false).
    + apply leaves_sh.
Qed.

End Leaves.

(** X18: apart from what its tools do, a build writes in two places
    only, the output directory [out] of the source tree and the build
    directory (with the ancestors of the build directory that are
    missing): a path elsewhere that the tools leave alone is after the
    build as it was before, whether the build completes or not. *)
Theorem build_writes_only (h : host) (target_dir : string) (ios debug : bool)
    (w : world) (p : string) :
  let build_dir := Py.path_join target_dir ["build"; platform_name ios] in
  let out_dir := Py.path_join target_dir ["webrtc"; platform_name ios; "src"; "out"] in
  Py.isabs target_dir = true ->
  (forall n cmd env dir fs, (child h n cmd env dir fs).2 p = fs p) ->
  FS.under out_dir p = false ->
  FS.under build_dir p = false ->
  ~ In p (FS.ancestors build_dir) ->
  fs (build h target_dir (platform_name ios) debug w).1 p = fs w p.
Proof.
  intros B out Habs Htools Hout HB Hanc.
  rewrite build_runs_plan. unfold planned_build. cbv zeta.
  destruct (FS.isdir (fs w) _); [|reflexivity].
  destruct (prepare_env h _ _ _ w) as [w0 [env|e]]; [|reflexivity].
  set (C := Py.path_join target_dir ["webrtc"; platform_name ios; "src"]).
  change out with (FS.resolve C "out") in Hout.
  assert (HBne : B <> EmptyString).
  { subst B. rewrite build_dir_path. destruct (Py.slashed target_dir); discriminate. }
  assert (HBname : Py.ends_with_slash B = false).
  { subst B. rewrite build_dir_path, ends_with_slash_app. now destruct ios. }
  assert (HBabs : Py.isabs B = true).
  { subst B. rewrite build_dir_path. now apply below_target_abs. }
  assert (HCabs : Py.isabs C = true).
  { subst C. rewrite webrtc_dir_path. now apply below_target_abs. }
  unfold build_plan. cbv zeta. fold B C. cbn [app].
  rewrite run_steps_cons. unfold bind. cbn [exec]. unfold fs_call at 1.
  cbn [fs_apply fs_cwd]. rewrite (resolve_abs _ C HCabs).
  destruct (FS.isdir (fs w) C); [|reflexivity].
  match goal with |- fs (run_steps h ?l ?w1).1 p = _ =>
    change (fs w p) with (fs w1 p);
    apply (run_leaves h C p l); [|reflexivity]
  end.
  rewrite (app_assoc (map _ _)), app_comm_cons.
  apply Forall_app; split; [apply (prepare_leaves h B C p HBne HBname HBabs Htools Hout HB Hanc)|].
  apply (proj2 (Forall_app _ [SRmr B; SMkdirp B] _)); split;
    [apply (clean_leaves h B C p HBne HBname HBabs Htools Hout HB Hanc)|].
  destruct ios; cbn [platform_name String.eqb Ascii.eqb Bool.eqb].
  - apply (ios_leaves h B C p HBne HBname HBabs Htools Hout HB Hanc).
  - apply (android_leaves h B C p HBne HBname HBabs Htools Hout HB Hanc).
Qed.

Lemma build_writes_only_witness :
  let p := "/w/build_webrtc/webrtc/ios/src/BUILD.gn" in
  fs (build ios_tools_host "/w/build_webrtc" (platform_name true) false
        (start (overlay [(p, File)] ios_tree) "/")).1 p
  = fs (start (overlay [(p, File)] ios_tree) "/") p.
Proof.
  apply (build_writes_only ios_tools_host "/w/build_webrtc" true false
           (start (overlay [("/w/build_webrtc/webrtc/ios/src/BUILD.gn", File)] ios_tree) "/")
           "/w/build_webrtc/webrtc/ios/src/BUILD.gn").
  - reflexivity.
  - intros n cmd env dir fs. reflexivity.
  - reflexivity.
  - reflexivity.
  - vm_compute. intros H. decompose [or] H; try contradiction; discriminate.
Defined.

(** ** The values of the flags *)

Lemma flag_set_composed (flags : list string) :
  flags <> [] -> Forall clean_flag flags ->
  flag_set ("--args='" +:+ Py.join " " flags +:+ "'") = flags.
Proof.
  intros Hne Hall. unfold flag_set.
  rewrite drop_prefix_app.
  change (Py.join " " flags +:+ "'") with (Py.join " " flags +:+ String "'" EmptyString).
  rewrite split_app.
  - apply (split_join " " flags Hne). eapply Forall_impl; [exact Hall|]. now intros f [H _].
  - apply has_char_join; [reflexivity|]. eapply Forall_impl; [exact Hall|]. now intros f [_ H].
Qed.

Lemma clean_flag_app (a b : string) : clean_flag a -> clean_flag b -> clean_flag (a +:+ b).
Proof.
  intros [Ha1 Ha2] [Hb1 Hb2]. split; now rewrite has_char_app, ?Ha1, ?Ha2, ?Hb1, ?Hb2.
Qed.

Ltac clean_flags :=
  repeat (apply List.Forall_cons; [|]); [..|apply List.Forall_nil];
  repeat (apply clean_flag_app); try assumption; split; reflexivity.

Ltac composed_string :=
  unfold Py.join; cbn [String.concat]; rewrite !append_assoc; vm_compute; reflexivity.

(** X19: the values given to a flag template fill its placeholders in
    table order: in the flags of a generate command the first value is
    the value of [is_debug], the second the value of [target_cpu] and, for
    iOS, the third the value of [target_environment]; every other flag
    is the table entry as it stands.  This is so for values without
    space or quote. *)
Theorem flags_substituted (debug arch tenv : string) :
  clean_flag debug -> clean_flag arch -> clean_flag tenv ->
  flag_set (Py.fmt GN_IOS_ARGS [debug; arch; tenv])
  = [ "treat_warnings_as_errors=false"; "is_component_build=false";
      "rtc_libvpx_build_vp9=true";
      "is_debug=" +:+ debug;
      "target_cpu=" +:+ DQ +:+ arch +:+ DQ;
      "enable_dsyms=true"; "rtc_include_tests=false";
      "enable_ios_bitcode=true";
      "ios_deployment_target=" +:+ DQ +:+ "11.0" +:+ DQ;
      "ios_enable_code_signing=false";
      "target_os=" +:+ DQ +:+ "ios" +:+ DQ;
      "use_xcode_clang=true";
      "target_environment=" +:+ DQ +:+ tenv +:+ DQ ] /\
  flag_set (Py.fmt GN_MACOS_ARGS [debug; arch])
  = [ "treat_warnings_as_errors=false"; "is_component_build=false";
      "rtc_libvpx_build_vp9=true";
      "is_debug=" +:+ debug;
      "target_cpu=" +:+ DQ +:+ arch +:+ DQ;
      "enable_dsyms=true"; "rtc_include_tests=false";
      "target_os=" +:+ DQ +:+ "mac" +:+ DQ;
      "use_xcode_clang=false" ] /\
  flag_set (Py.fmt GN_ANDROID_ARGS [debug; arch])
  = [ "treat_warnings_as_errors=false"; "is_component_build=false";
      "rtc_libvpx_build_vp9=true";
      "is_debug=" +:+ debug;
      "target_cpu=" +:+ DQ +:+ arch +:+ DQ;
      "target_os=" +:+ DQ +:+ "android" +:+ DQ ].
Proof.
  intros Hd Ha Ht.
  split; [|split];
    match goal with |- flag_set _ = ?flags =>
      transitivity (flag_set ("--args='" +:+ Py.join " " flags +:+ "'"));
        [f_equal; composed_string
        | apply flag_set_composed; [discriminate | clean_flags]]
    end.
Qed.

Lemma flags_substituted_witness :
  flag_set (Py.fmt GN_IOS_ARGS ["true"; "arm64"; "simulator"])
  = [ "treat_warnings_as_errors=false"; "is_component_build=false";
      "rtc_libvpx_build_vp9=true";
      "is_debug=" +:+ "true";
      "target_cpu=" +:+ DQ +:+ "arm64" +:+ DQ;
      "enable_dsyms=true"; "rtc_include_tests=false";
      "enable_ios_bitcode=true";
      "ios_deployment_target=" +:+ DQ +:+ "11.0" +:+ DQ;
      "ios_enable_code_signing=false";
      "target_os=" +:+ DQ +:+ "ios" +:+ DQ;
      "use_xcode_clang=true";
      "target_environment=" +:+ DQ +:+ "simulator" +:+ DQ ] /\
  flag_set (Py.fmt GN_MACOS_ARGS ["true"; "arm64"])
  = [ "treat_warnings_as_errors=false"; "is_component_build=false";
      "rtc_libvpx_build_vp9=true";
      "is_debug=" +:+ "true";
      "target_cpu=" +:+ DQ +:+ "arm64" +:+ DQ;
      "enable_dsyms=true"; "rtc_include_tests=false";
      "target_os=" +:+ DQ +:+ "mac" +:+ DQ;
      "use_xcode_clang=false" ] /\
  flag_set (Py.fmt GN_ANDROID_ARGS ["true"; "arm64"])
  = [ "treat_warnings_as_errors=false"; "is_component_build=false";
      "rtc_libvpx_build_vp9=true";
      "is_debug=" +:+ "true";
      "target_cpu=" +:+ DQ +:+ "arm64" +:+ DQ;
      "target_os=" +:+ DQ +:+ "android" +:+ DQ ].
Proof.
  apply (flags_substituted "true" "arm64" "simulator"); split; reflexivity.
Defined.

(** ** [setup] without a search path *)

Lemma setup_env_missing (h : host) (d : string) (w : world) :
  environ h !! "PATH" = None -> setup_env h d w = (w, Raise (KeyError "PATH")).
Proof. intros H. unfold setup_env, bind, expect. now rewrite H. Qed.

Ltac spawn_step :=
  cbv beta zeta;
  lazymatch goal with
  | |- spawns_within _ (sh _ _ _ _) => apply sw_sh
  | |- spawns_within _ (mkdirp _) => apply sw_mkdirp
  | |- spawns_within _ (os_chdir _) => apply sw_fs_call
  | |- spawns_within _ (os_path_isdir _) => apply sw_isdir
  | |- spawns_within _ (print _) => apply sw_print
  | |- spawns_within _ (bind _ _) => apply sw_bind; [|intros]
  | |- spawns_within _ (when _ _) => apply sw_when
  end.

(** X20: with no PATH in the environment [setup] never completes, but
    unlike [build] and [sync] it fails late: the environment is read
    after the depot_tools check, so the only command that may have been
    spawned by then is the clone of depot_tools, and it is spawned when
    the target directory is there and depot_tools is not. *)
Theorem setup_missing_search_path (h : host) (target_dir platform : string) (w : world) :
  environ h !! "PATH" = None ->
  (setup h target_dir platform w).2 <> Ret tt /\
  exists evs,
    log (setup h target_dir platform w).1 = log w ++ evs /\
    spawned_cmds evs `sublist_of` [clone_cmd] /\
    (FS.isdir (fs w) (FS.resolve (cwd w) target_dir) = true ->
     FS.isdir (fs w)
       (FS.resolve (FS.resolve (cwd w) target_dir)
          (Py.path_join target_dir ["depot_tools"])) = false ->
     spawned_cmds evs = [clone_cmd]).
Proof.
  intros Hpath. split.
  - destruct (setup h target_dir platform w) as [w' r] eqn:E. cbn [snd]. intros ->.
    unfold setup in E. cbv zeta in E.
    apply bind_Ret_inv in E as (w1 & [] & _ & E).
    apply bind_Ret_inv in E as (w2 & [] & _ & E).
    apply bind_Ret_inv in E as (w3 & isd & _ & E).
    apply bind_Ret_inv in E as (w4 & [] & _ & E).
    apply bind_Ret_inv in E as (w5 & env & E & _).
    rewrite (setup_env_missing h _ w4 Hpath) in E. discriminate E.
  - assert (Hsw : spawns_within [clone_cmd] (setup h target_dir platform)).
    { change [clone_cmd] with ([] ++ [] ++ [] ++ ([] ++ [clone_cmd]) ++ @nil string).
      unfold setup.
      do 4 (spawn_step; [repeat spawn_step|]).
      apply sw_silent. intros w0. unfold bind at 1.
      now rewrite (setup_env_missing h _ w0 Hpath). }
    destruct (Hsw w) as (evs & Hlog & Hsub). exists evs.
    split; [exact Hlog|]. split; [exact Hsub|].
    intros Hdir Hdepot.
    assert (Hex : FS.exists_ (fs w) (FS.resolve (cwd w) target_dir) = true).
    { unfold FS.isdir in Hdir. unfold FS.exists_.
      now destruct (fs w (FS.resolve (cwd w) target_dir)). }
    assert (Hrun : exists r,
              log (setup h target_dir platform w).1
              = log w ++ [ EvFs (Makedirs target_dir) (Some EEXIST);
                           EvFs (Chdir target_dir) None;
                           EvPrint "Fetching Chromium depot_tools...";
                           sh_line clone_cmd;
                           EvSpawn clone_cmd (environ h) (FS.resolve (cwd w) target_dir) r ]).
    { unfold setup. cbv zeta. unfold bind at 1.
      rewrite (mkdirp_existing target_dir w Hex).
      unfold bind at 1. unfold os_chdir, fs_call at 1. cbn [fs_apply fs fs_cwd cwd log spawned].
      rewrite Hdir.
      unfold bind at 1. unfold os_path_isdir at 1. cbn [fs cwd]. rewrite Hdepot.
      cbn [negb when]. unfold bind at 1. unfold bind at 1. unfold print at 1.
      rewrite sh_run. cbv zeta. cbn [bool_decide from_option fs cwd log spawned andb].
      change (bool_decide (is_Some (@None string))) with false. cbn [andb].
      match goal with |- context [child h ?n ?c ?e ?d ?f] =>
        exists (child h n c e d f).1; destruct (child h n c e d f) as [[rc|] fs']
      end; cbn [fst snd].
      + destruct (Z.eqb rc 0); [|cbn [log fst]; rewrite <- !app_assoc; reflexivity].
        unfold bind at 1. rewrite (setup_env_missing h _ _ Hpath).
        cbn [log fst]. rewrite <- !app_assoc. reflexivity.
      + unfold bind at 1. rewrite (setup_env_missing h _ _ Hpath).
        cbn [log fst]. rewrite <- !app_assoc. reflexivity. }
    destruct Hrun as (r & Hrun). rewrite Hlog in Hrun.
    apply app_inv_head in Hrun. now rewrite Hrun.
Qed.

Lemma setup_missing_search_path_witness :
  (setup (Host ∅ (fun _ _ _ _ fs => (Exited 0, fs)) id) "/w" "ios"
     (start android_tree "/")).2 <> Ret tt /\
  exists evs,
    log (setup (Host ∅ (fun _ _ _ _ fs => (Exited 0, fs)) id) "/w" "ios"
           (start android_tree "/")).1
    = log (start android_tree "/") ++ evs /\
    spawned_cmds evs `sublist_of` [clone_cmd] /\
    (FS.isdir (fs (start android_tree "/"))
       (FS.resolve (cwd (start android_tree "/")) "/w") = true ->
     FS.isdir (fs (start android_tree "/"))
       (FS.resolve (FS.resolve (cwd (start android_tree "/")) "/w")
          (Py.path_join "/w" ["depot_tools"])) = false ->
     spawned_cmds evs = [clone_cmd]).
Proof.
  apply (setup_missing_search_path (Host ∅ (fun _ _ _ _ fs => (Exited 0, fs)) id)
           "/w" "ios" (start android_tree "/")).
  reflexivity.
Defined.

(** ** The packages of a build *)

Lemma run_carries (h : host) (C : string) (P Q : fs_t -> Prop) (l : list step) :
  Forall (keeps h C P) l -> Forall (carries h C P Q) l ->
  forall w w', cwd w = C -> P (fs w) -> Q (fs w) -> run_steps h l w = (w', Ret tt) ->
    cwd w' = C /\ P (fs w') /\ Q (fs w').
Proof.
  induction l as [|s l IH]; intros HP HQ w w' Hc Hp Hq Hrun.
  - injection Hrun as <-. now repeat split.
  - apply List.Forall_cons_iff in HP as [Hs Hl].
    apply List.Forall_cons_iff in HQ as [Hs' Hl'].
    apply run_steps_cons_inv in Hrun as (w1 & Hstep & Hrest).
    destruct (Hs w w1 Hc Hp Hstep) as [Hc1 Hp1].
    exact (IH Hl Hl' w1 w' Hc1 Hp1 (Hs' w w1 Hc Hp Hq Hstep) Hrest).
Qed.

Section PackagePaths.

Variable B : string.

Hypothesis B_nonempty : B <> EmptyString.
Hypothesis B_name : Py.ends_with_slash B = false.
Hypothesis B_abs : Py.isabs B = true.

Lemma package_below (ios : bool) (a : string) : In a (packages B ios) -> FS.under B a = true.
Proof using All.
  destruct ios; cbn [packages In];
    rewrite !(join_name B B_nonempty B_name B_abs) by reflexivity;
    intros H; decompose [or] H; try contradiction; subst a;
    apply (under_below B B_nonempty B_name B_abs).
Qed.

Lemma package_outside_transient (ios : bool) (a : string) :
  In a (packages B ios) -> FS.under (transient_dir B ios) a = false.
Proof using All.
  destruct ios; cbn [packages transient_dir In];
    rewrite !(join_name B B_nonempty B_name B_abs) by reflexivity;
    intros H; decompose [or] H; try contradiction; subst a;
    unfold FS.under;
    match goal with |- context [Py.slashed (B +:+ String ?c ?s)] =>
      rewrite (slashed_app B s c) by reflexivity
    end;
    rewrite eqb_app_cancel, prefix_app_cancel; reflexivity.
Qed.

Lemma package_outside_bundle (ios : bool) (a : string) :
  In a (packages B ios) -> FS.under (Py.path_join B ["WebRTC.xcframework"]) a = false.
Proof using All.
  destruct ios; cbn [packages In];
    rewrite !(join_name B B_nonempty B_name B_abs) by reflexivity;
    intros H; decompose [or] H; try contradiction; subst a;
    unfold FS.under;
    match goal with |- context [Py.slashed (B +:+ String ?c ?s)] =>
      rewrite (slashed_app B s c) by reflexivity
    end;
    rewrite eqb_app_cancel, prefix_app_cancel; reflexivity.
Qed.

Lemma package_outside_lib (ios : bool) (a : string) :
  In a (packages B ios) -> FS.under (B +:+ "/lib") a = false.
Proof using All.
  destruct ios; cbn [packages In];
    rewrite !(join_name B B_nonempty B_name B_abs) by reflexivity;
    intros H; decompose [or] H; try contradiction; subst a;
    unfold FS.under; rewrite (slashed_app B "lib" "/") by reflexivity;
    rewrite eqb_app_cancel, prefix_app_cancel; reflexivity.
Qed.

End PackagePaths.

(** C9: when a build completes, the build directory holds only final
    packages, and nothing is left of the transient directory of the
    assembly, the bundle directory for iOS and the ABI staging tree for
    Android, nor of anything in it.  In the log, for iOS each of the two
    archive commands is followed at once by the removal of the bundle
    directory, and the second removal is the last event; for Android the
    jar command that packs the staging tree is followed at once by the
    removal of the tree, and only the last archive command follows it.
    This is so for an absolute target directory, on a file system that
    is a tree, with tools that change nothing below the build directory
    but what they are asked for: the bundler the bundle directory, an
    archiver its archive. *)
Theorem transient_dirs_removed (h : host) (target_dir : string) (ios debug : bool)
    (fs0 : fs_t) (cwd0 : string) :
  let run := build h target_dir (platform_name ios) debug (start fs0 cwd0) in
  let build_dir := Py.path_join target_dir ["build"; platform_name ios] in
  let xcframework_path := Py.path_join build_dir ["WebRTC.xcframework"] in
  let lib := Py.path_join build_dir ["lib"] in
  Py.isabs target_dir = true ->
  is_tree fs0 ->
  tools_write_outputs h build_dir ->
  run.2 = Ret tt ->
  (fs run.1 build_dir = Some Dir /\
   forall p, FS.under build_dir p = true -> fs run.1 p <> None ->
     p = build_dir \/ In p (packages build_dir ios)) /\
  (forall p, FS.under (transient_dir build_dir ios) p = true -> fs run.1 p = None) /\
  if ios then
    (exists env1 d1 x1 err1,
       log run.1 !! 28%nat = Some (EvSpawn bitcode_archive_cmd env1 d1 x1) /\
       log run.1 !! 29%nat = Some (EvFs (Rmtree xcframework_path) err1)) /\
    (exists env2 d2 x2 err2,
       log run.1 !! 37%nat = Some (EvSpawn stripped_archive_cmd env2 d2 x2) /\
       log run.1 !! 38%nat = Some (EvFs (Rmtree xcframework_path) err2)) /\
    length (log run.1) = 39%nat
  else
    (exists env1 d1 x1 err1,
       log run.1 !! 30%nat = Some (EvSpawn jar_cmd env1 d1 x1) /\
       log run.1 !! 31%nat = Some (EvFs (Rmtree lib) err1)) /\
    (exists env2 d2 x2,
       log run.1 !! 33%nat = Some (EvSpawn android_archive_cmd env2 d2 x2)) /\
    length (log run.1) = 34%nat.
Proof.
  intros run B xcframework_path lib Habs Htree Htools Hret.
  assert (HBne : B <> EmptyString).
  { subst B. rewrite build_dir_path by exact Habs.
    destruct (Py.slashed target_dir); discriminate. }
  assert (HBname : Py.ends_with_slash B = false).
  { subst B. rewrite build_dir_path, ends_with_slash_app by exact Habs. now destruct ios. }
  assert (HBabs : Py.isabs B = true).
  { subst B. rewrite build_dir_path by exact Habs. now apply below_target_abs. }
  pose proof (build_leaves_packages h target_dir ios debug (start fs0 cwd0)
                Habs Htree Htools Hret) as Hpk.
  cbv zeta in Hpk. fold run B in Hpk.
  split; [exact Hpk|]. split.
  - intros p Hp. destruct (fs run.1 p) as [nd|] eqn:E; [exfalso | reflexivity].
    assert (Hex : fs run.1 p <> None) by (rewrite E; discriminate).
    assert (Hunder : FS.under B p = true)
      by exact (under_trans _ _ _ (under_transient B HBne HBname HBabs ios) Hp).
    destruct (proj2 Hpk p Hunder Hex) as [->|Hin].
    + rewrite (transient_not_above B HBne HBname HBabs ios) in Hp. discriminate Hp.
    + rewrite (package_outside_transient B HBne HBname HBabs ios p Hin) in Hp.
      discriminate Hp.
  - pose proof (transient_removal_events h target_dir ios debug fs0 cwd0 Hret) as Hev.
    cbv zeta in Hev. fold run B xcframework_path lib in Hev.
    destruct ios.
    + destruct Hev as (H1 & H2 & H3 & _). now repeat split.
    + destruct Hev as (H1 & H2 & H3 & _). now repeat split.
Qed.

Lemma transient_dirs_removed_witness :
  let ios_run := build packaging_host "/w/build_webrtc" (platform_name true) false
                   (start ios_tree "/") in
  let ios_dir := Py.path_join "/w/build_webrtc" ["build"; platform_name true] in
  let xcframework_path := Py.path_join ios_dir ["WebRTC.xcframework"] in
  let android_run := build android_packaging_host "/w/build_webrtc" (platform_name false)
                       false (start android_tree "/") in
  let android_dir := Py.path_join "/w/build_webrtc" ["build"; platform_name false] in
  let lib := Py.path_join android_dir ["lib"] in
  ((fs ios_run.1 ios_dir = Some Dir /\
    forall p, FS.under ios_dir p = true -> fs ios_run.1 p <> None ->
      p = ios_dir \/ In p (packages ios_dir true)) /\
   (forall p, FS.under (transient_dir ios_dir true) p = true -> fs ios_run.1 p = None) /\
   (exists env1 d1 x1 err1,
      log ios_run.1 !! 28%nat = Some (EvSpawn bitcode_archive_cmd env1 d1 x1) /\
      log ios_run.1 !! 29%nat = Some (EvFs (Rmtree xcframework_path) err1)) /\
   (exists env2 d2 x2 err2,
      log ios_run.1 !! 37%nat = Some (EvSpawn stripped_archive_cmd env2 d2 x2) /\
      log ios_run.1 !! 38%nat = Some (EvFs (Rmtree xcframework_path) err2)) /\
   length (log ios_run.1) = 39%nat) /\
  ((fs android_run.1 android_dir = Some Dir /\
    forall p, FS.under android_dir p = true -> fs android_run.1 p <> None ->
      p = android_dir \/ In p (packages android_dir false)) /\
   (forall p, FS.under (transient_dir android_dir false) p = true ->
      fs android_run.1 p = None) /\
   (exists env1 d1 x1 err1,
      log android_run.1 !! 30%nat = Some (EvSpawn jar_cmd env1 d1 x1) /\
      log android_run.1 !! 31%nat = Some (EvFs (Rmtree lib) err1)) /\
   (exists env2 d2 x2,
      log android_run.1 !! 33%nat = Some (EvSpawn android_archive_cmd env2 d2 x2)) /\
   length (log android_run.1) = 34%nat) /\
  (log ios_run.1 !! 26%nat
   = Some (EvSpawn
             ("xcodebuild -create-xcframework -output "
                +:+ "/w/build_webrtc/build/ios/WebRTC.xcframework"
                +:+ " -framework out/Release-ios-device-arm64/WebRTC.framework"
                +:+ " -framework out/Release-ios-simulator-arm64/WebRTC.framework"
                +:+ " -framework out/Release-macos-x64/WebRTC.framework")
             (environ packaging_host) "/w/build_webrtc/webrtc/ios/src" (Exited 0)) /\
   log ios_run.1 !! 29%nat = Some (EvFs (Rmtree xcframework_path) None) /\
   log ios_run.1 !! 38%nat = Some (EvFs (Rmtree xcframework_path) None) /\
   map (fs ios_run.1) (packages ios_dir true) = [Some File; Some File]) /\
  (log android_run.1 !! 27%nat
   = Some (EvFs (Makedirs "/w/build_webrtc/build/android/lib/x86_64") None) /\
   log android_run.1 !! 28%nat
   = Some (EvFs (Copy "out/Release-x64/libjingle_peerconnection_so.so"
                      "/w/build_webrtc/build/android/lib/x86_64") None) /\
   log android_run.1 !! 31%nat = Some (EvFs (Rmtree lib) None) /\
   map (fs android_run.1) (packages android_dir false) = [Some File; Some File; Some File]).
Proof.
  intros ios_run ios_dir xcframework_path android_run android_dir lib.
  assert (Hdirs : forall (fs0 : fs_t) (l : list string),
            (forall p, fs0 p <> None -> In p l) ->
            forallb (fun p => forallb (fun a => match fs0 a with Some Dir => true | _ => false end)
                                (FS.ancestors p)) l = true ->
            is_tree fs0).
  { intros fs0 l Hl Hall p Hp a Ha.
    rewrite forallb_forall in Hall. specialize (Hall p (Hl p Hp)).
    rewrite forallb_forall in Hall. specialize (Hall a Ha).
    destruct (fs0 a) as [[|]|]; first [reflexivity | discriminate Hall]. }
  split; [|split; [|split]].
  - apply (transient_dirs_removed packaging_host "/w/build_webrtc" true false ios_tree "/").
    + reflexivity.
    + apply (Hdirs ios_tree
               [ "/"; "/w"; "/w/build_webrtc"; "/w/build_webrtc/webrtc";
                 "/w/build_webrtc/webrtc/ios"; "/w/build_webrtc/webrtc/ios/src" ]);
        [|vm_compute; reflexivity].
      intros p Hp. unfold ios_tree in Hp.
      destruct (existsb _ _) eqn:E; [|contradiction].
      apply existsb_exists in E as (x & Hx & Hpx). apply String.eqb_eq in Hpx. now subst x.
    + intros n cmd env dir fs p Hp Hch. cbn [child packaging_host snd] in *.
      destruct (archive_name cmd) as [name|] eqn:Ea.
      * right. exists name. split; [reflexivity|].
        unfold overlay in Hch. cbn [List.find fst snd] in Hch.
        destruct (String.eqb_spec p (Py.path_join2 dir name)); [assumption | contradiction].
      * destruct (is_bundle_cmd cmd) eqn:Eb.
        -- left. split; [reflexivity|].
           unfold overlay in Hch. cbn [List.find fst snd] in Hch.
           destruct (String.eqb_spec p "/w/build_webrtc/build/ios/WebRTC.xcframework");
             [subst p | contradiction].
           split; reflexivity.
        -- exfalso. unfold overlay in Hch.
           destruct (List.find _ ios_outputs) as [e|] eqn:Ef; [|contradiction].
           apply find_some in Ef as [Hin He]. apply String.eqb_eq in He. subst p.
           vm_compute in Hin. decompose [or] Hin; try contradiction; subst e;
             vm_compute in Hp; discriminate Hp.
    + vm_compute. reflexivity.
  - apply (transient_dirs_removed android_packaging_host "/w/build_webrtc" false false
             android_tree "/").
    + reflexivity.
    + apply (Hdirs android_tree
               [ "/"; "/w"; "/w/build_webrtc"; "/w/build_webrtc/webrtc";
                 "/w/build_webrtc/webrtc/android"; "/w/build_webrtc/webrtc/android/src" ]);
        [|vm_compute; reflexivity].
      intros p Hp. unfold android_tree in Hp.
      destruct (existsb _ _) eqn:E; [|contradiction].
      apply existsb_exists in E as (x & Hx & Hpx). apply String.eqb_eq in Hpx. now subst x.
    + intros n cmd env dir fs p Hp Hch. cbn [child android_packaging_host snd] in *.
      destruct (archive_name cmd) as [name|] eqn:Ea.
      * right. exists name. split; [reflexivity|].
        unfold overlay in Hch. cbn [List.find fst snd] in Hch.
        destruct (String.eqb_spec p (Py.path_join2 dir name)); [assumption | contradiction].
      * exfalso. unfold overlay in Hch.
        destruct (List.find _ android_outputs) as [e|] eqn:Ef; [|contradiction].
        apply find_some in Ef as [Hin He]. apply String.eqb_eq in He. subst p.
        vm_compute in Hin. decompose [or] Hin; try contradiction; subst e;
          vm_compute in Hp; discriminate Hp.
    + vm_compute. reflexivity.
  - repeat split; vm_compute; reflexivity.
  - repeat split; vm_compute; reflexivity.
Defined.

Section Delivery.

Variable h : host.
Variables B C : string.
Variable ios : bool.

Hypothesis B_nonempty : B <> EmptyString.
Hypothesis B_name : Py.ends_with_slash B = false.
Hypothesis B_abs : Py.isabs B = true.
Hypothesis tools : tools_write_outputs h B.
Hypothesis outside :
  forall rel p, Py.isabs rel = false ->
    FS.under (FS.resolve C rel) p = true -> FS.under B p = false.
Hypothesis deliver : archivers_deliver h.

Variable l : list string.
Hypothesis l_packages : incl l (packages B ios).

Lemma carries_quiet (P : fs_t -> Prop) (s : step) :
  quiet_below h B C s -> carries h C P (delivered l) s.
Proof using All.
  intros Hq w w' Hc _ Hd Hrun p Hp.
  destruct (Hq w w' Hc Hrun) as [_ Hsame].
  rewrite (Hsame p (package_below B B_nonempty B_name B_abs ios p (l_packages p Hp))). exact (Hd p Hp).
Qed.

Lemma carries_bundle (P : fs_t -> Prop) (cmd : string)
    (env : option (gmap string string)) (cwd_arg : option string) :
  archive_name cmd = None ->
  carries h C P (delivered l) (SSh cmd env cwd_arg).
Proof using All.
  intros Ha w w' Hc _ Hd Hrun p Hp. cbn [exec] in Hrun.
  apply (sh_effect h) in Hrun as (_ & n & env' & Hfs).
  destruct (node_eq_or_not (fs w' p) (fs w p)) as [E|E]; [rewrite E; exact (Hd p Hp)|].
  exfalso. rewrite Hfs in E.
  destruct (tools _ _ _ _ _ _ (package_below B B_nonempty B_name B_abs ios p (l_packages p Hp)) E)
    as [(Hb & Hu & _)|(name & Ha' & _)]; [|congruence].
  pose proof (package_outside_bundle B B_nonempty B_name B_abs ios p (l_packages p Hp)) as Hout. congruence.
Qed.

Lemma carries_rmr_transient (P : fs_t -> Prop) :
  carries h C P (delivered l) (SRmr (transient_dir B ios)).
Proof using All.
  intros w w' Hc _ Hd Hrun p Hp. cbn [exec] in Hrun.
  apply rmr_effect in Hrun as (_ & [(_ & ->)|(_ & ->)]); [exact (Hd p Hp)|].
  assert (Habs : Py.isabs (transient_dir B ios) = true).
  { destruct (transient_below B B_nonempty B_name B_abs ios) as (name & _ & ->).
    apply (isabs_below B B_nonempty B_name B_abs). }
  rewrite Hc, (resolve_abs C _ Habs).
  rewrite (package_outside_transient B B_nonempty B_name B_abs ios p (l_packages p Hp)).
  exact (Hd p Hp).
Qed.

Lemma carries_copy (P : fs_t -> Prop) (src dst : string) :
  carries h C P (delivered l) (SFs (Copy src dst)).
Proof using All.
  intros w w' Hc _ Hd Hrun p Hp. cbn [exec] in Hrun.
  apply fs_call_effect in Hrun as (_ & Hfs). cbn [fs_apply] in Hfs.
  apply copy_changes in Hfs as (real & _ & _ & Hfs'). rewrite Hfs'.
  destruct (String.eqb p real); [reflexivity | exact (Hd p Hp)].
Qed.

Lemma carries_mkdirp_stage (P : fs_t -> Prop) (name : string) :
  has_char "/" name = false ->
  carries h C P (delivered l) (SMkdirp ((B +:+ "/lib") +:+ String "/" name)).
Proof using All.
  intros Hname w w' Hc _ Hd Hrun p Hp. cbn [exec] in Hrun.
  apply mkdirp_effect in Hrun as (_ & [(_ & ->)|(_ & ->)]); [exact (Hd p Hp)|].
  rewrite Hc, (resolve_abs C _ (isabs_staged B B_nonempty B_name B_abs _)).
  rewrite (staged_ancestors B B_nonempty B_name B_abs name Hname).
  pose proof (l_packages p Hp) as Hpk.
  pose proof (package_below B B_nonempty B_name B_abs ios p Hpk) as Hbelow.
  pose proof (package_outside_lib B B_nonempty B_name B_abs ios p Hpk) as Hlib.
  destruct (String.eqb_spec p ((B +:+ "/lib") +:+ String "/" name)) as [E|_].
  { rewrite E, (staged_under B B_nonempty B_name B_abs) in Hlib. discriminate. }
  cbn [orb].
  destruct (existsb (String.eqb p) (FS.ancestors B ++ [B; B +:+ "/lib"])) eqn:E;
    [|exact (Hd p Hp)].
  exfalso. apply existsb_exists in E as (a & Ha & Hpa). apply String.eqb_eq in Hpa as <-.
  apply in_app_iff in Ha as [Ha|[<-|[<-|[]]]].
  - apply ancestor_not_under in Ha. congruence.
  - now destruct (package_is_not_transient B B_nonempty B_name B_abs ios B Hpk).
  - rewrite under_refl in Hlib. discriminate.
Qed.

(** An archive command delivers its archive and keeps the others. *)
Lemma archive_delivers (cmd name : string) (env : option (gmap string string))
    (w w' : world) :
  archive_name cmd = Some name -> is_bundle_cmd cmd = false ->
  cwd w = C -> delivered l (fs w) ->
  exec h (SSh cmd env (Some B)) w = (w', Ret tt) ->
  delivered (Py.path_join2 B name :: l) (fs w').
Proof using All.
  intros Ha Hb Hc Hd Hrun.
  destruct (archive_changes B B_nonempty B_name B_abs h C tools outside
              cmd name env w w' Ha Hb Hc Hrun) as [_ Hch].
  cbn [exec] in Hrun. apply (sh_effect h) in Hrun as (_ & n & env' & Hfs).
  cbn [from_option] in Hfs. rewrite Hc, (resolve_abs C B B_abs) in Hfs.
  assert (Hnew : fs w' (Py.path_join2 B name) = Some File)
    by (rewrite Hfs; now apply deliver).
  intros p [<-|Hp]; [exact Hnew|].
  destruct (node_eq_or_not (fs w' p) (fs w p)) as [E|E]; [rewrite E; exact (Hd p Hp)|].
  rewrite (Hch p (package_below B B_nonempty B_name B_abs ios p (l_packages p Hp)) E).
  exact Hnew.
Qed.

(** The copy of the Java archive into the build directory. *)
Lemma jar_delivered (src : string) (w w' : world) :
  FS.basename (FS.resolve C src) = "libwebrtc.jar" ->
  cwd w = C -> fs w B = Some Dir -> delivered l (fs w) ->
  exec h (SFs (Copy src B)) w = (w', Ret tt) ->
  delivered (Py.path_join B ["libwebrtc.jar"] :: l) (fs w').
Proof using All.
  intros Hbase Hc HB Hd Hrun. cbn [exec] in Hrun.
  apply fs_call_effect in Hrun as (_ & Hfs). cbn [fs_apply] in Hfs.
  rewrite Hc, (resolve_abs C B B_abs) in Hfs.
  apply copy_changes in Hfs as (real & Hreal & _ & Hfs').
  unfold FS.isdir in Hreal. rewrite HB, Hbase in Hreal.
  intros p Hp. rewrite Hfs'.
  destruct (String.eqb_spec p real) as [_|Hne]; [reflexivity|].
  destruct Hp as [<-|Hp]; [|exact (Hd p Hp)].
  exfalso. apply Hne. now rewrite Hreal.
Qed.

End Delivery.

Section DeliveryPlan.

Variable h : host.
Variables B C : string.

Hypothesis B_nonempty : B <> EmptyString.
Hypothesis B_name : Py.ends_with_slash B = false.
Hypothesis B_abs : Py.isabs B = true.
Hypothesis tools : tools_write_outputs h B.
Hypothesis outside :
  forall rel p, Py.isabs rel = false ->
    FS.under (FS.resolve C rel) p = true -> FS.under B p = false.
Hypothesis deliver : archivers_deliver h.

Lemma ios_delivers (debug : bool) (w w' : world) :
  cwd w = C -> assembling B true (fs w) ->
  run_steps h (assemble_ios (outputDirName (build_type_name debug)) B (targets "ios")) w
  = (w', Ret tt) ->
  delivered (packages B true) (fs w').
Proof using All.
  intros Hc HP Hrun. unfold assemble_ios in Hrun.
  let l := eval vm_compute in (List.filter is_simulator (targets "ios")) in
  change (List.filter is_simulator (targets "ios")) with l in Hrun.
  cbv beta iota zeta in Hrun.
  change (Py.path_join B ["WebRTC.xcframework"]) with (transient_dir B true) in Hrun.
  set (pk1 := Py.path_join2 B "WebRTC.xcframework-bitcode.tgz").
  set (pk2 := Py.path_join2 B "WebRTC.xcframework.tgz").
  assert (Hl1 : incl [pk1] (packages B true)) by (intros x [<-|[]]; now left).
  assert (Hl2 : incl [pk2; pk1] (packages B true))
    by (intros x [<-|[<-|[]]]; [right; now left | now left]).
  assert (Hext := assembling_ext B B_nonempty B_name B_abs h C tools outside true).
  assert (Hquiet : forall s, quiet_below h B C s -> keeps h C (assembling B true) s)
    by (intros s; apply (quiet_keeps B B_nonempty B_name B_abs h C tools outside);
        exact Hext).
  assert (Htool : forall cmd env ca, archive_name cmd = None ->
            keeps h C (assembling B true) (SSh cmd env ca))
    by (intros; now apply (keeps_bundle B B_nonempty B_name B_abs h C tools outside)).
  assert (Htar : forall cmd name, archive_name cmd = Some name ->
            is_bundle_cmd cmd = false -> In (Py.path_join2 B name) (packages B true) ->
            keeps h C (assembling B true) (SSh cmd None (Some B)))
    by (intros cmd name; apply (keeps_archive_assembling B B_nonempty B_name B_abs
                                  h C tools outside)).
  assert (Hrm := keeps_rmr_transient h B C B_nonempty B_name B_abs tools outside true).
  apply run_steps_app_inv in Hrun as (wa & Hfirst & Hrun).
  apply run_steps_app_inv in Hrun as (wb & Hstrips & Hlast).
  (* the fat framework and the bundle with bitcode *)
  apply run_steps_cons_inv in Hfirst as (w1 & Hs1 & Hfirst).
  lazymatch type of Hs1 with exec _ ?s _ = _ =>
    assert (K1 : quiet_below h B C s)
      by (apply (quiet_copytree B B_nonempty B_name B_abs h C tools outside);
          now destruct debug)
  end.
  destruct (Hquiet _ K1 w w1 Hc HP Hs1) as [Hc1 HP1].
  apply run_steps_cons_inv in Hfirst as (w2 & Hs2 & Hfirst).
  lazymatch type of Hs2 with exec _ ?s _ = _ =>
    assert (K2 : keeps h C (assembling B true) s) by (apply Htool; reflexivity)
  end.
  destruct (K2 w1 w2 Hc1 HP1 Hs2) as [Hc2 HP2].
  apply run_steps_cons_inv in Hfirst as (w3 & Hs3 & Hfirst).
  lazymatch type of Hs3 with exec _ ?s _ = _ =>
    assert (K3 : quiet_below h B C s)
      by (apply (quiet_move B B_nonempty B_name B_abs h C tools outside);
          now destruct debug)
  end.
  destruct (Hquiet _ K3 w2 w3 Hc2 HP2 Hs3) as [Hc3 HP3].
  apply run_steps_cons_inv in Hfirst as (w4 & Hs4 & Hfirst).
  lazymatch type of Hs4 with exec _ ?s _ = _ =>
    assert (K4 : quiet_below h B C s)
      by (apply (quiet_move B B_nonempty B_name B_abs h C tools outside);
          now destruct debug)
  end.
  destruct (Hquiet _ K4 w3 w4 Hc3 HP3 Hs4) as [Hc4 HP4].
  apply run_steps_cons_inv in Hfirst as (w5 & Hs5 & Hfirst).
  destruct (Htool _ _ _ (bundle_is_no_archive _ _ _) w4 w5 Hc4 HP4 Hs5) as [Hc5 HP5].
  apply run_steps_cons_inv in Hfirst as (w6 & Hs6 & Hfirst).
  destruct (Htar "tar zcf WebRTC.xcframework-bitcode.tgz WebRTC.xcframework"
              "WebRTC.xcframework-bitcode.tgz" eq_refl eq_refl (or_introl eq_refl)
              w5 w6 Hc5 HP5 Hs6) as [Hc6 HP6].
  assert (HQ6 : delivered [pk1] (fs w6)).
  { refine (archive_delivers h B C true B_nonempty B_name B_abs tools outside deliver
              [] _ "tar zcf WebRTC.xcframework-bitcode.tgz WebRTC.xcframework"
              "WebRTC.xcframework-bitcode.tgz" None w5 w6 eq_refl eq_refl Hc5 _ Hs6).
    - intros x [].
    - intros x []. }
  apply run_steps_cons_inv in Hfirst as (w7 & Hs7 & Hfirst).
  destruct (Hrm w6 w7 Hc6 HP6 Hs7) as [Hc7 HP7].
  pose proof (carries_rmr_transient h B C true B_nonempty B_name B_abs tools outside
                deliver [pk1] Hl1 _ w6 w7 Hc6 HP6 HQ6 Hs7) as HQ7.
  apply run_steps_nil_inv in Hfirst as ->.
  (* the strip commands *)
  assert (Hb : cwd wb = C /\ assembling B true (fs wb) /\ delivered [pk1] (fs wb)).
  { refine (run_carries h C _ _ _ _ _ w7 wb Hc7 HP7 HQ7 Hstrips).
    - apply (strips_keep_assembling h B C B_nonempty B_name B_abs tools outside).
    - apply List.Forall_map, Forall_forall; intros t _.
      destruct (strip_is_no_packaging (outputDirName (build_type_name debug)) t)
        as (cmd & -> & Hbc & Hac).
      apply (carries_quiet h B C true B_nonempty B_name B_abs tools outside deliver
               [pk1] Hl1).
      now apply (quiet_tool B B_nonempty B_name B_abs h C tools outside). }
  destruct Hb as (Hcb & HPb & HQb).
  (* the stripped bundle *)
  apply run_steps_cons_inv in Hlast as (w8 & Hs8 & Hlast).
  destruct (Htool _ _ _ (bundle_is_no_archive _ _ _) wb w8 Hcb HPb Hs8) as [Hc8 HP8].
  pose proof (carries_bundle h B C true B_nonempty B_name B_abs tools outside deliver
                [pk1] Hl1 (assembling B true) _ _ _ (bundle_is_no_archive _ _ _)
                wb w8 Hcb HPb HQb Hs8) as HQ8.
  apply run_steps_cons_inv in Hlast as (w9 & Hs9 & Hlast).
  destruct (Htar "tar zcf WebRTC.xcframework.tgz WebRTC.xcframework"
              "WebRTC.xcframework.tgz" eq_refl eq_refl
              (or_intror (or_introl eq_refl)) w8 w9 Hc8 HP8 Hs9) as [Hc9 HP9].
  pose proof (archive_delivers h B C true B_nonempty B_name B_abs tools outside deliver
                [pk1] Hl1 "tar zcf WebRTC.xcframework.tgz WebRTC.xcframework"
                "WebRTC.xcframework.tgz" None w8 w9 eq_refl eq_refl
                Hc8 HQ8 Hs9) as HQ9.
  apply run_steps_cons_inv in Hlast as (w10 & Hs10 & Hlast).
  pose proof (carries_rmr_transient h B C true B_nonempty B_name B_abs tools outside
                deliver [pk2; pk1] Hl2 _ w9 w10 Hc9 HP9 HQ9 Hs10) as HQ10.
  apply run_steps_nil_inv in Hlast as ->.
  intros p [<-|[<-|[]]]; apply HQ10; [right; now left | now left].
Qed.

Lemma stage_carries (D : BuildTarget -> string) (l : list string) (t : BuildTarget) :
  incl l (packages B false) ->
  Forall (carries h C (assembling B false) (delivered l)) (stage_steps D B t).
Proof using All.
  intros Hl. unfold stage_steps.
  destruct (ANDROID_CPU_ABI_MAP !! architecture t) as [abi|] eqn:E; [|constructor].
  destruct (abi_names _ _ E) as [Hne Hsep].
  assert (Hrel : Py.isabs abi = false).
  { destruct abi as [|c s]; [reflexivity|]. unfold Py.isabs.
    rewrite prefix_cons, prefix_nil_l, andb_true_r. cbn in Hsep.
    apply orb_false_iff in Hsep as [Hc _]. now rewrite Ascii.eqb_sym. }
  rewrite (join_lib B B_nonempty B_name B_abs abi Hrel).
  apply List.Forall_cons; [|apply List.Forall_cons; [|apply List.Forall_nil]].
  - now apply (carries_mkdirp_stage h B C false B_nonempty B_name B_abs tools outside
                 deliver l Hl).
  - apply (carries_copy h B C false B_nonempty B_name B_abs tools outside deliver l Hl).
Qed.

Lemma android_delivers (D : BuildTarget -> string) (w w' : world) :
  cwd w = C -> assembling B false (fs w) ->
  run_steps h (assemble_android D B (targets "android")) w = (w', Ret tt) ->
  delivered (packages B false) (fs w').
Proof using All.
  intros Hc HP Hrun. unfold assemble_android in Hrun.
  let l := eval vm_compute in (targets "android") in
  change (targets "android") with l in Hrun.
  cbv beta iota zeta in Hrun.
  set (pk1 := Py.path_join B ["libwebrtc.jar"]).
  set (pk2 := Py.path_join2 B "libjingle_peerconnection.so.jar").
  set (pk3 := Py.path_join2 B "android-webrtc.tgz").
  assert (Hl1 : incl [pk1] (packages B false)) by (intros x [<-|[]]; now left).
  assert (Hl2 : incl [pk2; pk1] (packages B false))
    by (intros x [<-|[<-|[]]]; [right; now left | now left]).
  apply run_steps_app_inv in Hrun as (wa & Hfirst & Hrun).
  apply run_steps_app_inv in Hrun as (wb & Hstage & Hlast).
  (* the Java archive *)
  assert (Hbase : FS.basename
            (FS.resolve C
               (Py.path_join (D (Target Native "arm"))
                  ["lib.java/sdk/android/libwebrtc.jar"])) = "libwebrtc.jar").
  { unfold FS.resolve, Py.path_join. cbn [fold_left]. unfold Py.path_join2.
    change (Py.isabs "lib.java/sdk/android/libwebrtc.jar") with false. cbv iota.
    match goal with |- FS.basename (if ?c then _ else _) = _ => destruct c end;
      [|rewrite <- append_assoc]; rewrite basename_app by reflexivity; reflexivity. }
  apply run_steps_cons_inv in Hfirst as (w1 & Hs1 & Hfirst).
  apply run_steps_nil_inv in Hfirst as ->.
  destruct (keeps_copy_jar B B_nonempty B_name B_abs h C tools outside _ Hbase
              w w1 Hc HP Hs1) as [Hc1 HP1].
  assert (HQ1 : delivered [pk1] (fs w1)).
  { refine (jar_delivered h B C false B_nonempty B_name B_abs tools outside deliver
              [] _ _ w w1 Hbase Hc (proj1 HP) _ Hs1).
    - intros x [].
    - intros x []. }
  (* the staging *)
  assert (Hb : cwd wb = C /\ assembling B false (fs wb) /\ delivered [pk1] (fs wb)).
  { refine (run_carries h C _ _ _ _ _ w1 wb Hc1 HP1 HQ1 Hstage).
    - apply Forall_concat, List.Forall_map, Forall_forall. intros t _.
      apply (stage_keeps_assembling h B C B_nonempty B_name B_abs tools outside).
    - apply Forall_concat, List.Forall_map, Forall_forall. intros t _.
      now apply stage_carries. }
  destruct Hb as (Hcb & HPb & HQb).
  (* the archives *)
  apply run_steps_cons_inv in Hlast as (w2 & Hs2 & Hlast).
  destruct (keeps_archive_assembling B B_nonempty B_name B_abs h C tools outside false
              "jar cvfM libjingle_peerconnection.so.jar lib"
              "libjingle_peerconnection.so.jar" None eq_refl eq_refl
              (or_intror (or_introl eq_refl)) wb w2 Hcb HPb Hs2) as [Hc2 HP2].
  pose proof (archive_delivers h B C false B_nonempty B_name B_abs tools outside deliver
                [pk1] Hl1 "jar cvfM libjingle_peerconnection.so.jar lib"
                "libjingle_peerconnection.so.jar" None wb w2 eq_refl eq_refl
                Hcb HQb Hs2) as HQ2.
  apply run_steps_cons_inv in Hlast as (w3 & Hs3 & Hlast).
  destruct (keeps_rmr_transient h B C B_nonempty B_name B_abs tools outside false
              w2 w3 Hc2 HP2 Hs3) as [Hc3 HP3].
  pose proof (carries_rmr_transient h B C false B_nonempty B_name B_abs tools outside
                deliver [pk2; pk1] Hl2 _ w2 w3 Hc2 HP2 HQ2 Hs3) as HQ3.
  apply run_steps_cons_inv in Hlast as (w4 & Hs4 & Hlast).
  apply run_steps_nil_inv in Hlast as ->.
  pose proof (archive_delivers h B C false B_nonempty B_name B_abs tools outside deliver
                [pk2; pk1] Hl2 "tar zcf android-webrtc.tgz *.jar"
                "android-webrtc.tgz" None w3 w4 eq_refl eq_refl
                Hc3 HQ3 Hs4) as HQ4.
  intros p [<-|[<-|[<-|[]]]]; apply HQ4;
    [right; right; now left | right; now left | now left].
Qed.

End DeliveryPlan.

(** X21: when a build completes, every final package is in the build
    directory, as a file: with the theorem on the contents of the build
    directory, the directory holds exactly the packages.  This is so for
    an absolute target directory, on a file system that is a tree, with
    tools that change nothing below the build directory but what they
    are asked for, and archivers that leave their archive in their
    working directory. *)
Theorem build_delivers_packages (h : host) (target_dir : string) (ios debug : bool)
    (w : world) :
  let build_dir := Py.path_join target_dir ["build"; platform_name ios] in
  let w' := (build h target_dir (platform_name ios) debug w).1 in
  Py.isabs target_dir = true ->
  is_tree (fs w) ->
  tools_write_outputs h build_dir ->
  archivers_deliver h ->
  (build h target_dir (platform_name ios) debug w).2 = Ret tt ->
  forall p, In p (packages build_dir ios) -> fs w' p = Some File.
Proof.
  intros B w' Habs Htree Htools Hdeliver Hret.
  destruct (build_completes_plan h target_dir ios debug w Hret) as (env & Hplan).
  subst w'. rewrite Hplan in *. clear Hplan.
  set (C := Py.path_join target_dir ["webrtc"; platform_name ios; "src"]).
  assert (HBne : B <> EmptyString).
  { subst B. rewrite build_dir_path. destruct (Py.slashed target_dir); discriminate. }
  assert (HBname : Py.ends_with_slash B = false).
  { subst B. rewrite build_dir_path, ends_with_slash_app. now destruct ios. }
  assert (HBabs : Py.isabs B = true).
  { subst B. rewrite build_dir_path. now apply below_target_abs. }
  assert (HCabs : Py.isabs C = true).
  { subst C. rewrite webrtc_dir_path. now apply below_target_abs. }
  assert (Hout : forall rel p, Py.isabs rel = false ->
            FS.under (FS.resolve C rel) p = true -> FS.under B p = false)
    by (intros rel p; now apply source_outside_build).
  destruct (run_steps h _ w) as [w' r] eqn:Hrun. cbn [fst snd] in *. subst r.
  unfold build_plan in Hrun. cbv zeta in Hrun. fold B C in Hrun.
  cbn [app] in Hrun.
  apply run_steps_cons_inv in Hrun as (w1 & Hcd & Hrun).
  cbn [exec] in Hcd. apply fs_call_effect in Hcd as [Hc1 Hfs1].
  cbn [fs_cwd fs_apply] in Hc1, Hfs1. rewrite (resolve_abs _ C HCabs) in Hc1, Hfs1.
  destruct (FS.isdir (fs w) C); [|discriminate]. injection Hfs1 as Hfs1.
  assert (Hr1 : rooted B (fs w1)) by (rewrite <- Hfs1; now apply is_tree_rooted).
  rewrite (app_assoc (map _ _)), app_comm_cons in Hrun.
  apply run_steps_app_inv in Hrun as (w2 & Hprep & Hrun).
  destruct (run_keeps h C _ _
              (prepare_keeps_rooted h B C HBne HBname HBabs Htools Hout _ debug env _)
              w1 w2 Hc1 Hr1 Hprep) as [Hc2 Hr2].
  cbn [app] in Hrun.
  apply run_steps_cons_inv in Hrun as (w3 & Hrm & Hrun).
  apply run_steps_cons_inv in Hrun as (w4 & Hmk & Hrun).
  destruct (cleaned B HBne HBname HBabs h C Htools Hout ios w2 w3 w4 Hc2 Hr2 Hrm Hmk)
    as [Hc4 HP4].
  destruct ios; cbn [platform_name String.eqb Ascii.eqb Bool.eqb] in Hrun.
  - exact (ios_delivers h B C HBne HBname HBabs Htools Hout Hdeliver debug w4 w' Hc4 HP4
             Hrun).
  - exact (android_delivers h B C HBne HBname HBabs Htools Hout Hdeliver _ w4 w' Hc4 HP4
             Hrun).
Qed.

Lemma build_delivers_packages_witness :
  let build_dir := Py.path_join "/w/build_webrtc" ["build"; platform_name true] in
  let w' := (build packaging_host "/w/build_webrtc" (platform_name true) false
               (start ios_tree "/")).1 in
  fs w' (Py.path_join build_dir ["WebRTC.xcframework-bitcode.tgz"]) = Some File /\
  fs w' (Py.path_join build_dir ["WebRTC.xcframework.tgz"]) = Some File.
Proof.
  assert (H : Py.isabs "/w/build_webrtc" = true /\ is_tree (fs (start ios_tree "/")) /\
              tools_write_outputs packaging_host
                (Py.path_join "/w/build_webrtc" ["build"; platform_name true]) /\
              archivers_deliver packaging_host /\
              (build packaging_host "/w/build_webrtc" (platform_name true) false
                 (start ios_tree "/")).2 = Ret tt);
    [|destruct H as (H1 & H2 & H3 & H4 & H5);
      split;
        apply (build_delivers_packages packaging_host "/w/build_webrtc" true false
                 (start ios_tree "/") H1 H2 H3 H4 H5);
        [now left | right; now left]].
  split; [|split; [|split; [|split]]].
  - reflexivity.
  - intros p Hp a Ha. cbn [fs start] in *. unfold ios_tree in Hp.
    destruct (existsb _ _) eqn:E; [|contradiction].
    apply existsb_exists in E as (x & Hx & Hpx). apply String.eqb_eq in Hpx. subst x.
    cbn [In] in Hx. decompose [or] Hx; try contradiction; subst p;
      vm_compute in Ha; decompose [or] Ha; try contradiction; subst a; reflexivity.
  - intros n cmd env dir fs p Hp Hch. cbn [child packaging_host snd] in *.
    destruct (archive_name cmd) as [name|] eqn:Ea.
    + right. exists name. split; [reflexivity|].
      unfold overlay in Hch. cbn [List.find fst snd] in Hch.
      destruct (String.eqb_spec p (Py.path_join2 dir name)); [assumption | contradiction].
    + destruct (is_bundle_cmd cmd) eqn:Eb.
      * left. split; [reflexivity|].
        unfold overlay in Hch. cbn [List.find fst snd] in Hch.
        destruct (String.eqb_spec p "/w/build_webrtc/build/ios/WebRTC.xcframework");
          [subst p | contradiction].
        split; reflexivity.
      * exfalso. unfold overlay in Hch.
        destruct (List.find _ ios_outputs) as [e|] eqn:Ef; [|contradiction].
        apply find_some in Ef as [Hin He]. apply String.eqb_eq in He. subst p.
        vm_compute in Hin. decompose [or] Hin; try contradiction; subst e;
          vm_compute in Hp; discriminate Hp.
  - intros n cmd env dir fs name Ha. cbn [child packaging_host snd].
    rewrite Ha. unfold overlay. cbn [List.find fst snd].
    now rewrite String.eqb_refl.
  - vm_compute. reflexivity.
Defined.
